(** * Admission control of the Codalyzer backend (src/backend/index.py)

    A shallow embedding of the rate-limiting subsystem: the two Lua
    scripts run on the Redis counter store, the key scheme, the client
    identity, and [rate_limit_middleware], followed by the properties
    of that subsystem.

    Conventions of the model.
    - The counter store is a finite map from key to an integer value and
      a remaining time-to-live in seconds ([None]: the key never
      expires), the view Redis gives through GET and TTL.  The counter
      keys are only written by INCR, DECR and SET 0, so their values are
      integers; Redis keeps them in the signed 64-bit range and INCR and
      DECR raise an error instead of leaving it.
    - A request served by the middleware threads a world (store and
      process-local telemetry) and records the store transactions it
      issues and the call to the wrapped handler in a trace.
    - The clock is read by the code several times per request; each
      reading is an input. *)

From Stdlib Require Import ZArith Ascii String Bool List.
From stdpp Require Import base option gmap strings list fin_maps.

Local Open Scope Z_scope.

(** ** The counter store and the Redis commands used by the scripts *)

Module Redis.

Record entry : Type := Entry { value : Z; ttl : option Z }.

Abbreviation store := (gmap string entry).

Definition INT64_MAX : Z := 9223372036854775807.
Definition INT64_MIN : Z := -9223372036854775808.

(** A script is a sequence of [redis.call]s on the store.  A call that
    raises aborts the script ([None]); what it wrote before stays. *)
Definition script (A : Type) : Type := store -> store * option A.

Definition ret {A} (a : A) : script A := fun s => (s, Some a).

Definition bind {A B} (m : script A) (k : A -> script B) : script B :=
  fun s =>
    match m s with
    | (s', Some a) => k a s'
    | (s', None) => (s', None)
    end.

Declare Scope script_scope.
Delimit Scope script_scope with script.
Notation "x <- m ;; k" := (bind m (fun x => k))
  (at level 100, m at next level, right associativity) : script_scope.
Notation "m ;;; k" := (bind m (fun _ => k))
  (at level 100, right associativity) : script_scope.

(** INCR: an absent key counts from 0 and gets no expiry; an existing
    key keeps its expiry. *)
Definition INCR (k : string) : script Z :=
  fun s =>
    match s !! k with
    | None => (<[k := Entry 1 None]> s, Some 1)
    | Some e =>
        if INT64_MAX <=? value e then (s, None)
        else (<[k := Entry (value e + 1) (ttl e)]> s, Some (value e + 1))
    end.

Definition DECR (k : string) : script Z :=
  fun s =>
    match s !! k with
    | None => (<[k := Entry (-1) None]> s, Some (-1))
    | Some e =>
        if value e <=? INT64_MIN then (s, None)
        else (<[k := Entry (value e - 1) (ttl e)]> s, Some (value e - 1))
    end.

(** EXPIRE: 1 when the timeout was set, 0 when the key is absent; a
    timeout that is not positive deletes the key. *)
Definition EXPIRE (k : string) (seconds : Z) : script Z :=
  fun s =>
    match s !! k with
    | None => (s, Some 0)
    | Some e =>
        if seconds <=? 0 then (delete k s, Some 1)
        else (<[k := Entry (value e) (Some seconds)]> s, Some 1)
    end.

Definition EXISTS (k : string) : script Z :=
  fun s => (s, Some (match s !! k with Some _ => 1 | None => 0 end)).

(** SET without KEEPTTL: the value is replaced and any expiry of the key
    is discarded. *)
Definition SET (k : string) (v : Z) : script unit :=
  fun s => (<[k := Entry v None]> s, Some tt).

(** GET as the status endpoint uses it: [int(await redis.get(k) or 0)]. *)
Definition read (s : store) (k : string) : Z :=
  match s !! k with Some e => value e | None => 0 end.

(** The passage of [dt] seconds: times-to-live run down, and a key whose
    time is up is gone. *)
Definition elapse (dt : Z) (s : store) : store :=
  omap (fun e =>
          match ttl e with
          | None => Some e
          | Some t => if t <=? dt then None else Some (Entry (value e) (Some (t - dt)))
          end) s.

End Redis.

Import Redis.
Local Open Scope script_scope.

(** ** The two server-side scripts *)

Definition _RATE_LIMIT_LUA (key1 key2 : string) (argv1 : Z) : script (Z * Z) :=
  ip_count <- INCR key1 ;;
  (if ip_count =? 1 then EXPIRE key1 argv1 else ret 0) ;;;
  global_count <- INCR key2 ;;
  (if global_count =? 1 then EXPIRE key2 argv1 else ret 0) ;;;
  ret (ip_count, global_count).

(** One key of the refund script: the count it reports for the key. *)
Definition decr_floor (key : string) : script Z :=
  ex <- EXISTS key ;;
  if ex =? 1 then
    c <- DECR key ;;
    if c <? 0 then (SET key 0 ;;; ret 0) else ret c
  else ret 0.

Definition _RATE_LIMIT_DECR_LUA (key1 key2 : string) : script (Z * Z) :=
  ip_count <- decr_floor key1 ;;
  global_count <- decr_floor key2 ;;
  ret (ip_count, global_count).

(** ** Python string operations used by the code *)

Module Py.

(** [str.isspace] on the code points a header can carry (latin-1). *)
Definition isspace (c : ascii) : bool :=
  let n := nat_of_ascii c in
  ((9 <=? n) && (n <=? 13) || (28 <=? n) && (n <=? 32)
   || (n =? 133) || (n =? 160))%nat.

Fixpoint lstrip (s : string) : string :=
  match s with
  | EmptyString => EmptyString
  | String c r => if isspace c then lstrip r else s
  end.

Fixpoint rstrip (s : string) : string :=
  match s with
  | EmptyString => EmptyString
  | String c r =>
      match rstrip r with
      | EmptyString => if isspace c then EmptyString else String c EmptyString
      | r' => String c r'
      end
  end.

(** [s.strip()] *)
Definition strip (s : string) : string := rstrip (lstrip s).

(** [s.split(",")[0]]: what precedes the first comma, all of [s] when it
    has none. *)
Fixpoint split_comma_first (s : string) : string :=
  match s with
  | EmptyString => EmptyString
  | String c r => if Ascii.eqb c "," then EmptyString else String c (split_comma_first r)
  end.

(** [s.endswith(suffix)] *)
Definition endswith (s suffix : string) : bool :=
  let n := String.length s in
  let m := String.length suffix in
  ((m <=? n)%nat && String.eqb (String.substring (n - m) m s) suffix).

(** Truth value of [x] in [if x := headers.get(..)]: neither [None] nor
    the empty string. *)
Definition truthy (o : option string) : bool :=
  match o with
  | Some (String _ _) => true
  | _ => false
  end.

End Py.

(** ** Settings, requests, responses *)

Record Settings : Type := {
  DEBUG : bool;
  UPSTASH_REDIS_URL : option string;
  UPSTASH_REDIS_TOKEN : option string;
  DAILY_RATE_LIMIT : Z;
  GLOBAL_RATE_LIMIT : Z
}.

(** [bool(self.UPSTASH_REDIS_URL and self.UPSTASH_REDIS_TOKEN)] *)
Definition rate_limiting_enabled (settings : Settings) : bool :=
  Py.truthy (UPSTASH_REDIS_URL settings) && Py.truthy (UPSTASH_REDIS_TOKEN settings).

(** The part of a request the middleware looks at.  [headers] maps a
    header name to its value, [client] is the host of [request.client]. *)
Record Request : Type := {
  method : string;
  path : string;
  headers : gmap string string;
  client : option string
}.

(** Values put in headers and JSON bodies: [HInt n] stands for [str(n)],
    [HIso t] for [isoformat()] of the UTC instant [t]. *)
Inductive hval : Type :=
| HStr (s : string)
| HInt (n : Z)
| HIso (t : Z).

Inductive jval : Type :=
| JBool (b : bool)
| JStr (s : string)
| JInt (n : Z)
| JIso (t : Z)
| JFmt (before : string) (n : Z) (after : string).

Inductive content : Type :=
| Raw (payload : string)
| JSON (fields : list (string * jval)).

Record Response : Type := {
  status_code : Z;
  body : content;
  resp_headers : gmap string hval
}.

Definition JSONResponse (status : Z) (fields : list (string * jval))
    (hs : list (string * hval)) : Response :=
  {| status_code := status; body := JSON fields; resp_headers := list_to_map hs |}.

(** [response.headers[name] = v] *)
Definition set_header (name : string) (v : hval) (r : Response) : Response :=
  {| status_code := status_code r; body := body r;
     resp_headers := <[name := v]> (resp_headers r) |}.

(** ** Client identity *)

Definition get_client_ip (request : Request) : string :=
  let forwarded := headers request !! "X-Forwarded-For" in
  if Py.truthy forwarded then
    Py.strip (Py.split_comma_first (default "" forwarded))
  else
    let real_ip := headers request !! "X-Real-IP" in
    if Py.truthy real_ip then Py.strip (default "" real_ip)
    else match client request with
         | Some host => host
         | None => "unknown"
         end.

(** ** Clock, bucket and key scheme *)

(** A reading of [datetime.datetime.now(_tz())]: the calendar date in the
    configured zone, the instant in seconds since the epoch, and the
    seconds from this instant to the next midnight of the zone. *)
Record datetime : Type := {
  year : nat;
  month : nat;
  day : nat;
  epoch : Z;
  until_midnight : Z
}.

Definition digit (n : nat) : ascii := ascii_of_nat (48 + n mod 10).

Definition pad2 (n : nat) : string :=
  String (digit (n / 10)) (String (digit n) EmptyString).

Definition pad4 (n : nat) : string :=
  String (digit (n / 1000)) (String (digit (n / 100)) (pad2 n)).

(** [now.strftime("%Y%m%d")] *)
Definition _day_str (now : datetime) : string :=
  pad4 (year now) +:+ pad2 (month now) +:+ pad2 (day now).

Definition ip_key_of (bucket ip : string) : string :=
  "codalyzer:rl:day:" +:+ bucket +:+ ":ip:" +:+ ip.

Definition global_key_of (bucket : string) : string :=
  "codalyzer:rl:global:day:" +:+ bucket.

Definition _ip_key (now : datetime) (ip : string) : string :=
  ip_key_of (_day_str now) ip.

Definition _global_key (now : datetime) : string :=
  global_key_of (_day_str now).

(** Midnight of the next day in the zone, as a UTC instant. *)
Definition _next_reset (now : datetime) : Z := epoch now + until_midnight now.

(** ** The world a request runs in *)

(** [_telemetry] *)
Record Telemetry : Type := {
  requests_total : Z;
  requests_failed : Z;
  gemini_timeouts : Z;
  gemini_errors : Z;
  redis_errors : Z;
  rate_limit_hits : Z
}.

Record world : Type := {
  counters : store;
  _telemetry : Telemetry
}.

Inductive exn : Type :=
| RedisError
| AppError (what : string).

Inductive result (A : Type) : Type :=
| Ok (a : A)
| Raise (e : exn).
Arguments Ok {A} a.
Arguments Raise {A} e.

(** What the middleware does to the outside, in order. *)
Inductive event : Type :=
| EvLimit (ip_key global_key : string) (ttl : Z)
| EvRefund (ip_key global_key : string)
| EvCallNext.

Definition io (A : Type) : Type := world * list event -> result A * (world * list event).

Definition io_ret {A} (a : A) : io A := fun st => (Ok a, st).

Definition io_bind {A B} (m : io A) (k : A -> io B) : io B :=
  fun st =>
    match m st with
    | (Ok a, st') => k a st'
    | (Raise e, st') => (Raise e, st')
    end.

(** [try: m except Exception as exc: h exc] *)
Definition try_except {A} (m : io A) (h : exn -> io A) : io A :=
  fun st =>
    match m st with
    | (Ok a, st') => (Ok a, st')
    | (Raise e, st') => h e st'
    end.

Declare Scope io_scope.
Delimit Scope io_scope with io.
Notation "x <~ m ; k" := (io_bind m (fun x => k))
  (at level 100, m at next level, right associativity) : io_scope.
Notation "m ;> k" := (io_bind m (fun _ => k))
  (at level 100, right associativity) : io_scope.

Definition emit (ev : event) : io unit :=
  fun st => (Ok tt, (fst st, snd st ++ [ev])).

Definition modify_telemetry (f : Telemetry -> Telemetry) : io unit :=
  fun st =>
    (Ok tt, ({| counters := counters (fst st); _telemetry := f (_telemetry (fst st)) |}, snd st)).

Definition bump_redis_errors (t : Telemetry) : Telemetry :=
  {| requests_total := requests_total t; requests_failed := requests_failed t;
     gemini_timeouts := gemini_timeouts t; gemini_errors := gemini_errors t;
     redis_errors := redis_errors t + 1; rate_limit_hits := rate_limit_hits t |}.

Definition bump_rate_limit_hits (t : Telemetry) : Telemetry :=
  {| requests_total := requests_total t; requests_failed := requests_failed t;
     gemini_timeouts := gemini_timeouts t; gemini_errors := gemini_errors t;
     redis_errors := redis_errors t; rate_limit_hits := rate_limit_hits t + 1 |}.

(** [_telemetry["requests_total"] -= 1; _telemetry["requests_failed"] += 1] *)
Definition count_refund (t : Telemetry) : Telemetry :=
  {| requests_total := requests_total t - 1; requests_failed := requests_failed t + 1;
     gemini_timeouts := gemini_timeouts t; gemini_errors := gemini_errors t;
     redis_errors := redis_errors t; rate_limit_hits := rate_limit_hits t |}.

(** How the connection treats one [redis.eval]: the script runs and its
    reply arrives, the request never reaches the store, or the script
    runs and the reply is lost (a timeout); the last two raise. *)
Inductive link : Type :=
| Up
| Down
| ReplyLost.

(** The handle in [app.state.redis], with the behaviour of the network
    on the first and on the second [eval] of the request. *)
Record RedisClient : Type := {
  first_eval : link;
  second_eval : link
}.

Definition run_script {A} (sc : script A) : io A :=
  fun st =>
    let '(s', r) := sc (counters (fst st)) in
    (match r with Some a => Ok a | None => Raise RedisError end,
     ({| counters := s'; _telemetry := _telemetry (fst st) |}, snd st)).

(** [await redis.eval(script, 2, key1, key2, ...)] *)
Definition redis_eval {A} (l : link) (ev : event) (sc : script A) : io A :=
  (emit ev ;>
   match l with
   | Up => run_script sc
   | Down => fun st => (Raise RedisError, st)
   | ReplyLost => fun st => (Raise RedisError, snd (run_script sc st))
   end)%io.

(** The rest of the application behind the middleware: it answers or
    raises, and may touch the store and the telemetry. *)
Definition handler : Type := world -> result Response * world.

(** [await call_next(request)] *)
Definition await_call_next (call_next : handler) : io Response :=
  (emit EvCallNext ;>
   fun st => let '(r, w') := call_next (fst st) in (r, (w', snd st)))%io.

(** The clock readings of one gated request, in the order of the code:
    in [_ip_key], in [_global_key], in [_next_reset], and the UTC instant
    read for [Retry-After]. *)
Record clock : Type := {
  at_ip_key : datetime;
  at_global_key : datetime;
  at_next_reset : datetime;
  at_retry_after : Z
}.

(** ** The middleware *)

Definition service_unavailable (message : string) : Response :=
  JSONResponse 503
    [("success", JBool false); ("error", JStr "service_unavailable");
     ("message", JStr message)]
    [].

Definition rate_limit_exceeded (settings : Settings) (ip_count reset_time seconds_until_reset : Z)
    : Response :=
  JSONResponse 429
    [("success", JBool false); ("error", JStr "rate_limit_exceeded");
     ("message", JFmt "Rate limit of " (DAILY_RATE_LIMIT settings) " requests per day exceeded");
     ("reset_at", JIso reset_time);
     ("requests_made", JInt ip_count);
     ("limit", JInt (DAILY_RATE_LIMIT settings))]
    [("Retry-After", HInt seconds_until_reset);
     ("X-RateLimit-Limit", HInt (DAILY_RATE_LIMIT settings));
     ("X-RateLimit-Remaining", HStr "0");
     ("X-RateLimit-Reset", HIso reset_time)].

Definition global_limit_exceeded (settings : Settings) (reset_time seconds_until_reset : Z)
    : Response :=
  JSONResponse 429
    [("success", JBool false); ("error", JStr "global_limit_exceeded");
     ("message", JFmt "Global rate limit of " (GLOBAL_RATE_LIMIT settings) " requests per day exceeded");
     ("reset_at", JIso reset_time)]
    [("Retry-After", HInt seconds_until_reset);
     ("X-RateLimit-Global-Limit", HInt (GLOBAL_RATE_LIMIT settings));
     ("X-RateLimit-Global-Remaining", HStr "0");
     ("X-RateLimit-Reset", HIso reset_time)].

(** The refund of a failed request: the client count to report after it. *)
Definition refund_quota (redis : RedisClient) (ip_key global_key : string) (ip_count : Z) : io Z :=
  (try_except
     (refund_result <~ redis_eval (second_eval redis) (EvRefund ip_key global_key)
                         (_RATE_LIMIT_DECR_LUA ip_key global_key);
      modify_telemetry count_refund ;>
      io_ret (fst refund_result))
     (fun refund_exc => io_ret ip_count))%io.

Definition gated (request : Request) : bool :=
  String.eqb (method request) "POST" && Py.endswith (path request) "/analyze".

Definition rate_limit_middleware (settings : Settings) (app_state_redis : option RedisClient)
    (now : clock) (request : Request) (call_next : handler) : io Response :=
  (if negb (String.eqb (method request) "POST") || negb (Py.endswith (path request) "/analyze")
   then await_call_next call_next
   else
     match app_state_redis with
     | None =>
         if rate_limiting_enabled settings then
           modify_telemetry bump_redis_errors ;>
           io_ret (service_unavailable "Rate limiting service temporarily unavailable")
         else await_call_next call_next
     | Some redis =>
         try_except
           (let client_ip := get_client_ip request in
            let ip_key := _ip_key (at_ip_key now) client_ip in
            let global_key := _global_key (at_global_key now) in
            let ttl := 90000 in
            counts <~ redis_eval (first_eval redis) (EvLimit ip_key global_key ttl)
                        (_RATE_LIMIT_LUA ip_key global_key ttl);
            let ip_count := fst counts in
            let global_count := snd counts in
            let reset_time := _next_reset (at_next_reset now) in
            let seconds_until_reset := reset_time - at_retry_after now in
            if DAILY_RATE_LIMIT settings <? ip_count then
              modify_telemetry bump_rate_limit_hits ;>
              io_ret (rate_limit_exceeded settings ip_count reset_time seconds_until_reset)
            else if GLOBAL_RATE_LIMIT settings <? global_count then
              modify_telemetry bump_rate_limit_hits ;>
              io_ret (global_limit_exceeded settings reset_time seconds_until_reset)
            else
              response <~ await_call_next call_next;
              ip_count' <~ (if 500 <=? status_code response
                            then refund_quota redis ip_key global_key ip_count
                            else io_ret ip_count);
              io_ret
                (set_header "X-RateLimit-Reset" (HIso reset_time)
                   (set_header "X-RateLimit-Remaining"
                      (HInt (Z.max 0 (DAILY_RATE_LIMIT settings - ip_count')))
                      (set_header "X-RateLimit-Limit" (HInt (DAILY_RATE_LIMIT settings))
                         response))))
           (fun exc =>
              modify_telemetry bump_redis_errors ;>
              io_ret (service_unavailable "Rate limiting service error"))
     end)%io.

(** The part of [lifespan] that fills [app.state.redis]: [connect] is
    the outcome of [create_redis_client()]. *)
Definition lifespan (settings : Settings) (connect : result RedisClient)
    : result (option RedisClient) :=
  if rate_limiting_enabled settings then
    match connect with
    | Ok redis_client => Ok (Some redis_client)
    | Raise exc => if DEBUG settings then Ok None else Raise exc
    end
  else Ok None.

(** One request served from a world: outcome, world and trace. *)
Definition serve (settings : Settings) (app_state_redis : option RedisClient)
    (now : clock) (request : Request) (call_next : handler) (w : world)
    : result Response * (world * list event) :=
  rate_limit_middleware settings app_state_redis now request call_next (w, []).

(** A run of requests in the order the store sees them.  Each request
    comes with its clock readings, the handle it finds, the handler
    behind it, and the seconds that passed at the store since the
    request before it. *)
Record job : Type := {
  since_previous : Z;
  job_redis : option RedisClient;
  job_clock : clock;
  job_request : Request;
  job_next : handler
}.

Fixpoint serve_all (settings : Settings) (jobs : list job) (w : world)
    : list (result Response * list event) * world :=
  match jobs with
  | [] => ([], w)
  | j :: rest =>
      let w0 := {| counters := elapse (since_previous j) (counters w);
                   _telemetry := _telemetry w |} in
      let '(r, (w1, tr)) :=
        serve settings (job_redis j) (job_clock j) (job_request j) (job_next j) w0 in
      let '(rs, w2) := serve_all settings rest w1 in
      ((r, tr) :: rs, w2)
  end.

(** The handler ran for this request. *)
Definition passed (o : result Response * list event) : bool :=
  existsb (fun ev => match ev with EvCallNext => true | _ => false end) (snd o).

(** The request was turned away for quota. *)
Definition turned_away (o : result Response * list event) : bool :=
  match fst o with
  | Ok r => (status_code r =? 429) && negb (passed o)
  | Raise _ => false
  end.

Fixpoint count_where {A} (p : A -> bool) (l : list A) : Z :=
  match l with
  | [] => 0
  | x :: rest => (if p x then 1 else 0) + count_where p rest
  end.

(** ** The identity rule in the words of the specification *)

(** The candidates in priority order: first value of the forwarded
    header, real-address header, peer address, sentinel; an absent one
    counts as empty. *)
Definition identity_candidates (request : Request) : list string :=
  [ Py.strip (Py.split_comma_first (default "" (headers request !! "X-Forwarded-For")));
    Py.strip (default "" (headers request !! "X-Real-IP"));
    default "" (client request);
    "unknown" ].

Fixpoint first_non_empty (l : list string) : string :=
  match l with
  | [] => ""
  | EmptyString :: rest => first_non_empty rest
  | s :: _ => s
  end.

Definition spec_client_identity (request : Request) : string :=
  first_non_empty (identity_candidates request).

(** A bucket id without a colon, as [strftime("%Y%m%d")] writes it. *)
Fixpoint no_colon (s : string) : bool :=
  match s with
  | EmptyString => true
  | String c r => negb (Ascii.eqb c ":") && no_colon r
  end.

(** A request of the client and bucket whose keys are [kc] and [kg],
    served over a working connection, with a handler that answers
    without a server-side failure and leaves the counter store alone. *)
Definition plain_job (kc kg : string) (j : job) : Prop :=
  gated (job_request j) = true /\
  (exists redis, job_redis j = Some redis /\ first_eval redis = Up) /\
  _ip_key (at_ip_key (job_clock j)) (get_client_ip (job_request j)) = kc /\
  _global_key (at_global_key (job_clock j)) = kg /\
  0 <= since_previous j /\
  forall w, exists r w2,
    job_next j w = (Ok r, w2) /\ status_code r < 500 /\ counters w2 = counters w.

(** The seconds a run of requests takes at the store. *)
Fixpoint waits (jobs : list job) : Z :=
  match jobs with
  | [] => 0
  | j :: rest => since_previous j + waits rest
  end.

(** The two keys during a run: both absent before the first request,
    both at the number [i] of requests so far afterwards, with more time
    to live than the [rest] of the run takes. *)
Definition in_step (kc kg : string) (i rest : Z) (s : store) : Prop :=
  (i = 0 /\ s !! kc = None /\ s !! kg = None) \/
  (1 <= i /\ exists tc tg,
     s !! kc = Some (Entry i (Some tc)) /\ s !! kg = Some (Entry i (Some tg)) /\
     rest < tc /\ rest < tg).

(** No refund transaction in a trace. *)
Definition no_refund (o : result Response * list event) : Prop :=
  forall k1 k2, EvRefund k1 k2 ∉ snd o.

(** ** The status query *)

(** [int(await redis.get(key) or 0)] over a connection that answers or
    raises; a read changes nothing. *)
Definition redis_get (l : link) (key : string) : io Z :=
  fun st =>
    match l with
    | Up => (Ok (read (counters (fst st)) key), st)
    | Down | ReplyLost => (Raise RedisError, st)
    end.

Record Remaining : Type := {
  user_remaining : Z;
  global_remaining : Z
}.

(** [get_remaining_requests]: the two fields of the handle give the
    behaviour of the network on the first and on the second read. *)
Definition get_remaining_requests (settings : Settings) (redis : option RedisClient)
    (now : clock) (ip : string) : io Remaining :=
  match redis with
  | None => io_ret {| user_remaining := 0; global_remaining := 0 |}
  | Some redis =>
      (try_except
         (ip_count <~ redis_get (first_eval redis) (_ip_key (at_ip_key now) ip);
          global_count <~ redis_get (second_eval redis) (_global_key (at_global_key now));
          io_ret {| user_remaining := Z.max 0 (DAILY_RATE_LIMIT settings - ip_count);
                    global_remaining := Z.max 0 (GLOBAL_RATE_LIMIT settings - global_count) |})
         (fun exc =>
            modify_telemetry bump_redis_errors ;>
            io_ret {| user_remaining := 0; global_remaining := 0 |}))%io
  end.

Record InitializeResponse : Type := {
  user_requests_remaining : Z;
  user_requests_limit : Z;
  global_requests_remaining : Z;
  global_requests_limit : Z;
  reset_at : Z
}.

(** The route [GET /initialize]. *)
Definition initialize (settings : Settings) (redis : option RedisClient) (now : clock)
    (request : Request) : io InitializeResponse :=
  (let client_ip := get_client_ip request in
   remaining <~ get_remaining_requests settings redis now client_ip;
   let reset_time := _next_reset (at_next_reset now) in
   io_ret {| user_requests_remaining := user_remaining remaining;
             user_requests_limit := DAILY_RATE_LIMIT settings;
             global_requests_remaining := global_remaining remaining;
             global_requests_limit := GLOBAL_RATE_LIMIT settings;
             reset_at := reset_time |})%io.

(** ** The other two middlewares and the chain *)

Definition security_headers_middleware (request : Request) (call_next : handler) : handler :=
  fun w =>
    match call_next w with
    | (Ok response, w') =>
        (Ok (set_header "Permissions-Policy" (HStr "camera=(), microphone=(), geolocation=()")
               (set_header "Referrer-Policy" (HStr "strict-origin-when-cross-origin")
                  (set_header "Strict-Transport-Security"
                     (HStr "max-age=31536000; includeSubDomains")
                     (set_header "X-XSS-Protection" (HStr "1; mode=block")
                        (set_header "X-Frame-Options" (HStr "DENY")
                           (set_header "X-Content-Type-Options" (HStr "nosniff")
                              response)))))),
         w')
    | (Raise exc, w') => (Raise exc, w')
    end.

Definition request_too_large (MAX_REQUEST_SIZE : Z) : Response :=
  JSONResponse 413
    [("success", JBool false); ("error", JStr "request_too_large");
     ("message", JFmt "Request body exceeds " MAX_REQUEST_SIZE " bytes")]
    [].

(** [request_size_middleware].  [int] stands for Python's [int] on the
    text of a header: the number it reads, or the [ValueError] it
    raises. *)
Definition request_size_middleware (int : string -> result Z) (MAX_REQUEST_SIZE : Z)
    (request : Request) (call_next : handler) : handler :=
  fun w =>
    if String.eqb (method request) "POST" || String.eqb (method request) "PUT"
       || String.eqb (method request) "PATCH"
    then
      let content_length := headers request !! "content-length" in
      if Py.truthy content_length then
        match int (default "" content_length) with
        | Raise exc => (Raise exc, w)
        | Ok n =>
            if MAX_REQUEST_SIZE <? n then (Ok (request_too_large MAX_REQUEST_SIZE), w)
            else call_next w
        end
      else call_next w
    else call_next w.

(** The three [app.middleware("http")] registrations: each one wraps the
    ones registered before it, so the rate limiter is the outermost of
    the three and the security headers are the innermost, next to the
    routes. *)
Definition http_middlewares (settings : Settings) (int : string -> result Z)
    (MAX_REQUEST_SIZE : Z) (app_state_redis : option RedisClient) (now : clock)
    (request : Request) (routes : handler) : io Response :=
  rate_limit_middleware settings app_state_redis now request
    (request_size_middleware int MAX_REQUEST_SIZE request
       (security_headers_middleware request routes)).

Definition security_header_names : list string :=
  ["X-Content-Type-Options"; "X-Frame-Options"; "X-XSS-Protection";
   "Strict-Transport-Security"; "Referrer-Policy"; "Permissions-Policy"].

(** ** Allowed origins *)

(** [s.split(",")] *)
Fixpoint split_comma (s : string) : list string :=
  match s with
  | EmptyString => [EmptyString]
  | String c r =>
      if Ascii.eqb c "," then EmptyString :: split_comma r
      else match split_comma r with
           | h :: t => String c h :: t
           | [] => [String c EmptyString]
           end
  end.

Definition nonempty (s : string) : bool :=
  match s with
  | EmptyString => false
  | String _ _ => true
  end.

(** [Settings.cors_origins] on the text of [ALLOWED_ORIGINS]. *)
Definition cors_origins (ALLOWED_ORIGINS : string) : list string :=
  let origins :=
    map Py.strip (List.filter (fun o => nonempty (Py.strip o)) (split_comma ALLOWED_ORIGINS)) in
  if existsb (String.eqb "*") origins then ["*"] else origins.

(** [allow_credentials = "*" not in cors_origins] *)
Definition allow_credentials (ALLOWED_ORIGINS : string) : bool :=
  negb (existsb (String.eqb "*") (cors_origins ALLOWED_ORIGINS)).

(** ** Size of the snippets of an analysis *)

Definition MAX_CODE_SNIPPET_LENGTH : nat := 4096.

(** [validate_issue_snippets]: an issue is given by its ["code_snippet"],
    [None] when it has none. *)
Fixpoint validate_issue_snippets (issues : list (option string)) : bool :=
  match issues with
  | [] => true
  | issue :: rest =>
      if Py.truthy issue
         && (MAX_CODE_SNIPPET_LENGTH <? String.length (default "" issue))%nat
      then false
      else validate_issue_snippets rest
  end.

(** ** Reach of a script *)

(** A script that writes no key outside [k1] and [k2], also when it
    raises. *)
Definition writes_within {A} (k1 k2 : string) (sc : script A) : Prop :=
  forall (s : store) (k : string), k <> k1 -> k <> k2 -> fst (sc s) !! k = s !! k.

(** A handler that leaves the key [k] of the store as it is. *)
Definition keeps_key (k : string) (h : handler) : Prop :=
  forall w, counters (snd (h w)) !! k = counters w !! k.

(** What the caller of one request of a run gets when both keys read
    [i] before it. *)
Definition answer_at (settings : Settings) (i : Z) (j : job)
    (o : result Response * list event) : Prop :=
  (i + 1 <= DAILY_RATE_LIMIT settings ->
     exists r, fst o = Ok r /\ status_code r < 500 /\
       resp_headers r !! "X-RateLimit-Limit" = Some (HInt (DAILY_RATE_LIMIT settings)) /\
       resp_headers r !! "X-RateLimit-Remaining"
       = Some (HInt (DAILY_RATE_LIMIT settings - (i + 1)))) /\
  (DAILY_RATE_LIMIT settings < i + 1 ->
     fst o = Ok (rate_limit_exceeded settings (i + 1)
                   (_next_reset (at_next_reset (job_clock j)))
                   (_next_reset (at_next_reset (job_clock j)) - at_retry_after (job_clock j)))).

(** ** Sequences of the two scripts on one pair of keys *)

Inductive store_op : Type :=
| Limit
| Refund.

(** The store after the scripts of [ops] ran in order, the limit script
    with the TTL of the middleware. *)
Fixpoint replay (k1 k2 : string) (ops : list store_op) (s : store) : store :=
  match ops with
  | [] => s
  | Limit :: rest => replay k1 k2 rest (fst (_RATE_LIMIT_LUA k1 k2 90000 s))
  | Refund :: rest => replay k1 k2 rest (fst (_RATE_LIMIT_DECR_LUA k1 k2 s))
  end.

(** Every refund of [ops] comes after a limit run of its own, [b] runs
    being open at the start. *)
Fixpoint covered (b : Z) (ops : list store_op) : bool :=
  match ops with
  | [] => true
  | Limit :: rest => covered (b + 1) rest
  | Refund :: rest => (1 <=? b) && covered (b - 1) rest
  end.

(** Limit runs minus refunds. *)
Fixpoint net (ops : list store_op) : Z :=
  match ops with
  | [] => 0
  | Limit :: rest => 1 + net rest
  | Refund :: rest => net rest - 1
  end.

(** ** Runs of several clients in one bucket *)

Definition client_key_of (j : job) : string :=
  _ip_key (at_ip_key (job_clock j)) (get_client_ip (job_request j)).

(** The requests of a run that count on the client key [k]. *)
Definition requests_of (k : string) (jobs : list job) : Z :=
  count_where (fun j => String.eqb (client_key_of j) k) jobs.

(** A key that is absent, or holds a count of 1 or more with more time
    to live than the [rest] of the run takes. *)
Definition key_fresh (rest : Z) (s : store) (k : string) : Prop :=
  s !! k = None \/
  exists v t, s !! k = Some (Entry v (Some t)) /\ 1 <= v /\ rest < t.

(** The global key during a run, after [i] requests. *)
Definition global_step (kg : string) (i rest : Z) (s : store) : Prop :=
  (i = 0 /\ s !! kg = None) \/
  (1 <= i /\ exists t, s !! kg = Some (Entry i (Some t)) /\ rest < t).

(** The request reached its handler, or was turned away on the global
    axis. *)
Definition passed_or_global (settings : Settings) (o : result Response * list event) : Prop :=
  passed o = true \/
  exists reset retry, fst o = Ok (global_limit_exceeded settings reset retry).

(** ** Sample inputs *)

(** The defaults of [Settings] with a store configured. *)
Definition default_settings : Settings :=
  {| DEBUG := false;
     UPSTASH_REDIS_URL := Some "https://example.upstash.io";
     UPSTASH_REDIS_TOKEN := Some "token";
     DAILY_RATE_LIMIT := 20;
     GLOBAL_RATE_LIMIT := 1000 |}.

Definition unconfigured_settings : Settings :=
  {| DEBUG := false;
     UPSTASH_REDIS_URL := None;
     UPSTASH_REDIS_TOKEN := None;
     DAILY_RATE_LIMIT := 20;
     GLOBAL_RATE_LIMIT := 1000 |}.

(** 2025-01-15, 12:00:00 and 23:00:00 in UTC. *)
Definition noon : datetime :=
  {| year := 2025; month := 1; day := 15; epoch := 1736942400; until_midnight := 43200 |}.

Definition late_evening : datetime :=
  {| year := 2025; month := 1; day := 15; epoch := 1736982000; until_midnight := 3600 |}.

Definition clock_at (t : datetime) : clock :=
  {| at_ip_key := t; at_global_key := t; at_next_reset := t; at_retry_after := epoch t |}.

Definition analyze_from (hs : gmap string string) (peer : option string) : Request :=
  {| method := "POST"; path := "/analyze"; headers := hs; client := peer |}.

Definition health_check : Request :=
  {| method := "GET"; path := "/api/v1/health"; headers := ∅; client := Some "10.0.0.1" |}.

Definition answers (status : Z) : handler :=
  fun w => (Ok {| status_code := status; body := Raw "{}"; resp_headers := ∅ |}, w).

Definition healthy : RedisClient := {| first_eval := Up; second_eval := Up |}.

Definition fresh_world : world :=
  {| counters := ∅;
     _telemetry := {| requests_total := 0; requests_failed := 0; gemini_timeouts := 0;
                      gemini_errors := 0; redis_errors := 0; rate_limit_hits := 0 |} |}.

(** The two keys of the sample request at [noon]. *)
Definition sample_ip_key : string := "codalyzer:rl:day:20250115:ip:10.0.0.1".
Definition sample_global_key : string := "codalyzer:rl:global:day:20250115".

(** The store after the first request of the day. *)
Definition after_first : store :=
  {[ sample_ip_key := Entry 1 (Some 90000); sample_global_key := Entry 1 (Some 90000) ]}.

(** A request whose forwarded header starts with a comma, and one whose
    peer has an empty host. *)
Definition blank_forwarded : Request :=
  analyze_from {[ "X-Forwarded-For" := ",10.0.0.1"; "X-Real-IP" := "10.0.0.2" ]}
    (Some "10.0.0.3").

Definition blank_peer : Request := analyze_from ∅ (Some "").

Definition tight_settings : Settings :=
  {| DEBUG := false;
     UPSTASH_REDIS_URL := Some "https://example.upstash.io";
     UPSTASH_REDIS_TOKEN := Some "token";
     DAILY_RATE_LIMIT := 2;
     GLOBAL_RATE_LIMIT := 1000 |}.

(** A request of 10.0.0.1 at noon, [dt] seconds after the one before,
    with a handler that answers 200. *)
Definition sample_job (dt : Z) : job :=
  {| since_previous := dt;
     job_redis := Some healthy;
     job_clock := clock_at noon;
     job_request := analyze_from ∅ (Some "10.0.0.1");
     job_next := answers 200 |}.

Definition status_of (o : result Response * list event) : Z :=
  match fst o with
  | Ok r => status_code r
  | Raise _ => 0
  end.

(** The expiry of a key as TTL reports it: [None] for an absent key,
    [Some None] for a key that never expires. *)
Definition expiry (s : store) (k : string) : option (option Z) := ttl <$> s !! k.

(** The store a first request leaves when served at the instant [t]. *)
Definition first_served_at (t : datetime) : store :=
  counters (fst (snd (serve default_settings (Some healthy) (clock_at t)
                        (analyze_from ∅ (Some "10.0.0.1")) (answers 200) fresh_world))).

(** The first request of the day passed and was refunded: both keys are
    back at zero and still expire. *)
Definition refunded_once : store :=
  fst (_RATE_LIMIT_DECR_LUA sample_ip_key sample_global_key after_first).

(** * Properties *)

(** ** The store commands *)

Definition bumped (t : Z) (o : option entry) : entry :=
  match o with
  | None => Entry 1 (Some t)
  | Some e => Entry (value e + 1) (if value e =? 0 then Some t else ttl e)
  end.

Definition floored (e : entry) : entry :=
  if value e <? 1 then Entry 0 None else Entry (value e - 1) (ttl e).

Definition refunded (s : store) (k : string) : store :=
  match s !! k with
  | Some e => <[k := floored e]> s
  | None => s
  end.

(** [n] refunds in a row. *)
Fixpoint refunds (n : nat) (k1 k2 : string) (s : store) : store :=
  match n with
  | O => s
  | S m => refunds m k1 k2 (fst (_RATE_LIMIT_DECR_LUA k1 k2 s))
  end.

(** The three headers put on the response of a request that passed. *)
Definition with_rate_limit_headers (settings : Settings) (reset_time ip_count : Z)
    (response : Response) : Response :=
  set_header "X-RateLimit-Reset" (HIso reset_time)
    (set_header "X-RateLimit-Remaining" (HInt (Z.max 0 (DAILY_RATE_LIMIT settings - ip_count)))
       (set_header "X-RateLimit-Limit" (HInt (DAILY_RATE_LIMIT settings)) response)).

Definition with_counters (w : world) (s : store) : world :=
  {| counters := s; _telemetry := _telemetry w |}.

Definition with_telemetry (w : world) (f : Telemetry -> Telemetry) : world :=
  {| counters := counters w; _telemetry := f (_telemetry w) |}.

(** The first [eval] of a request raises: the network fails, or a
    command of the script does. *)
Definition eval_raises {A} (l : link) (sc : script A) (s : store) : Prop :=
  l <> Up \/ snd (sc s) = None.

(** ** More sample inputs *)

Definition world_of (s : store) : world := with_counters fresh_world s.

(** Both keys of the sample client at 2 requests. *)
Definition after_two : store :=
  {[ sample_ip_key := Entry 2 (Some 90000); sample_global_key := Entry 2 (Some 90000) ]}.

Definition raises : handler := fun w => (Raise (AppError "boom"), w).

Definition losing_replies : RedisClient := {| first_eval := ReplyLost; second_eval := Up |}.

(** [int] on plain decimal text, enough for the sample requests; any
    other text is refused. *)
Fixpoint decimal_digits (s : string) (acc : Z) : option Z :=
  match s with
  | EmptyString => Some acc
  | String c r =>
      let n := nat_of_ascii c in
      if ((48 <=? n) && (n <=? 57))%nat
      then decimal_digits r (10 * acc + Z.of_nat (n - 48))
      else None
  end.

Definition decimal (s : string) : result Z :=
  match s with
  | EmptyString => Raise (AppError "ValueError")
  | _ => match decimal_digits s 0 with
         | Some n => Ok n
         | None => Raise (AppError "ValueError")
         end
  end.

(** A gated request that declares two million bytes. *)
Definition big_upload : Request :=
  analyze_from {[ "content-length" := "2000000" ]} (Some "10.0.0.1").

(** A request of the client [ip] at noon, [dt] seconds after the one
    before, with a handler that answers 200. *)
Definition job_from (ip : string) (dt : Z) : job :=
  {| since_previous := dt;
     job_redis := Some healthy;
     job_clock := clock_at noon;
     job_request := analyze_from ∅ (Some ip);
     job_next := answers 200 |}.

(** A global limit of 5 shared by clients with a limit of 20 each. *)
Definition shared_settings : Settings :=
  {| DEBUG := false;
     UPSTASH_REDIS_URL := Some "https://example.upstash.io";
     UPSTASH_REDIS_TOKEN := Some "token";
     DAILY_RATE_LIMIT := 20;
     GLOBAL_RATE_LIMIT := 5 |}.

(** Two clients, three requests each, taking turns. *)
Definition two_clients : list job :=
  [job_from "10.0.0.1" 0; job_from "10.0.0.2" 1; job_from "10.0.0.1" 1;
   job_from "10.0.0.2" 1; job_from "10.0.0.1" 1; job_from "10.0.0.2" 1].

Definition three_requests : list job := [sample_job 0; sample_job 5; sample_job 7].

(** ** Stored shares *)

(** The key [f"codalyzer:share:{share_id}"] of [create_share] and
    [get_share]. *)
Definition share_key (share_id : string) : string :=
  "codalyzer:share:" +:+ share_id.

(** ** Start-up *)

Inductive Client : Type :=
| GenaiClient.

Record GeminiService : Type := {
  _client : option Client;
  _validated : bool
}.

(** [GeminiService.available] *)
Definition available (self : GeminiService) : bool :=
  match _client self with
  | Some _ => _validated self
  | None => false
  end.

(** [GeminiService.validate_api_key]: [test_call] is the outcome of the
    test call to the provider.  The result is the returned flag and the
    service afterwards. *)
Definition validate_api_key (test_call : result unit) (self : GeminiService)
    : bool * GeminiService :=
  match _client self with
  | None => (_validated self, self)
  | Some c =>
      if _validated self then (_validated self, self)
      else match test_call with
           | Ok _ => (true, {| _client := Some c; _validated := true |})
           | Raise _ => (false, {| _client := Some c; _validated := false |})
           end
  end.

(** [lifespan] up to its [yield]: the handle in [app.state.redis] and
    the provider service, or the exception that stops the start. *)
Definition lifespan_startup (settings : Settings) (connect : result RedisClient)
    (test_call : result unit) (gemini_service : GeminiService)
    : result (option RedisClient * GeminiService) :=
  match lifespan settings connect with
  | Raise exc => Raise exc
  | Ok app_state_redis =>
      match _client gemini_service with
      | Some _ =>
          let (validated, gemini_service) := validate_api_key test_call gemini_service in
          if validated then Ok (app_state_redis, gemini_service)
          else if negb (DEBUG settings)
               then Raise (AppError "Gemini API key validation failed")
               else Ok (app_state_redis, gemini_service)
      | None =>
          if negb (DEBUG settings)
          then Raise (AppError "Gemini client not initialized")
          else Ok (app_state_redis, gemini_service)
      end
  end.

(** ** Validators of an analysis request *)

(** [str.lower] on one latin-1 code point. *)
Definition lower_char (c : ascii) : ascii :=
  let n := nat_of_ascii c in
  if ((65 <=? n) && (n <=? 90) || (192 <=? n) && (n <=? 222) && negb (n =? 215))%nat
  then ascii_of_nat (n + 32)
  else c.

(** [s.lower()] *)
Fixpoint str_lower (s : string) : string :=
  match s with
  | EmptyString => EmptyString
  | String c r => String (lower_char c) (str_lower r)
  end.

Definition languages : list string :=
  ["auto"; "javascript"; "typescript"; "python"; "cpp"; "c";
   "java"; "go"; "rust"; "ruby"; "php"].

(** [AnalyzeRequest.validate_language] *)
Definition validate_language (v : string) : string :=
  let v := str_lower (Py.strip v) in
  if negb (existsb (String.eqb v) languages) then "auto" else v.

(** The text without the characters that satisfy [p]. *)
Fixpoint remove_chars (p : ascii -> bool) (s : string) : string :=
  match s with
  | EmptyString => EmptyString
  | String c r => if p c then remove_chars p r else String c (remove_chars p r)
  end.

Definition slash : ascii := ascii_of_nat 47.
Definition backslash : ascii := ascii_of_nat 92.
Definition nul : ascii := ascii_of_nat 0.
Definition dot : ascii := ascii_of_nat 46.

(** [v.rsplit(".", 1)] of a text with a dot: what precedes the last dot
    and what follows it; [None] when [v] has no dot. *)
Fixpoint rsplit_dot (v : string) : option (string * string) :=
  match v with
  | EmptyString => None
  | String c r =>
      match rsplit_dot r with
      | Some (before, after) => Some (String c before, after)
      | None => if Ascii.eqb c dot then Some (EmptyString, r) else None
      end
  end.

(** [Settings.allowed_extensions] on the text of [ALLOWED_EXTENSIONS];
    the set is used for membership and emptiness only. *)
Definition allowed_extensions (ALLOWED_EXTENSIONS : string) : list string :=
  map (fun ext => str_lower (Py.strip ext))
    (List.filter (fun ext => nonempty (Py.strip ext)) (split_comma ALLOWED_EXTENSIONS)).

(** [AnalyzeRequest.validate_filename] *)
Definition validate_filename (ALLOWED_EXTENSIONS : string) (v : string) : string :=
  let v := Py.strip v in
  if negb (nonempty v) then "untitled"
  else
    let v := remove_chars (fun c => Ascii.eqb c slash || Ascii.eqb c backslash) v in
    let v := remove_chars (fun c => Ascii.eqb c nul) v in
    let v :=
      match rsplit_dot v with
      | Some (before, after) =>
          let ext := String dot (str_lower after) in
          let allowed_exts := allowed_extensions ALLOWED_EXTENSIONS in
          if match allowed_exts with [] => false | _ => true end
             && negb (existsb (String.eqb ext) allowed_exts)
          then (if nonempty before then before else "untitled")
          else v
      | None => v
      end in
    if nonempty v then v else "untitled".

(** Every character of the text satisfies [p]. *)
Fixpoint all_chars (p : ascii -> bool) (s : string) : bool :=
  match s with
  | EmptyString => true
  | String c r => p c && all_chars p r
  end.

(** Neither a path separator nor a null byte. *)
Definition plain_char (c : ascii) : bool :=
  negb (Ascii.eqb c slash) && negb (Ascii.eqb c backslash) && negb (Ascii.eqb c nul).

(** ** The analysis route *)

(** The exceptions the route tells apart, by the first [except] clause
    that takes them. *)
Inductive raised : Type :=
| TimeoutError
| ValueError
| RuntimeError (str : string)
| HTTPException (status : Z) (detail : string)
| OtherException.

(** What the route looks at in the [data] it gets from the provider:
    the snippets of the issues, and what building the response models
    from it raises, if anything. *)
Record analysis_data : Type := {
  raw_issues : list (option string);
  building : option raised
}.

Inductive route_result : Type :=
| Returned
| Raised (exc : raised).

Definition bump_requests_total (t : Telemetry) : Telemetry :=
  {| requests_total := requests_total t + 1; requests_failed := requests_failed t;
     gemini_timeouts := gemini_timeouts t; gemini_errors := gemini_errors t;
     redis_errors := redis_errors t; rate_limit_hits := rate_limit_hits t |}.

Definition bump_requests_failed (t : Telemetry) : Telemetry :=
  {| requests_total := requests_total t; requests_failed := requests_failed t + 1;
     gemini_timeouts := gemini_timeouts t; gemini_errors := gemini_errors t;
     redis_errors := redis_errors t; rate_limit_hits := rate_limit_hits t |}.

(** The [except] clauses of [analyze_code], in their order. *)
Definition analyze_code_except (exc : raised) (w : world) : route_result * world :=
  match exc with
  | TimeoutError =>
      (Raised (HTTPException 504 "Analysis timed out - code may be too complex"),
       with_telemetry w bump_requests_failed)
  | ValueError =>
      (Raised (HTTPException 500 "Failed to parse analysis result"),
       with_telemetry w bump_requests_failed)
  | RuntimeError str =>
      (Raised (HTTPException 503 str), with_telemetry w bump_requests_failed)
  | HTTPException _ _ | OtherException =>
      (Raised (HTTPException 500 "Analysis failed"), with_telemetry w bump_requests_failed)
  end.

(** [analyze_code]: [is_available] is [gemini_service.available],
    [valid_content] the outcome of [validate_message_content] on the
    code, [analyze] the call of [gemini_service.analyze]. *)
Definition analyze_code (is_available valid_content : bool)
    (analyze : world -> (raised + analysis_data) * world) (w : world)
    : route_result * world :=
  if negb is_available then
    (Raised (HTTPException 503 "Gemini provider unavailable — check API key"), w)
  else if negb valid_content then
    (Raised (HTTPException 400 "Invalid code content"), w)
  else
    match analyze (with_telemetry w bump_requests_total) with
    | (inl exc, w1) => analyze_code_except exc w1
    | (inr data, w1) =>
        if negb (validate_issue_snippets (raw_issues data)) then
          analyze_code_except
            (HTTPException 500 "LLM generated invalid response detected (snippet too large)")
            w1
        else
          match building data with
          | Some exc => analyze_code_except exc w1
          | None => (Returned, w1)
          end
    end.

(** The framework's answer to what a route does: the response of a
    route that returned, the status and detail of an [HTTPException]
    as a JSON response; any other exception goes on to the caller. *)
Definition route_handler (route : world -> route_result * world) (returned : Response)
    : handler :=
  fun w =>
    match route w with
    | (Returned, w') => (Ok returned, w')
    | (Raised (HTTPException status detail), w') =>
        (Ok (JSONResponse status [("detail", JStr detail)] []), w')
    | (Raised _, w') => (Raise (AppError "unhandled"), w')
    end.

(** The default of [ALLOWED_EXTENSIONS]. *)
Definition default_extensions : string :=
  ".py,.js,.ts,.jsx,.tsx,.cpp,.c,.h,.hpp,.java,.go,.rs,.rb,.php,.swift,.kt,.cs,.scala,.r,.m,.sh,.sql,.html,.css".

Definition bump_gemini_timeouts (t : Telemetry) : Telemetry :=
  {| requests_total := requests_total t; requests_failed := requests_failed t;
     gemini_timeouts := gemini_timeouts t + 1; gemini_errors := gemini_errors t;
     redis_errors := redis_errors t; rate_limit_hits := rate_limit_hits t |}.

(** A provider that times out, as [GeminiService.analyze] reports it. *)
Definition provider_times_out : world -> (raised + analysis_data) * world :=
  fun w => (inl TimeoutError, with_telemetry w bump_gemini_timeouts).

(** A provider whose analysis carries a snippet of 5000 characters. *)
Definition provider_long_snippet : world -> (raised + analysis_data) * world :=
  fun w =>
    (inr {| raw_issues := [Some (string_of_list_ascii (repeat "x"%char 5000))];
            building := None |}, w).

(** The answer to the second of [three_requests] under a limit of 2. *)
Definition second_answer : result Response * list event :=
  default (Raise RedisError, [])
    (fst (serve_all tight_settings three_requests fresh_world) !! 1%nat).

Lemma read_lookup (s : store) k e : s !! k = Some e -> read s k = value e.
Proof. unfold read. by intros ->. Qed.

Lemma read_absent (s : store) k : s !! k = None -> read s k = 0.
Proof. unfold read. by intros ->. Qed.

(** INCR and the conditional EXPIRE on one key, followed by the rest of
    the script. *)
Lemma incr_expire_run {B} (s : store) k t (rest : Z -> script B) :
  0 < t -> read s k < INT64_MAX ->
  (c <- INCR k ;; (if c =? 1 then EXPIRE k t else ret 0) ;;; rest c)%script s
  = rest (read s k + 1) (<[k := bumped t (s !! k)]> s).
Proof.
  intros Ht Hmax. unfold bind, INCR, EXPIRE, ret, read, bumped in *.
  destruct (s !! k) as [e|] eqn:E.
  - destruct (Z.leb_spec INT64_MAX (value e)); [lia|].
    destruct (Z.eqb_spec (value e + 1) 1) as [H1|H1].
    + rewrite lookup_insert_eq. destruct (Z.leb_spec t 0); [lia|].
      rewrite insert_insert_eq.
      destruct (Z.eqb_spec (value e) 0); [|lia]. done.
    + destruct (Z.eqb_spec (value e) 0); [lia|]. done.
  - simpl. rewrite lookup_insert_eq. destruct (Z.leb_spec t 0); [lia|].
    rewrite insert_insert_eq. done.
Qed.

(** At the ceiling of the integer range INCR raises and writes nothing. *)
Lemma incr_overflow (s : store) k :
  INT64_MAX <= read s k -> INCR k s = (s, None).
Proof.
  unfold INCR, read. destruct (s !! k) as [e|]; [|unfold INT64_MAX; lia].
  intros H. destruct (Z.leb_spec INT64_MAX (value e)); [done|lia].
Qed.

(** The limit script on two distinct keys below the ceiling. *)
Lemma limit_lua_run (s : store) k1 k2 t :
  k1 <> k2 -> 0 < t -> read s k1 < INT64_MAX -> read s k2 < INT64_MAX ->
  _RATE_LIMIT_LUA k1 k2 t s
  = (<[k2 := bumped t (s !! k2)]> (<[k1 := bumped t (s !! k1)]> s),
     Some (read s k1 + 1, read s k2 + 1)).
Proof.
  intros Hne Ht H1 H2. unfold _RATE_LIMIT_LUA.
  rewrite incr_expire_run by done.
  assert (Hr : read (<[k1 := bumped t (s !! k1)]> s) k2 = read s k2).
  { unfold read. by rewrite lookup_insert_ne. }
  rewrite incr_expire_run by (rewrite ?Hr; done).
  rewrite Hr, lookup_insert_ne by done. done.
Qed.

(** One key of the refund script, followed by the rest of the script. *)
Lemma decr_floor_run {B} (s : store) k (rest : Z -> script B) :
  INT64_MIN < read s k ->
  (c <- decr_floor k ;; rest c)%script s
  = rest (Z.max 0 (read s k - 1)) (refunded s k).
Proof.
  intros Hmin.
  unfold decr_floor, bind, EXISTS, DECR, SET, ret, read, refunded, floored in *.
  destruct (s !! k) as [e|] eqn:E; simpl; [|done].
  rewrite E. destruct (Z.leb_spec (value e) INT64_MIN); [lia|].
  destruct (Z.ltb_spec (value e - 1) 0), (Z.ltb_spec (value e) 1); try lia.
  - rewrite insert_insert_eq. f_equal. lia.
  - f_equal. lia.
Qed.

Lemma refunded_lookup (s : store) k : refunded s k !! k = floored <$> s !! k.
Proof.
  unfold refunded. destruct (s !! k) as [e|] eqn:E; simpl.
  - by rewrite lookup_insert_eq.
  - by rewrite E.
Qed.

Lemma refunded_lookup_ne (s : store) k k' : k <> k' -> refunded s k !! k' = s !! k'.
Proof.
  intros Hne. unfold refunded. destruct (s !! k); [|done]. by rewrite lookup_insert_ne.
Qed.

Lemma read_refunded (s : store) k : read (refunded s k) k = Z.max 0 (read s k - 1).
Proof.
  unfold read. rewrite refunded_lookup. destruct (s !! k) as [e|]; simpl; [|done].
  unfold floored. destruct (Z.ltb_spec (value e) 1); simpl; lia.
Qed.

(** The refund script on two distinct keys above the floor of the
    integer range. *)
Lemma decr_lua_run (s : store) k1 k2 :
  k1 <> k2 -> INT64_MIN < read s k1 -> INT64_MIN < read s k2 ->
  _RATE_LIMIT_DECR_LUA k1 k2 s
  = (refunded (refunded s k1) k2,
     Some (Z.max 0 (read s k1 - 1), Z.max 0 (read s k2 - 1))).
Proof.
  intros Hne H1 H2. unfold _RATE_LIMIT_DECR_LUA.
  rewrite decr_floor_run by done.
  assert (Hr : read (refunded s k1) k2 = read s k2).
  { unfold read. by rewrite refunded_lookup_ne. }
  rewrite decr_floor_run by (rewrite Hr; done).
  by rewrite Hr.
Qed.

Lemma read_insert (s : store) k e : read (<[k := e]> s) k = value e.
Proof. unfold read. by rewrite lookup_insert_eq. Qed.

Lemma read_insert_ne (s : store) k k' e : k <> k' -> read (<[k := e]> s) k' = read s k'.
Proof. intros. unfold read. by rewrite lookup_insert_ne. Qed.

Lemma read_refunded_ne (s : store) k k' : k <> k' -> read (refunded s k) k' = read s k'.
Proof. intros. unfold read. by rewrite refunded_lookup_ne. Qed.

Lemma value_bumped (s : store) k t : value (bumped t (s !! k)) = read s k + 1.
Proof. unfold bumped, read. by destruct (s !! k). Qed.

(** What the refund script does to the values, to absent keys and to the
    rest of the store. *)
Lemma refund_values (s : store) k1 k2 :
  k1 <> k2 -> INT64_MIN < read s k1 -> INT64_MIN < read s k2 ->
  exists s',
    _RATE_LIMIT_DECR_LUA k1 k2 s
    = (s', Some (Z.max 0 (read s k1 - 1), Z.max 0 (read s k2 - 1))) /\
    read s' k1 = Z.max 0 (read s k1 - 1) /\
    read s' k2 = Z.max 0 (read s k2 - 1) /\
    (s !! k1 = None -> s' !! k1 = None) /\
    (s !! k2 = None -> s' !! k2 = None) /\
    (forall k, k <> k1 -> k <> k2 -> s' !! k = s !! k).
Proof.
  intros Hne H1 H2. eexists. split; [by apply decr_lua_run|].
  repeat split.
  - by rewrite read_refunded_ne, read_refunded.
  - by rewrite read_refunded, read_refunded_ne.
  - intros E. by rewrite refunded_lookup_ne, refunded_lookup, E.
  - intros E. by rewrite refunded_lookup, refunded_lookup_ne, E.
  - intros k N1 N2. by rewrite !refunded_lookup_ne.
Qed.

Lemma refunds_floor (n : nat) (s : store) k1 k2 :
  k1 <> k2 -> 0 <= read s k1 -> 0 <= read s k2 ->
  0 <= read (refunds n k1 k2 s) k1 /\ 0 <= read (refunds n k1 k2 s) k2.
Proof.
  intros Hne. revert s. induction n as [|n IH]; intros s H1 H2; simpl; [done|].
  destruct (refund_values s k1 k2) as (s' & E & R1 & R2 & _);
    [done | unfold INT64_MIN; lia | unfold INT64_MIN; lia |].
  rewrite E. simpl. apply IH; lia.
Qed.

(** The clamp of the refund script rewrites the key with SET, and the
    key loses its expiry. *)
Lemma refund_clamp_discards_expiry (s : store) k1 k2 e :
  k1 <> k2 -> s !! k1 = Some e -> INT64_MIN < value e <= 0 -> INT64_MIN < read s k2 ->
  fst (_RATE_LIMIT_DECR_LUA k1 k2 s) !! k1 = Some (Entry 0 None).
Proof.
  intros Hne E Hv H2. pose proof (read_lookup s k1 e E) as R.
  rewrite decr_lua_run; [|done|lia|done].
  simpl. rewrite refunded_lookup_ne, refunded_lookup, E by done. simpl.
  unfold floored. destruct (Z.ltb_spec (value e) 1); [done|lia].
Qed.

(** C7: on two distinct keys whose counts are not negative (an absent
    key reading as zero) and below the ceiling of the store's integers,
    one run of the limit script followed by one run of the refund script
    succeeds and leaves each count exactly as it was before. *)
Theorem limit_then_refund_restores (s : store) (k1 k2 : string) (t : Z) :
  k1 <> k2 -> 0 < t ->
  0 <= read s k1 < INT64_MAX -> 0 <= read s k2 < INT64_MAX ->
  exists s1 s2,
    _RATE_LIMIT_LUA k1 k2 t s = (s1, Some (read s k1 + 1, read s k2 + 1)) /\
    _RATE_LIMIT_DECR_LUA k1 k2 s1 = (s2, Some (read s k1, read s k2)) /\
    read s2 k1 = read s k1 /\ read s2 k2 = read s k2.
Proof.
  intros Hne Ht [L1 U1] [L2 U2].
  eexists _, _. split; [by apply limit_lua_run|].
  set (s1 := <[k2 := _]> (<[k1 := _]> s)).
  assert (R1 : read s1 k1 = read s k1 + 1).
  { unfold s1. rewrite read_insert_ne, read_insert by done. apply value_bumped. }
  assert (R2 : read s1 k2 = read s k2 + 1).
  { unfold s1. rewrite read_insert. apply value_bumped. }
  subst s1. rewrite decr_lua_run by (unfold INT64_MIN; done || lia).
  rewrite R1, R2.
  replace (Z.max 0 (read s k1 + 1 - 1)) with (read s k1) by lia.
  replace (Z.max 0 (read s k2 + 1 - 1)) with (read s k2) by lia.
  split; [done|].
  split.
  - rewrite read_refunded_ne, read_refunded, R1 by done. lia.
  - rewrite read_refunded, read_refunded_ne, R2 by done. lia.
Qed.

Lemma limit_then_refund_restores_witness :
  exists s1 s2,
    _RATE_LIMIT_LUA "a" "b" 90000 {["a" := Entry 4 (Some 500)]}
      = (s1, Some (read {["a" := Entry 4 (Some 500)]} "a" + 1,
                   read {["a" := Entry 4 (Some 500)]} "b" + 1)) /\
    _RATE_LIMIT_DECR_LUA "a" "b" s1
      = (s2, Some (read {["a" := Entry 4 (Some 500)]} "a",
                   read {["a" := Entry 4 (Some 500)]} "b")) /\
    read s2 "a" = read {["a" := Entry 4 (Some 500)]} "a" /\
    read s2 "b" = read {["a" := Entry 4 (Some 500)]} "b".
Proof.
  apply (limit_then_refund_restores {["a" := Entry 4 (Some 500)]} "a" "b" 90000).
  - discriminate.
  - lia.
  - vm_compute. split; [discriminate | reflexivity].
  - vm_compute. split; [discriminate | reflexivity].
Defined.

(** ** The middleware, branch by branch *)

Ltac io_run :=
  cbv beta iota zeta delta
    [try_except io_bind redis_eval emit run_script modify_telemetry io_ret
     await_call_next refund_quota fst snd app].

(** Membership of an event in an explicit trace. *)
Ltac trace_mem :=
  repeat first
    [ progress (rewrite ?not_elem_of_cons, ?elem_of_cons, ?elem_of_nil)
    | split ];
  try (intuition (done || discriminate || congruence)).

Section Gated.
Variables (settings : Settings) (now : clock) (request : Request) (call_next : handler).
Hypothesis Hgated : gated request = true.

Local Abbreviation ip_key := (_ip_key (at_ip_key now) (get_client_ip request)).
Local Abbreviation global_key := (_global_key (at_global_key now)).
Local Abbreviation reset_time := (_next_reset (at_next_reset now)).

Lemma gate_condition :
  negb (String.eqb (method request) "POST") || negb (Py.endswith (path request) "/analyze")
  = false.
Proof.
  unfold gated in Hgated. apply andb_true_iff in Hgated as [-> ->]. done.
Qed.

Lemma serve_gated redis w :
  serve settings redis now request call_next w
  = match redis with
    | None =>
        if rate_limiting_enabled settings then
          (Ok (service_unavailable "Rate limiting service temporarily unavailable"),
           (with_telemetry w bump_redis_errors, []))
        else (fst (call_next w), (snd (call_next w), [EvCallNext]))
    | Some redis =>
        match first_eval redis with
        | Down =>
            (Ok (service_unavailable "Rate limiting service error"),
             (with_telemetry w bump_redis_errors, [EvLimit ip_key global_key 90000]))
        | ReplyLost =>
            (Ok (service_unavailable "Rate limiting service error"),
             (with_telemetry
                (with_counters w (fst (_RATE_LIMIT_LUA ip_key global_key 90000 (counters w))))
                bump_redis_errors,
              [EvLimit ip_key global_key 90000]))
        | Up =>
            match _RATE_LIMIT_LUA ip_key global_key 90000 (counters w) with
            | (s1, None) =>
                (Ok (service_unavailable "Rate limiting service error"),
                 (with_telemetry (with_counters w s1) bump_redis_errors,
                  [EvLimit ip_key global_key 90000]))
            | (s1, Some (ip_count, global_count)) =>
                if DAILY_RATE_LIMIT settings <? ip_count then
                  (Ok (rate_limit_exceeded settings ip_count reset_time
                         (reset_time - at_retry_after now)),
                   (with_telemetry (with_counters w s1) bump_rate_limit_hits,
                    [EvLimit ip_key global_key 90000]))
                else if GLOBAL_RATE_LIMIT settings <? global_count then
                  (Ok (global_limit_exceeded settings reset_time
                         (reset_time - at_retry_after now)),
                   (with_telemetry (with_counters w s1) bump_rate_limit_hits,
                    [EvLimit ip_key global_key 90000]))
                else
                  match call_next (with_counters w s1) with
                  | (Raise exc, w2) =>
                      (Ok (service_unavailable "Rate limiting service error"),
                       (with_telemetry w2 bump_redis_errors,
                        [EvLimit ip_key global_key 90000; EvCallNext]))
                  | (Ok response, w2) =>
                      if 500 <=? status_code response then
                        match second_eval redis with
                        | Down =>
                            (Ok (with_rate_limit_headers settings reset_time ip_count response),
                             (w2, [EvLimit ip_key global_key 90000; EvCallNext;
                                   EvRefund ip_key global_key]))
                        | ReplyLost =>
                            (Ok (with_rate_limit_headers settings reset_time ip_count response),
                             (with_counters w2
                                (fst (_RATE_LIMIT_DECR_LUA ip_key global_key (counters w2))),
                              [EvLimit ip_key global_key 90000; EvCallNext;
                               EvRefund ip_key global_key]))
                        | Up =>
                            match _RATE_LIMIT_DECR_LUA ip_key global_key (counters w2) with
                            | (s3, None) =>
                                (Ok (with_rate_limit_headers settings reset_time ip_count
                                       response),
                                 (with_counters w2 s3,
                                  [EvLimit ip_key global_key 90000; EvCallNext;
                                   EvRefund ip_key global_key]))
                            | (s3, Some refund_result) =>
                                (Ok (with_rate_limit_headers settings reset_time
                                       (fst refund_result) response),
                                 (with_telemetry (with_counters w2 s3) count_refund,
                                  [EvLimit ip_key global_key 90000; EvCallNext;
                                   EvRefund ip_key global_key]))
                            end
                        end
                      else
                        (Ok (with_rate_limit_headers settings reset_time ip_count response),
                         (w2, [EvLimit ip_key global_key 90000; EvCallNext]))
                  end
            end
        end
    end.
Proof.
  unfold serve, rate_limit_middleware. rewrite gate_condition.
  destruct redis as [redis|].
  - destruct (first_eval redis); io_run.
    + destruct (_RATE_LIMIT_LUA ip_key global_key 90000 (counters w)) as [s1 [[ic gc]|]];
        [|done].
      io_run. destruct (DAILY_RATE_LIMIT settings <? ic); [done|].
      destruct (GLOBAL_RATE_LIMIT settings <? gc); [done|].
      io_run. unfold with_counters.
      destruct (call_next _) as [[response|exc] w2]; [|done].
      destruct (500 <=? status_code response); [|done].
      destruct (second_eval redis); io_run; [|done|].
      * destruct w2 as [c2 t2]. simpl.
        by destruct (_RATE_LIMIT_DECR_LUA ip_key global_key c2) as [s3 [rr|]].
      * destruct w2 as [c2 t2]. simpl.
        by destruct (_RATE_LIMIT_DECR_LUA ip_key global_key c2) as [s3 rr].
    + done.
    + by destruct (_RATE_LIMIT_LUA ip_key global_key 90000 (counters w)) as [s1 r].
  - destruct (rate_limiting_enabled settings); io_run; [done|].
    by destruct (call_next w).
Qed.
End Gated.

Lemma serve_ungated settings redis now request call_next w :
  gated request = false ->
  serve settings redis now request call_next w
  = (fst (call_next w), (snd (call_next w), [EvCallNext])).
Proof.
  intros Hg. unfold serve, rate_limit_middleware.
  replace (negb (String.eqb (method request) "POST")
           || negb (Py.endswith (path request) "/analyze")) with true.
  - io_run. by destruct (call_next w).
  - unfold gated in Hg. by destruct (String.eqb _ _), (Py.endswith _ _).
Qed.

(** C10: a request that is not a POST to a path ending in "/analyze" is
    handed to the handler as it is: what comes back is the handler's own
    outcome and world, nothing is added to the response, and the only
    thing the middleware did is call the handler (no store transaction).
    The status, health and metrics endpoints and the reading of a share
    are GET requests, and the creation of a share is a POST to a path
    ending in "/share": none of them is gated. *)
Theorem ungated_request_untouched :
  (forall settings redis now request call_next w,
      gated request = false ->
      serve settings redis now request call_next w
      = (fst (call_next w), (snd (call_next w), [EvCallNext]))) /\
  (forall p hs peer,
      gated {| method := "GET"; path := p; headers := hs; client := peer |} = false) /\
  (forall hs peer,
      gated {| method := "GET"; path := "/api/v1/initialize"; headers := hs; client := peer |}
      = false /\
      gated {| method := "GET"; path := "/api/v1/health"; headers := hs; client := peer |}
      = false /\
      gated {| method := "GET"; path := "/api/v1/metrics"; headers := hs; client := peer |}
      = false /\
      gated {| method := "POST"; path := "/api/v1/share"; headers := hs; client := peer |}
      = false).
Proof.
  split; [intros; by apply serve_ungated|].
  split; [done|]. intros hs peer. repeat split; reflexivity.
Qed.

Lemma ungated_request_untouched_witness :
  serve default_settings (Some healthy) (clock_at noon) health_check (answers 200) fresh_world
  = (fst (answers 200 fresh_world), (snd (answers 200 fresh_world), [EvCallNext])).
Proof.
  apply (proj1 ungated_request_untouched). reflexivity.
Defined.

(** C2: for a gated request, when rate limiting is configured and the
    handle is absent, or when the first [eval] raises, the answer is a
    503 and the handler is not called; when rate limiting is not
    configured, the handle left by [lifespan] is absent and the request
    goes to the handler as it is. *)
Theorem fail_closed_when_configured settings now request call_next w :
  gated request = true ->
  (rate_limiting_enabled settings = true ->
     exists r w',
       serve settings None now request call_next w = (Ok r, (w', [])) /\
       status_code r = 503 /\ counters w' = counters w) /\
  (forall redis,
     eval_raises (first_eval redis)
       (_RATE_LIMIT_LUA (_ip_key (at_ip_key now) (get_client_ip request))
          (_global_key (at_global_key now)) 90000) (counters w) ->
     exists r w' tr,
       serve settings (Some redis) now request call_next w = (Ok r, (w', tr)) /\
       status_code r = 503 /\ EvCallNext ∉ tr) /\
  (rate_limiting_enabled settings = false ->
     forall connect st, lifespan settings connect = Ok st ->
       st = None /\
       serve settings st now request call_next w
       = (fst (call_next w), (snd (call_next w), [EvCallNext]))).
Proof.
  intros Hg. split; [|split].
  - intros En. rewrite serve_gated, En by done. eexists _, _. by repeat split.
  - intros redis Hr. rewrite serve_gated by done.
    destruct Hr as [Hl|Hs].
    + destruct (first_eval redis); [done| |]; eexists _, _, _;
        (split; [done|]); (split; [done|]); trace_mem.
    + destruct (_RATE_LIMIT_LUA _ _ _ _) as [s1 r]. simpl in Hs. subst r.
      destruct (first_eval redis); eexists _, _, _;
        (split; [done|]); (split; [done|]); trace_mem.
  - intros En connect st Hl. unfold lifespan in Hl. rewrite En in Hl.
    injection Hl as <-. split; [done|].
    rewrite serve_gated, En by done. done.
Qed.

Lemma fail_closed_when_configured_witness :
  (rate_limiting_enabled default_settings = true ->
     exists r w',
       serve default_settings None (clock_at noon) (analyze_from ∅ (Some "10.0.0.1"))
         (answers 200) fresh_world = (Ok r, (w', [])) /\
       status_code r = 503 /\ counters w' = counters fresh_world) /\
  (forall redis,
     eval_raises (first_eval redis)
       (_RATE_LIMIT_LUA
          (_ip_key (at_ip_key (clock_at noon))
             (get_client_ip (analyze_from ∅ (Some "10.0.0.1"))))
          (_global_key (at_global_key (clock_at noon))) 90000) (counters fresh_world) ->
     exists r w' tr,
       serve default_settings (Some redis) (clock_at noon) (analyze_from ∅ (Some "10.0.0.1"))
         (answers 200) fresh_world = (Ok r, (w', tr)) /\
       status_code r = 503 /\ EvCallNext ∉ tr) /\
  (rate_limiting_enabled default_settings = false ->
     forall connect st, lifespan default_settings connect = Ok st ->
       st = None /\
       serve default_settings st (clock_at noon) (analyze_from ∅ (Some "10.0.0.1"))
         (answers 200) fresh_world
       = (fst (answers 200 fresh_world), (snd (answers 200 fresh_world), [EvCallNext]))).
Proof.
  apply (fail_closed_when_configured default_settings (clock_at noon)
           (analyze_from ∅ (Some "10.0.0.1")) (answers 200) fresh_world).
  reflexivity.
Defined.

(** C6: with the counts the limit script returns, a client count above
    the daily limit is answered with the client-scope 429 whatever the
    global count is; a client count within its limit and a global count
    above the global limit is answered with the global-scope 429; counts
    within both limits reach the handler.  Both tests are strict: a
    count equal to the limit passes, the limit plus one does not. *)
Theorem strict_limits_client_first settings redis now request call_next w s1 ic gc :
  gated request = true ->
  first_eval redis = Up ->
  _RATE_LIMIT_LUA (_ip_key (at_ip_key now) (get_client_ip request))
    (_global_key (at_global_key now)) 90000 (counters w) = (s1, Some (ic, gc)) ->
  let out := serve settings (Some redis) now request call_next w in
  let reset_time := _next_reset (at_next_reset now) in
  (DAILY_RATE_LIMIT settings < ic ->
     fst out = Ok (rate_limit_exceeded settings ic reset_time (reset_time - at_retry_after now)) /\
     EvCallNext ∉ snd (snd out)) /\
  (ic <= DAILY_RATE_LIMIT settings -> GLOBAL_RATE_LIMIT settings < gc ->
     fst out = Ok (global_limit_exceeded settings reset_time (reset_time - at_retry_after now)) /\
     EvCallNext ∉ snd (snd out)) /\
  (ic <= DAILY_RATE_LIMIT settings -> gc <= GLOBAL_RATE_LIMIT settings ->
     EvCallNext ∈ snd (snd out)) /\
  (ic = DAILY_RATE_LIMIT settings -> gc <= GLOBAL_RATE_LIMIT settings ->
     EvCallNext ∈ snd (snd out)) /\
  (ic = DAILY_RATE_LIMIT settings + 1 ->
     exists r, fst out = Ok r /\ status_code r = 429 /\ EvCallNext ∉ snd (snd out)) /\
  (gc = GLOBAL_RATE_LIMIT settings -> ic <= DAILY_RATE_LIMIT settings ->
     EvCallNext ∈ snd (snd out)) /\
  (gc = GLOBAL_RATE_LIMIT settings + 1 ->
     exists r, fst out = Ok r /\ status_code r = 429 /\ EvCallNext ∉ snd (snd out)).
Proof.
  intros Hg Hup Hs out reset_time. subst out.
  rewrite serve_gated, Hup, Hs by done. fold reset_time.
  destruct (Z.ltb_spec (DAILY_RATE_LIMIT settings) ic) as [Hi|Hi].
  { simpl. split_and!; intros; try lia; try (split; [done|trace_mem]);
      (eexists; split; [done|]; split; [done|trace_mem]). }
  destruct (Z.ltb_spec (GLOBAL_RATE_LIMIT settings) gc) as [Hc|Hc].
  { simpl. split_and!; intros; try lia; try (split; [done|trace_mem]);
      (eexists; split; [done|]; split; [done|trace_mem]). }
  match goal with
  | |- context [EvCallNext ∈ snd (snd ?o)] =>
      assert (Pass : EvCallNext ∈ snd (snd o));
      [|split_and!; intros; try lia; exact Pass]
  end.
  destruct (call_next _) as [[response|exc] w2]; [|simpl; trace_mem].
  destruct (500 <=? status_code response); [|simpl; trace_mem].
  destruct (second_eval redis); [| simpl; trace_mem | simpl; trace_mem].
  destruct (_RATE_LIMIT_DECR_LUA _ _ _) as [s3 [rr|]]; simpl; trace_mem.
Qed.

Lemma sample_limit_run :
  _RATE_LIMIT_LUA
    (_ip_key (at_ip_key (clock_at noon)) (get_client_ip (analyze_from ∅ (Some "10.0.0.1"))))
    (_global_key (at_global_key (clock_at noon))) 90000 (counters fresh_world)
  = (after_first, Some (1, 1)).
Proof. vm_compute. reflexivity. Qed.

Lemma strict_limits_client_first_witness :
  EvCallNext ∈ snd (snd (serve default_settings (Some healthy) (clock_at noon)
                           (analyze_from ∅ (Some "10.0.0.1")) (answers 200) fresh_world)).
Proof.
  pose proof (strict_limits_client_first default_settings healthy (clock_at noon)
                (analyze_from ∅ (Some "10.0.0.1")) (answers 200) fresh_world
                after_first 1 1 eq_refl eq_refl sample_limit_run) as P.
  destruct P as (_ & _ & P & _). apply P; simpl; lia.
Defined.

(** C3: for a request that passed both limits and whose handler
    answered, the refund transaction on the request's two keys is issued
    exactly when the status is 500 or more (so never for a 4xx); and
    whatever happens to the refund (the network fails, the script
    raises), the caller gets the handler's response with its status and
    body unchanged. *)
Theorem refund_iff_server_failure settings redis now request call_next w s1 ic gc r w2 :
  gated request = true ->
  first_eval redis = Up ->
  _RATE_LIMIT_LUA (_ip_key (at_ip_key now) (get_client_ip request))
    (_global_key (at_global_key now)) 90000 (counters w) = (s1, Some (ic, gc)) ->
  ic <= DAILY_RATE_LIMIT settings -> gc <= GLOBAL_RATE_LIMIT settings ->
  call_next (with_counters w s1) = (Ok r, w2) ->
  let out := serve settings (Some redis) now request call_next w in
  let ip_key := _ip_key (at_ip_key now) (get_client_ip request) in
  let global_key := _global_key (at_global_key now) in
  (exists r', fst out = Ok r' /\ status_code r' = status_code r /\ body r' = body r) /\
  (EvRefund ip_key global_key ∈ snd (snd out) <-> 500 <= status_code r) /\
  (forall k1 k2, EvRefund k1 k2 ∈ snd (snd out) ->
     500 <= status_code r /\ k1 = ip_key /\ k2 = global_key) /\
  (400 <= status_code r < 500 -> forall k1 k2, EvRefund k1 k2 ∉ snd (snd out)).
Proof.
  intros Hg Hup Hs Hi Hc Hn out ip_key global_key. subst out.
  rewrite serve_gated, Hup, Hs by done. fold ip_key global_key.
  destruct (Z.ltb_spec (DAILY_RATE_LIMIT settings) ic); [lia|].
  destruct (Z.ltb_spec (GLOBAL_RATE_LIMIT settings) gc); [lia|].
  rewrite Hn.
  destruct (Z.leb_spec 500 (status_code r)) as [H5|H5].
  - assert (T : exists r' w3,
               match second_eval redis with
               | Up =>
                   match _RATE_LIMIT_DECR_LUA ip_key global_key (counters w2) with
                   | (s3, Some refund_result) =>
                       (Ok (with_rate_limit_headers settings (_next_reset (at_next_reset now))
                              (fst refund_result) r),
                        (with_telemetry (with_counters w2 s3) count_refund,
                         [EvLimit ip_key global_key 90000; EvCallNext;
                          EvRefund ip_key global_key]))
                   | (s3, None) =>
                       (Ok (with_rate_limit_headers settings (_next_reset (at_next_reset now))
                              ic r),
                        (with_counters w2 s3,
                         [EvLimit ip_key global_key 90000; EvCallNext;
                          EvRefund ip_key global_key]))
                   end
               | Down =>
                   (Ok (with_rate_limit_headers settings (_next_reset (at_next_reset now)) ic r),
                    (w2, [EvLimit ip_key global_key 90000; EvCallNext;
                          EvRefund ip_key global_key]))
               | ReplyLost =>
                   (Ok (with_rate_limit_headers settings (_next_reset (at_next_reset now)) ic r),
                    (with_counters w2
                       (fst (_RATE_LIMIT_DECR_LUA ip_key global_key (counters w2))),
                     [EvLimit ip_key global_key 90000; EvCallNext;
                      EvRefund ip_key global_key]))
               end
               = (Ok r', (w3, [EvLimit ip_key global_key 90000; EvCallNext;
                               EvRefund ip_key global_key])) /\
               status_code r' = status_code r /\ body r' = body r).
    { destruct (second_eval redis).
      - destruct (_RATE_LIMIT_DECR_LUA _ _ _) as [s3 [rr|]]; eexists _, _; by split_and!.
      - eexists _, _; by split_and!.
      - eexists _, _; by split_and!. }
    destruct T as (r' & w3 & -> & St & Bo). simpl.
    split_and!.
    + by exists r'.
    + split; [done|]. intros _. trace_mem.
    + intros k1 k2 Hin. split; [done|].
      rewrite !elem_of_cons, elem_of_nil in Hin.
      destruct Hin as [Hin|[Hin|[Hin|[]]]]; try discriminate Hin.
      by injection Hin.
    + lia.
  - simpl. split_and!.
    + eexists. by split_and!.
    + split; [|lia]. intros Hin.
      rewrite !elem_of_cons, elem_of_nil in Hin.
      destruct Hin as [Hin|[Hin|[]]]; discriminate Hin.
    + intros k1 k2 Hin.
      rewrite !elem_of_cons, elem_of_nil in Hin.
      destruct Hin as [Hin|[Hin|[]]]; discriminate Hin.
    + intros _ k1 k2. trace_mem.
Qed.

Lemma refund_iff_server_failure_witness :
  EvRefund sample_ip_key sample_global_key
    ∈ snd (snd (serve default_settings (Some healthy) (clock_at noon)
                  (analyze_from ∅ (Some "10.0.0.1")) (answers 503) fresh_world)).
Proof.
  pose proof (refund_iff_server_failure default_settings healthy (clock_at noon)
                (analyze_from ∅ (Some "10.0.0.1")) (answers 503) fresh_world
                after_first 1 1 _ _ eq_refl eq_refl sample_limit_run
                ltac:(simpl; lia) ltac:(simpl; lia) eq_refl) as P.
  destruct P as (_ & P & _). apply P. simpl. lia.
Defined.

(** ** The key scheme *)

Lemma append_assoc_cons c (a b : string) : String c a +:+ b = String c (a +:+ b).
Proof. reflexivity. Qed.

Lemma ip_key_ne_global_key (b1 b2 ip : string) : ip_key_of b1 ip <> global_key_of b2.
Proof.
  unfold ip_key_of, global_key_of. intros H.
  cbv beta iota delta [String.append] in H. discriminate H.
Qed.

Lemma global_key_inj (b1 b2 : string) : global_key_of b1 = global_key_of b2 -> b1 = b2.
Proof. unfold global_key_of. apply String.app_inj. Qed.

(** Two texts cut at their first colon agree part by part. *)
Lemma cut_at_colon (d1 d2 r1 r2 : string) :
  no_colon d1 = true -> no_colon d2 = true ->
  d1 +:+ String ":" r1 = d2 +:+ String ":" r2 -> d1 = d2 /\ r1 = r2.
Proof.
  revert d2. induction d1 as [|c d1 IH]; intros [|c2 d2] N1 N2 H.
  - by injection H.
  - rewrite append_assoc_cons in H. change ("" +:+ String ":" r1) with (String ":" r1) in H.
    injection H as <- _. simpl in N2. rewrite ?Ascii.eqb_refl in N2. done.
  - rewrite append_assoc_cons in H. change ("" +:+ String ":" r2) with (String ":" r2) in H.
    injection H as -> _. simpl in N1. rewrite ?Ascii.eqb_refl in N1. done.
  - rewrite !append_assoc_cons in H. injection H as -> H.
    simpl in N1, N2. apply andb_true_iff in N1 as [_ N1]. apply andb_true_iff in N2 as [_ N2].
    destruct (IH d2 N1 N2 H) as [-> ->]. done.
Qed.

Lemma ip_key_inj (b1 b2 ip1 ip2 : string) :
  no_colon b1 = true -> no_colon b2 = true ->
  ip_key_of b1 ip1 = ip_key_of b2 ip2 -> b1 = b2 /\ ip1 = ip2.
Proof.
  intros N1 N2 H. unfold ip_key_of in H. apply String.app_inj in H.
  change (":ip:" +:+ ip1) with (String ":" ("ip:" +:+ ip1)) in H.
  change (":ip:" +:+ ip2) with (String ":" ("ip:" +:+ ip2)) in H.
  apply cut_at_colon in H as [-> H]; [|done..].
  apply String.app_inj in H. done.
Qed.

Lemma digit_not_colon (n : nat) : Ascii.eqb (digit n) ":" = false.
Proof.
  unfold digit. pose proof (Nat.mod_upper_bound n 10 ltac:(done)) as B.
  remember (n mod 10)%nat as k eqn:E. clear E.
  do 10 (destruct k as [|k]; [reflexivity|]). lia.
Qed.

Lemma day_str_no_colon (now : datetime) : no_colon (_day_str now) = true.
Proof.
  unfold _day_str, pad4, pad2. cbv beta iota delta [String.append no_colon].
  by rewrite !digit_not_colon.
Qed.

(** C9: the keys are functions of the client id and the bucket id alone;
    a client key is never a global key, two client keys are equal only
    for the same bucket id and the same client id, and two global keys
    only for the same bucket id. *)
Theorem keys_collision_free (t1 t2 : datetime) (ip1 ip2 : string) :
  _ip_key t1 ip1 = ip_key_of (_day_str t1) ip1 /\
  _global_key t1 = global_key_of (_day_str t1) /\
  _ip_key t1 ip1 <> _global_key t2 /\
  (_ip_key t1 ip1 = _ip_key t2 ip2 -> _day_str t1 = _day_str t2 /\ ip1 = ip2) /\
  (_global_key t1 = _global_key t2 -> _day_str t1 = _day_str t2).
Proof.
  split_and!; [done | done | apply ip_key_ne_global_key | | apply global_key_inj].
  apply ip_key_inj; apply day_str_no_colon.
Qed.

Lemma keys_collision_free_witness :
  _day_str noon = _day_str late_evening /\ "10.0.0.1" = "10.0.0.1".
Proof.
  apply (keys_collision_free noon late_evening "10.0.0.1" "10.0.0.1"). reflexivity.
Defined.

(** Why the bucket id must not hold a colon: on arbitrary texts the
    client key is not injective. *)
Remark ip_key_of_arbitrary_text : ip_key_of "a:ip:b" "c" = ip_key_of "a" "b:ip:c".
Proof. reflexivity. Qed.

(** ** Client identity *)

Lemma strip_empty : Py.strip "" = "".
Proof. reflexivity. Qed.

Lemma first_non_empty_cons (s : string) (l : list string) :
  s <> "" -> first_non_empty (s :: l) = s.
Proof. by destruct s. Qed.

Lemma first_non_empty_skip (l : list string) : first_non_empty ("" :: l) = first_non_empty l.
Proof. reflexivity. Qed.

Lemma falsy_default (o : option string) : Py.truthy o = false -> default "" o = "".
Proof. by destruct o as [[|]|]. Qed.

(** C8, counterexample: a forwarded header whose first value is blank
    still wins, and the identity is the empty text although the
    real-address header and the peer are not empty; a peer with an empty
    host wins over the sentinel. *)
Lemma first_non_empty_fails :
  get_client_ip blank_forwarded = "" /\
  spec_client_identity blank_forwarded = "10.0.0.2" /\
  get_client_ip blank_forwarded <> spec_client_identity blank_forwarded /\
  get_client_ip blank_peer = "" /\
  spec_client_identity blank_peer = "unknown".
Proof. split_and!; try reflexivity. vm_compute. discriminate. Qed.

(** C8, amended: the forwarded header is used when its raw value is not
    empty (its first comma-separated value, stripped), else the
    real-address header when its raw value is not empty (stripped), else
    the host of the peer when the request has one, else "unknown"; the
    value so chosen can be empty, and whenever the identity is not empty
    it is the first non-empty candidate in that priority order. *)
Theorem client_identity_rule (request : Request) :
  let forwarded := headers request !! "X-Forwarded-For" in
  let real_ip := headers request !! "X-Real-IP" in
  (Py.truthy forwarded = true ->
     get_client_ip request = Py.strip (Py.split_comma_first (default "" forwarded))) /\
  (Py.truthy forwarded = false -> Py.truthy real_ip = true ->
     get_client_ip request = Py.strip (default "" real_ip)) /\
  (Py.truthy forwarded = false -> Py.truthy real_ip = false ->
     forall host, client request = Some host -> get_client_ip request = host) /\
  (Py.truthy forwarded = false -> Py.truthy real_ip = false ->
     client request = None -> get_client_ip request = "unknown") /\
  (get_client_ip request <> "" -> get_client_ip request = spec_client_identity request).
Proof.
  intros forwarded real_ip. unfold get_client_ip, spec_client_identity, identity_candidates.
  fold forwarded real_ip.
  destruct (Py.truthy forwarded) eqn:F.
  { split_and!; try done. intros Hne. by rewrite (first_non_empty_cons _ _ Hne). }
  rewrite (falsy_default forwarded F). change (Py.split_comma_first "") with "".
  rewrite strip_empty.
  destruct (Py.truthy real_ip) eqn:R.
  { split_and!; try done. intros Hne.
    by rewrite first_non_empty_skip, (first_non_empty_cons _ _ Hne). }
  rewrite (falsy_default real_ip R), strip_empty.
  destruct (client request) as [host|].
  - split_and!; try done.
    + intros _ _ h [= ->]. done.
    + intros Hne. rewrite !first_non_empty_skip.
      change (default "" (Some host)) with host.
      by rewrite (first_non_empty_cons _ _ Hne).
  - split_and!; done.
Qed.

Lemma client_identity_rule_witness :
  get_client_ip (analyze_from {[ "X-Forwarded-For" := "10.0.0.1, 10.0.0.9" ]} None)
  = spec_client_identity (analyze_from {[ "X-Forwarded-For" := "10.0.0.1, 10.0.0.9" ]} None).
Proof.
  apply (client_identity_rule (analyze_from {[ "X-Forwarded-For" := "10.0.0.1, 10.0.0.9" ]} None)).
  vm_compute. discriminate.
Defined.

(** ** A run of requests of one client in one bucket *)

Lemma elapse_lookup dt (s : store) k :
  elapse dt s !! k
  = match s !! k with
    | None => None
    | Some e =>
        match ttl e with
        | None => Some e
        | Some t => if t <=? dt then None else Some (Entry (value e) (Some (t - dt)))
        end
    end.
Proof. unfold elapse. rewrite lookup_omap. by destruct (s !! k). Qed.

Lemma waits_nonneg kc kg jobs : Forall (plain_job kc kg) jobs -> 0 <= waits jobs.
Proof.
  induction 1 as [|j rest Hj _ IH]; simpl; [done|].
  destruct Hj as (_ & _ & _ & _ & Hw & _). lia.
Qed.

Section Run.
Variables (settings : Settings) (kc kg : string).
Hypothesis Hkeys : kc <> kg.

Local Abbreviation L := (DAILY_RATE_LIMIT settings).
Local Abbreviation G := (GLOBAL_RATE_LIMIT settings).

(** One request on a store where both keys read [i]. *)
Lemma serve_plain_step (j : job) (w : world) (i : Z) :
  plain_job kc kg j ->
  0 <= i < INT64_MAX ->
  read (counters w) kc = i -> read (counters w) kg = i ->
  (i + 1 <= L -> i + 1 <= G) ->
  exists r w1 tr,
    serve settings (job_redis j) (job_clock j) (job_request j) (job_next j) w
    = (r, (w1, tr)) /\
    counters w1 = <[kg := bumped 90000 (counters w !! kg)]>
                    (<[kc := bumped 90000 (counters w !! kc)]> (counters w)) /\
    passed (r, tr) = (i + 1 <=? L) /\
    turned_away (r, tr) = negb (i + 1 <=? L) /\
    no_refund (r, tr).
Proof.
  intros (Hg & (redis & -> & Hup) & Hkc & Hkg & _ & Hnext) Hi Rc Rg HG.
  rewrite serve_gated, Hup, Hkc, Hkg by done.
  rewrite limit_lua_run by (done || lia). rewrite Rc, Rg.
  destruct (Z.ltb_spec L (i + 1)) as [Hl|Hl].
  { destruct (Z.leb_spec (i + 1) L); [lia|]. eexists _, _, _.
    split_and!; try done. intros k1 k2. simpl. trace_mem. }
  destruct (Z.leb_spec (i + 1) L); [|lia].
  destruct (Z.ltb_spec G (i + 1)); [lia|].
  destruct (Hnext (with_counters w
              (<[kg := bumped 90000 (counters w !! kg)]>
                 (<[kc := bumped 90000 (counters w !! kc)]> (counters w)))))
    as (r & w2 & -> & Hst & Hcs).
  destruct (Z.leb_spec 500 (status_code r)); [lia|].
  eexists _, _, _. split; [done|]. split; [done|]. split; [done|]. split.
  - unfold turned_away, passed. simpl. by rewrite andb_false_r.
  - intros k1 k2. simpl. trace_mem.
Qed.

Lemma in_step_elapse (j : job) (rest : list job) (i : Z) (s : store) :
  plain_job kc kg j -> Forall (plain_job kc kg) rest ->
  in_step kc kg i (waits (j :: rest)) s ->
  in_step kc kg i (waits rest) (elapse (since_previous j) s).
Proof.
  intros (_ & _ & _ & _ & Hw & _) Hrest Hin.
  pose proof (waits_nonneg kc kg rest Hrest) as Hr. simpl in Hin.
  destruct Hin as [(-> & Ec & Eg)|(Hi & tc & tg & Ec & Eg & Hc & Hg)].
  - left. by rewrite !elapse_lookup, Ec, Eg.
  - right. split; [done|]. exists (tc - since_previous j), (tg - since_previous j).
    rewrite !elapse_lookup, Ec, Eg. simpl.
    destruct (Z.leb_spec tc (since_previous j)); [lia|].
    destruct (Z.leb_spec tg (since_previous j)); [lia|].
    split_and!; (done || lia).
Qed.

Lemma in_step_read (i rest : Z) (s : store) :
  in_step kc kg i rest s -> read s kc = i /\ read s kg = i.
Proof.
  unfold read. intros [(-> & -> & ->)|(_ & tc & tg & -> & -> & _)]; done.
Qed.

Lemma in_step_bumped (i rest : Z) (s : store) :
  0 <= i -> rest < 90000 -> in_step kc kg i rest s ->
  in_step kc kg (i + 1) rest
    (<[kg := bumped 90000 (s !! kg)]> (<[kc := bumped 90000 (s !! kc)]> s)).
Proof.
  intros Hi Hr Hin. right. split; [lia|].
  rewrite lookup_insert_eq, lookup_insert_ne, lookup_insert_eq by done.
  destruct Hin as [(-> & -> & ->)|(H1 & tc & tg & -> & -> & Hc & Hg)].
  - exists 90000, 90000. by split_and!.
  - exists tc, tg. unfold bumped. simpl.
    destruct (Z.eqb_spec i 0); [lia|]. by split_and!.
Qed.

(** The counts of a run that starts with both keys at [i]. *)
Lemma serve_all_counts (jobs : list job) :
  Forall (plain_job kc kg) jobs ->
  forall (i : Z) (w : world),
    0 <= i ->
    in_step kc kg i (waits jobs) (counters w) ->
    waits jobs < 90000 ->
    i + Z.of_nat (length jobs) < INT64_MAX ->
    Z.min (i + Z.of_nat (length jobs)) L <= G ->
    count_where passed (fst (serve_all settings jobs w))
    = Z.max 0 (Z.min (i + Z.of_nat (length jobs)) L - i) /\
    count_where turned_away (fst (serve_all settings jobs w))
    = Z.of_nat (length jobs) - Z.max 0 (Z.min (i + Z.of_nat (length jobs)) L - i) /\
    read (counters (snd (serve_all settings jobs w))) kc = i + Z.of_nat (length jobs) /\
    Forall no_refund (fst (serve_all settings jobs w)).
Proof.
  induction 1 as [|j rest Hj Hrest IH]; intros i w Hi Hin Hw Hmax HG.
  { simpl. apply in_step_read in Hin as [-> _]. simpl. split_and!; try lia. constructor. }
  pose proof (waits_nonneg kc kg rest Hrest) as Hr.
  assert (Hwj : 0 <= since_previous j) by (destruct Hj as (_ & _ & _ & _ & ? & _); done).
  pose proof (in_step_elapse j rest i (counters w) Hj Hrest Hin) as Hin0.
  simpl in Hw. cbn [length] in Hmax, HG |- *.
  rewrite Nat2Z.inj_succ in Hmax, HG |- *.
  set (w0 := {| counters := elapse (since_previous j) (counters w);
                _telemetry := _telemetry w |}).
  destruct (in_step_read _ _ _ Hin0) as [Rc Rg].
  destruct (serve_plain_step j w0 i Hj) as (r & w1 & tr & E & C & P & T & NR);
    [lia | done | done | |].
  { intros Hl. lia. }
  assert (Hin1 : in_step kc kg (i + 1) (waits rest) (counters w1)).
  { rewrite C. apply in_step_bumped; [done | lia | done]. }
  destruct (IH (i + 1) w1) as (IP & IT & IR & INR); [lia | done | lia | lia | |].
  { replace (i + 1 + Z.of_nat (length rest)) with (i + Z.succ (Z.of_nat (length rest))) by lia.
    done. }
  cbn [serve_all]. fold w0. rewrite E.
  destruct (serve_all settings rest w1) as [rs w2] eqn:ER.
  cbn [fst snd count_where] in *. rewrite P, T, IP, IT, IR.
  split_and!; [| | lia | by constructor];
    destruct (Z.leb_spec (i + 1) L); simpl; lia.
Qed.
End Run.

(** C1: a run of N gated requests of one client in one bucket, starting
    with both keys absent, over a working connection and with handlers
    that do not fail (so nothing is refunded): min(N, L) requests reach
    the handler, the other N - min(N, L) are answered 429, the client
    counter ends at N, and no refund transaction is issued. *)
Theorem sequential_limit_counts settings (jobs : list job) (w : world) (kc kg : string) :
  Forall (plain_job kc kg) jobs ->
  counters w !! kc = None -> counters w !! kg = None ->
  waits jobs < 90000 ->
  Z.of_nat (length jobs) < INT64_MAX ->
  0 <= DAILY_RATE_LIMIT settings ->
  Z.min (Z.of_nat (length jobs)) (DAILY_RATE_LIMIT settings) <= GLOBAL_RATE_LIMIT settings ->
  let N := Z.of_nat (length jobs) in
  let L := DAILY_RATE_LIMIT settings in
  let run := serve_all settings jobs w in
  count_where passed (fst run) = Z.min N L /\
  count_where turned_away (fst run) = N - Z.min N L /\
  read (counters (snd run)) kc = N /\
  Forall no_refund (fst run).
Proof.
  intros Hjobs Ec Eg Hw Hmax HL HG N L run. subst N L run.
  destruct jobs as [|j rest].
  { simpl. unfold read. rewrite Ec. split_and!; try lia. constructor. }
  assert (Hkeys : kc <> kg).
  { apply Forall_cons in Hjobs as [(_ & _ & <- & <- & _) _]. apply ip_key_ne_global_key. }
  destruct (serve_all_counts settings kc kg Hkeys (j :: rest) Hjobs 0 w) as (P & T & R & NR);
    [lia | by left | done | lia | by rewrite Z.add_0_l |].
  rewrite Z.add_0_l, Z.sub_0_r in P, T. rewrite Z.add_0_l in R.
  split_and!; [lia | lia | done | done].
Qed.

Lemma sample_job_plain dt : 0 <= dt -> plain_job sample_ip_key sample_global_key (sample_job dt).
Proof.
  intros Hdt. split_and!; try reflexivity; try done.
  - by exists healthy.
  - intros w. eexists _, _. split; [reflexivity|]. simpl. split; [lia|done].
Qed.

Lemma sequential_limit_counts_witness :
  let run := serve_all tight_settings [sample_job 0; sample_job 5; sample_job 7] fresh_world in
  count_where passed (fst run) = Z.min 3 2 /\
  count_where turned_away (fst run) = 3 - Z.min 3 2 /\
  read (counters (snd run)) sample_ip_key = 3 /\
  Forall no_refund (fst run).
Proof.
  apply (sequential_limit_counts tight_settings
           [sample_job 0; sample_job 5; sample_job 7] fresh_world
           sample_ip_key sample_global_key).
  - repeat constructor; apply sample_job_plain; lia.
  - reflexivity.
  - reflexivity.
  - simpl. lia.
  - simpl. unfold INT64_MAX. lia.
  - simpl. lia.
  - simpl. lia.
Defined.

(** The run of the witness, computed: two requests answered 200 with the
    remaining budget counting down, the third answered 429. *)
Example three_requests_limit_two :
  map status_of (fst (serve_all tight_settings
                        [sample_job 0; sample_job 5; sample_job 7] fresh_world))
  = [200; 200; 429].
Proof. vm_compute. reflexivity. Qed.

(** ** Expiry *)

Lemma expiry_bumped (s : store) k t :
  (read s k = 0 -> ttl (bumped t (s !! k)) = Some t) /\
  (read s k <> 0 -> Some (ttl (bumped t (s !! k))) = expiry s k).
Proof.
  unfold read, bumped, expiry. destruct (s !! k) as [e|]; simpl.
  - destruct (Z.eqb_spec (value e) 0); split; done.
  - split; done.
Qed.

Lemma expiry_refunded (s : store) k :
  (1 <= read s k -> expiry (refunded s k) k = expiry s k) /\
  (s !! k = None -> refunded s k !! k = None).
Proof.
  unfold expiry. rewrite refunded_lookup. unfold read, floored.
  destruct (s !! k) as [e|]; simpl; split; try done.
  intros H. destruct (Z.ltb_spec (value e) 1); [lia|done].
Qed.

(** C4, at the failing input: the first request of the day passed and
    was refunded, so both counters hold 0 and still expire; one more
    refund keeps them at 0 (not negative) and leaves both keys without
    any expiry. *)
Theorem refund_at_zero_drops_expiry :
  refunded_once
  = {[ sample_ip_key := Entry 0 (Some 90000); sample_global_key := Entry 0 (Some 90000) ]} /\
  _RATE_LIMIT_DECR_LUA sample_ip_key sample_global_key refunded_once
  = ({[ sample_ip_key := Entry 0 None; sample_global_key := Entry 0 None ]}, Some (0, 0)).
Proof. split; vm_compute; reflexivity. Qed.

(** C5, counterexample: the first request of a bucket gives its key
    90000 seconds to live at noon as well as one hour before midnight,
    when 43200 and 3600 seconds of the bucket remain, so the expiry is
    not the remaining lifetime plus a fixed padding; and after a refund
    has brought the count back to 0, the next request sets the expiry a
    second time, 1000 seconds later than the first. *)
Lemma expiry_not_bucket_lifetime :
  expiry (first_served_at noon) sample_ip_key = Some (Some 90000) /\
  expiry (first_served_at late_evening) sample_ip_key = Some (Some 90000) /\
  _next_reset noon - epoch noon = 43200 /\
  _next_reset late_evening - epoch late_evening = 3600 /\
  ~ (exists padding : Z,
       expiry (first_served_at noon) sample_ip_key
       = Some (Some (_next_reset noon - epoch noon + padding)) /\
       expiry (first_served_at late_evening) sample_ip_key
       = Some (Some (_next_reset late_evening - epoch late_evening + padding))) /\
  (let s1 := elapse 1000 after_first in
   let s2 := fst (_RATE_LIMIT_DECR_LUA sample_ip_key sample_global_key s1) in
   let s3 := fst (_RATE_LIMIT_LUA sample_ip_key sample_global_key 90000 s2) in
   expiry s1 sample_ip_key = Some (Some 89000) /\
   expiry s2 sample_ip_key = Some (Some 89000) /\
   expiry s3 sample_ip_key = Some (Some 90000)).
Proof.
  assert (E1 : expiry (first_served_at noon) sample_ip_key = Some (Some 90000))
    by (vm_compute; reflexivity).
  assert (E2 : expiry (first_served_at late_evening) sample_ip_key = Some (Some 90000))
    by (vm_compute; reflexivity).
  split_and!; [done | done | reflexivity | reflexivity | |].
  - rewrite E1, E2. intros (padding & H1 & H2).
    injection H1 as H1. injection H2 as H2.
    unfold _next_reset, noon, late_evening in H1, H2. simpl in H1, H2. lia.
  - cbv zeta. split_and!; vm_compute; reflexivity.
Qed.

Lemma expiry_insert (s : store) k e : expiry (<[k := e]> s) k = Some (ttl e).
Proof. unfold expiry. by rewrite lookup_insert_eq. Qed.

Lemma expiry_insert_ne (s : store) k k' e : k <> k' -> expiry (<[k := e]> s) k' = expiry s k'.
Proof. intros. unfold expiry. by rewrite lookup_insert_ne. Qed.

Lemma limit_ttl_is_fixed settings redis now request call_next w k1 k2 t :
  EvLimit k1 k2 t ∈ snd (snd (serve settings redis now request call_next w)) -> t = 90000.
Proof.
  destruct (gated request) eqn:Hg.
  - rewrite serve_gated by done.
    repeat case_match; simpl;
      rewrite ?elem_of_cons, ?elem_of_nil;
      intros Hin; decompose [or] Hin; try done; try discriminate; congruence.
  - rewrite serve_ungated by done. simpl.
    rewrite ?elem_of_cons, ?elem_of_nil. intros [Hin|[]]. discriminate Hin.
Qed.

(** C5, amended: the limit script sets the expiry of a key to its TTL
    argument exactly when the count after the increment is 1, that is
    when the key was absent or held 0, and leaves the expiry of any
    other key as it was; the TTL the middleware passes is always 90000
    seconds, whatever time is left in the bucket; the refund script
    leaves the expiry of a key that holds 1 or more as it was and leaves
    an absent key absent. *)
Theorem expiry_set_when_count_is_one :
  (forall (s : store) k1 k2 t,
     k1 <> k2 -> 0 < t -> read s k1 < INT64_MAX -> read s k2 < INT64_MAX ->
     exists s',
       _RATE_LIMIT_LUA k1 k2 t s = (s', Some (read s k1 + 1, read s k2 + 1)) /\
       forall k, k = k1 \/ k = k2 ->
         (read s k = 0 -> expiry s' k = Some (Some t)) /\
         (read s k <> 0 -> expiry s' k = expiry s k)) /\
  (forall settings redis now request call_next w k1 k2 t,
     EvLimit k1 k2 t ∈ snd (snd (serve settings redis now request call_next w)) ->
     t = 90000) /\
  (forall (s : store) k1 k2,
     k1 <> k2 -> INT64_MIN < read s k1 -> INT64_MIN < read s k2 ->
     exists s' r,
       _RATE_LIMIT_DECR_LUA k1 k2 s = (s', Some r) /\
       forall k, k = k1 \/ k = k2 ->
         (1 <= read s k -> expiry s' k = expiry s k) /\
         (s !! k = None -> s' !! k = None)).
Proof.
  split_and!.
  - intros s k1 k2 t Hne Ht H1 H2. eexists. split; [by apply limit_lua_run|].
    intros k [->| ->].
    + rewrite expiry_insert_ne, expiry_insert by done.
      destruct (expiry_bumped s k1 t) as [A B]. split; intros H.
      * by rewrite A.
      * by apply B.
    + rewrite expiry_insert.
      destruct (expiry_bumped s k2 t) as [A B]. split; intros H.
      * by rewrite A.
      * by apply B.
  - apply limit_ttl_is_fixed.
  - intros s k1 k2 Hne H1 H2. eexists _, _. split; [by apply decr_lua_run|].
    intros k [->| ->].
    + destruct (expiry_refunded s k1) as [A B]. split; intros H.
      * unfold expiry. rewrite refunded_lookup_ne by done. by apply A.
      * rewrite refunded_lookup_ne by done. by apply B.
    + destruct (expiry_refunded (refunded s k1) k2) as [A B].
      split; intros H.
      * rewrite A by (by rewrite read_refunded_ne). unfold expiry.
        by rewrite refunded_lookup_ne.
      * apply B. by rewrite refunded_lookup_ne.
Qed.

Lemma expiry_set_when_count_is_one_witness :
  exists s',
    _RATE_LIMIT_LUA sample_ip_key sample_global_key 90000 ∅
    = (s', Some (read ∅ sample_ip_key + 1, read ∅ sample_global_key + 1)) /\
    forall k, k = sample_ip_key \/ k = sample_global_key ->
      (read ∅ k = 0 -> expiry s' k = Some (Some 90000)) /\
      (read ∅ k <> 0 -> expiry s' k = expiry ∅ k).
Proof.
  apply (proj1 expiry_set_when_count_is_one).
  - discriminate.
  - lia.
  - vm_compute. reflexivity.
  - vm_compute. reflexivity.
Defined.

(** ** What a request can write *)

Lemma writes_within_ret {A} k1 k2 (a : A) : writes_within k1 k2 (ret a).
Proof. by intros s k _ _. Qed.

Lemma writes_within_bind {A B} k1 k2 (m : script A) (f : A -> script B) :
  writes_within k1 k2 m -> (forall a, writes_within k1 k2 (f a)) ->
  writes_within k1 k2 (bind m f).
Proof.
  intros Hm Hf s k N1 N2. unfold bind. specialize (Hm s k N1 N2).
  destruct (m s) as [s' [a|]]; simpl in *; [|done].
  by rewrite (Hf a s' k N1 N2).
Qed.

Lemma writes_within_INCR k1 k2 k : k = k1 \/ k = k2 -> writes_within k1 k2 (INCR k).
Proof.
  intros Hk s k' N1 N2. assert (k <> k') by (destruct Hk; congruence).
  unfold INCR. destruct (s !! k) as [e|]; [destruct (_ <=? _)|]; simpl;
    by rewrite ?lookup_insert_ne.
Qed.

Lemma writes_within_DECR k1 k2 k : k = k1 \/ k = k2 -> writes_within k1 k2 (DECR k).
Proof.
  intros Hk s k' N1 N2. assert (k <> k') by (destruct Hk; congruence).
  unfold DECR. destruct (s !! k) as [e|]; [destruct (_ <=? _)|]; simpl;
    by rewrite ?lookup_insert_ne.
Qed.

Lemma writes_within_EXPIRE k1 k2 k t : k = k1 \/ k = k2 -> writes_within k1 k2 (EXPIRE k t).
Proof.
  intros Hk s k' N1 N2. assert (k <> k') by (destruct Hk; congruence).
  unfold EXPIRE. destruct (s !! k) as [e|]; [destruct (_ <=? _)|]; simpl;
    by rewrite ?lookup_insert_ne, ?lookup_delete_ne.
Qed.

Lemma writes_within_SET k1 k2 k v : k = k1 \/ k = k2 -> writes_within k1 k2 (SET k v).
Proof.
  intros Hk s k' N1 N2. assert (k <> k') by (destruct Hk; congruence).
  unfold SET. simpl. by rewrite lookup_insert_ne.
Qed.

Lemma writes_within_EXISTS k1 k2 k : writes_within k1 k2 (EXISTS k).
Proof. by intros s k' _ _. Qed.

Lemma limit_lua_writes_within k1 k2 t : writes_within k1 k2 (_RATE_LIMIT_LUA k1 k2 t).
Proof.
  unfold _RATE_LIMIT_LUA.
  apply writes_within_bind; [apply writes_within_INCR; by left|]. intros c1.
  apply writes_within_bind.
  { destruct (c1 =? 1); [apply writes_within_EXPIRE; by left | apply writes_within_ret]. }
  intros _. apply writes_within_bind; [apply writes_within_INCR; by right|]. intros c2.
  apply writes_within_bind; [|intros; apply writes_within_ret].
  destruct (c2 =? 1); [apply writes_within_EXPIRE; by right | apply writes_within_ret].
Qed.

Lemma decr_floor_writes_within k1 k2 k :
  k = k1 \/ k = k2 -> writes_within k1 k2 (decr_floor k).
Proof.
  intros Hk. unfold decr_floor.
  apply writes_within_bind; [apply writes_within_EXISTS|]. intros ex.
  destruct (ex =? 1); [|apply writes_within_ret].
  apply writes_within_bind; [by apply writes_within_DECR|]. intros c.
  destruct (c <? 0); [|apply writes_within_ret].
  apply writes_within_bind; [by apply writes_within_SET | intros; apply writes_within_ret].
Qed.

Lemma decr_lua_writes_within k1 k2 : writes_within k1 k2 (_RATE_LIMIT_DECR_LUA k1 k2).
Proof.
  unfold _RATE_LIMIT_DECR_LUA.
  apply writes_within_bind; [apply decr_floor_writes_within; by left|]. intros c1.
  apply writes_within_bind; [apply decr_floor_writes_within; by right|]. intros c2.
  apply writes_within_ret.
Qed.

Lemma serve_keeps_other_keys settings redis now request call_next w k :
  keeps_key k call_next ->
  k <> _ip_key (at_ip_key now) (get_client_ip request) ->
  k <> _global_key (at_global_key now) ->
  counters (fst (snd (serve settings redis now request call_next w))) !! k
  = counters w !! k.
Proof.
  intros Hk N1 N2.
  pose proof (limit_lua_writes_within _ _ 90000 (counters w) k N1 N2) as HL.
  destruct (gated request) eqn:Hg.
  - rewrite serve_gated by done.
    destruct redis as [redis|].
    + destruct (first_eval redis); [| done | simpl; exact HL].
      destruct (_RATE_LIMIT_LUA _ _ _ _) as [s1 [[ic gc]|]]; simpl in HL; [|done].
      destruct (_ <? ic); [done|]. destruct (_ <? gc); [done|].
      pose proof (Hk (with_counters w s1)) as Hn.
      destruct (call_next _) as [[response|exc] w2]; simpl in Hn; [|simpl; congruence].
      destruct (500 <=? status_code response); [|simpl; congruence].
      pose proof (decr_lua_writes_within _ _ (counters w2) k N1 N2) as HD.
      destruct (second_eval redis); simpl; [|congruence|congruence].
      destruct (_RATE_LIMIT_DECR_LUA _ _ _) as [s3 [rr|]]; simpl in *; congruence.
    + destruct (rate_limiting_enabled settings); [done|]. simpl. apply Hk.
  - rewrite serve_ungated by done. simpl. apply Hk.
Qed.

(** X1: whatever the outcome of a request (passed, rejected, refunded,
    store failure), the middleware writes no key of the store other
    than the request's own client key and global key: a key that the
    handler leaves alone is after the request as it was before.  So the
    counter of another client, and every counter of another day, is out
    of reach of the request. *)
Theorem request_writes_own_keys settings redis now request call_next w :
  (forall k,
     keeps_key k call_next ->
     k <> _ip_key (at_ip_key now) (get_client_ip request) ->
     k <> _global_key (at_global_key now) ->
     counters (fst (snd (serve settings redis now request call_next w))) !! k
     = counters w !! k) /\
  (forall t ip,
     keeps_key (_ip_key t ip) call_next ->
     ip <> get_client_ip request \/ _day_str t <> _day_str (at_ip_key now) ->
     counters (fst (snd (serve settings redis now request call_next w))) !! _ip_key t ip
     = counters w !! _ip_key t ip) /\
  (forall t,
     keeps_key (_global_key t) call_next ->
     _day_str t <> _day_str (at_global_key now) ->
     counters (fst (snd (serve settings redis now request call_next w))) !! _global_key t
     = counters w !! _global_key t).
Proof.
  pose proof (serve_keeps_other_keys settings redis now request call_next w) as Main.
  split_and!; [intros k; apply Main | |].
  - intros t ip Hk Hd. apply Main; [done | | apply ip_key_ne_global_key].
    intros E. apply ip_key_inj in E as [E1 E2]; [|apply day_str_no_colon..].
    destruct Hd; congruence.
  - intros t Hk Hd. apply Main; [done | | ].
    + intros E. symmetry in E. by apply ip_key_ne_global_key in E.
    + intros E. apply global_key_inj in E. congruence.
Qed.

(** ** Outcomes that keep the increment *)

Section Charged.
Variables (settings : Settings) (redis : RedisClient) (now : clock) (request : Request)
  (call_next : handler) (w : world).
Hypothesis Hgated : gated request = true.

Local Abbreviation kc := (_ip_key (at_ip_key now) (get_client_ip request)).
Local Abbreviation kg := (_global_key (at_global_key now)).
Local Abbreviation out := (serve settings (Some redis) now request call_next w).

Lemma own_keys_differ : kc <> kg.
Proof. apply ip_key_ne_global_key. Qed.

Lemma sample_limit_script :
  read (counters w) kc < INT64_MAX -> read (counters w) kg < INT64_MAX ->
  _RATE_LIMIT_LUA kc kg 90000 (counters w)
  = (<[kg := bumped 90000 (counters w !! kg)]>
       (<[kc := bumped 90000 (counters w !! kc)]> (counters w)),
     Some (read (counters w) kc + 1, read (counters w) kg + 1)).
Proof. intros. apply limit_lua_run; [apply own_keys_differ | lia | done | done]. Qed.

Lemma read_after_limit :
  read (<[kg := bumped 90000 (counters w !! kg)]>
          (<[kc := bumped 90000 (counters w !! kc)]> (counters w))) kc
  = read (counters w) kc + 1 /\
  read (<[kg := bumped 90000 (counters w !! kg)]>
          (<[kc := bumped 90000 (counters w !! kc)]> (counters w))) kg
  = read (counters w) kg + 1.
Proof.
  pose proof own_keys_differ.
  split; [rewrite read_insert_ne, read_insert by done | rewrite read_insert];
    apply value_bumped.
Qed.

(** X2: a request turned away for quota has been counted on both axes
    and is not refunded.  In particular a client within its own limit
    that is turned away on the global axis has one unit less of its own
    quota, and a client over its limit still adds to the global count. *)
Theorem rejection_is_charged :
  first_eval redis = Up ->
  read (counters w) kc < INT64_MAX -> read (counters w) kg < INT64_MAX ->
  DAILY_RATE_LIMIT settings < read (counters w) kc + 1 \/
  GLOBAL_RATE_LIMIT settings < read (counters w) kg + 1 ->
  (exists r, fst out = Ok r /\ status_code r = 429) /\
  snd (snd out) = [EvLimit kc kg 90000] /\
  read (counters (fst (snd out))) kc = read (counters w) kc + 1 /\
  read (counters (fst (snd out))) kg = read (counters w) kg + 1.
Proof.
  intros Hup H1 H2 Hover. destruct read_after_limit as [R1 R2].
  rewrite serve_gated, Hup, sample_limit_script by done.
  destruct (Z.ltb_spec (DAILY_RATE_LIMIT settings) (read (counters w) kc + 1)).
  { split_and!; try done. by eexists. }
  destruct (Z.ltb_spec (GLOBAL_RATE_LIMIT settings) (read (counters w) kg + 1)); [|lia].
  split_and!; try done. by eexists.
Qed.

(** X3: when the handler behind a request that passed the limits raises
    instead of answering, the caller gets the 503 of the rate limiter,
    no refund is issued, and (the handler leaving the two keys alone)
    both counters keep the increment. *)
Theorem raising_handler_is_charged exc w2 :
  first_eval redis = Up ->
  read (counters w) kc < INT64_MAX -> read (counters w) kg < INT64_MAX ->
  read (counters w) kc + 1 <= DAILY_RATE_LIMIT settings ->
  read (counters w) kg + 1 <= GLOBAL_RATE_LIMIT settings ->
  keeps_key kc call_next -> keeps_key kg call_next ->
  call_next (with_counters w
               (<[kg := bumped 90000 (counters w !! kg)]>
                  (<[kc := bumped 90000 (counters w !! kc)]> (counters w))))
  = (Raise exc, w2) ->
  fst out = Ok (service_unavailable "Rate limiting service error") /\
  snd (snd out) = [EvLimit kc kg 90000; EvCallNext] /\
  read (counters (fst (snd out))) kc = read (counters w) kc + 1 /\
  read (counters (fst (snd out))) kg = read (counters w) kg + 1 /\
  redis_errors (_telemetry (fst (snd out))) = redis_errors (_telemetry w2) + 1.
Proof.
  intros Hup H1 H2 HL HG Kc Kg Hn. destruct read_after_limit as [R1 R2].
  rewrite serve_gated, Hup, sample_limit_script by done.
  destruct (Z.ltb_spec (DAILY_RATE_LIMIT settings) (read (counters w) kc + 1)); [lia|].
  destruct (Z.ltb_spec (GLOBAL_RATE_LIMIT settings) (read (counters w) kg + 1)); [lia|].
  specialize (Kc (with_counters w
               (<[kg := bumped 90000 (counters w !! kg)]>
                  (<[kc := bumped 90000 (counters w !! kc)]> (counters w))))).
  specialize (Kg (with_counters w
               (<[kg := bumped 90000 (counters w !! kg)]>
                  (<[kc := bumped 90000 (counters w !! kc)]> (counters w))))).
  rewrite Hn in Kc, Kg |- *. simpl in *.
  split_and!; try done.
  - unfold read in *. by rewrite Kc.
  - unfold read in *. by rewrite Kg.
Qed.

(** X4: when the reply of the store to the limit script is lost (the
    script ran, the call timed out), the caller gets a 503, the handler
    is not called, nothing is refunded, and both counters keep the
    increment. *)
Theorem lost_reply_is_charged :
  first_eval redis = ReplyLost ->
  read (counters w) kc < INT64_MAX -> read (counters w) kg < INT64_MAX ->
  fst out = Ok (service_unavailable "Rate limiting service error") /\
  snd (snd out) = [EvLimit kc kg 90000] /\
  read (counters (fst (snd out))) kc = read (counters w) kc + 1 /\
  read (counters (fst (snd out))) kg = read (counters w) kg + 1.
Proof.
  intros Hl H1 H2. destruct read_after_limit as [R1 R2].
  rewrite serve_gated, Hl, sample_limit_script by done. by split_and!.
Qed.

(** X5: a request that passed the limits and whose handler answered
    with a server-side failure, over a working connection: the refund
    puts both counters back to what they were before the request, the
    caller gets the handler's status with the remaining budget computed
    from the refunded count, and the telemetry moves one request from
    the total to the failures. *)
Theorem failed_request_costs_nothing r w2 :
  first_eval redis = Up -> second_eval redis = Up ->
  0 <= read (counters w) kc < INT64_MAX -> 0 <= read (counters w) kg < INT64_MAX ->
  read (counters w) kc + 1 <= DAILY_RATE_LIMIT settings ->
  read (counters w) kg + 1 <= GLOBAL_RATE_LIMIT settings ->
  keeps_key kc call_next -> keeps_key kg call_next ->
  call_next (with_counters w
               (<[kg := bumped 90000 (counters w !! kg)]>
                  (<[kc := bumped 90000 (counters w !! kc)]> (counters w))))
  = (Ok r, w2) ->
  500 <= status_code r ->
  read (counters (fst (snd out))) kc = read (counters w) kc /\
  read (counters (fst (snd out))) kg = read (counters w) kg /\
  (exists r', fst out = Ok r' /\ status_code r' = status_code r /\ body r' = body r /\
     resp_headers r' !! "X-RateLimit-Remaining"
     = Some (HInt (DAILY_RATE_LIMIT settings - read (counters w) kc))) /\
  requests_total (_telemetry (fst (snd out))) = requests_total (_telemetry w2) - 1 /\
  requests_failed (_telemetry (fst (snd out))) = requests_failed (_telemetry w2) + 1.
Proof.
  intros Hup Hup2 [L1 U1] [L2 U2] HL HG Kc Kg Hn H5.
  destruct read_after_limit as [R1 R2]. pose proof own_keys_differ as Hne.
  rewrite serve_gated, Hup, sample_limit_script by done.
  destruct (Z.ltb_spec (DAILY_RATE_LIMIT settings) (read (counters w) kc + 1)); [lia|].
  destruct (Z.ltb_spec (GLOBAL_RATE_LIMIT settings) (read (counters w) kg + 1)); [lia|].
  specialize (Kc (with_counters w
               (<[kg := bumped 90000 (counters w !! kg)]>
                  (<[kc := bumped 90000 (counters w !! kc)]> (counters w))))).
  specialize (Kg (with_counters w
               (<[kg := bumped 90000 (counters w !! kg)]>
                  (<[kc := bumped 90000 (counters w !! kc)]> (counters w))))).
  rewrite Hn in Kc, Kg |- *. simpl in Kc, Kg.
  destruct (Z.leb_spec 500 (status_code r)); [|lia]. rewrite Hup2.
  assert (Q1 : read (counters w2) kc = read (counters w) kc + 1).
  { unfold read in *. by rewrite Kc. }
  assert (Q2 : read (counters w2) kg = read (counters w) kg + 1).
  { unfold read in *. by rewrite Kg. }
  rewrite decr_lua_run by (unfold INT64_MIN; done || lia).
  rewrite Q1, Q2. simpl.
  split_and!.
  - rewrite read_refunded_ne, read_refunded, Q1 by done. lia.
  - rewrite read_refunded, read_refunded_ne, Q2 by done. lia.
  - eexists. split; [done|]. split; [done|]. split; [done|].
    unfold with_rate_limit_headers, set_header. simpl.
    rewrite lookup_insert_ne, lookup_insert_eq by done. do 2 f_equal. lia.
  - done.
  - done.
Qed.
End Charged.

(** ** The budget reported along a run *)

Section Countdown.
Variables (settings : Settings) (kc kg : string).
Hypothesis Hkeys : kc <> kg.

Local Abbreviation L := (DAILY_RATE_LIMIT settings).
Local Abbreviation G := (GLOBAL_RATE_LIMIT settings).

Lemma serve_plain_answer (j : job) (w : world) (i : Z) :
  plain_job kc kg j ->
  0 <= i < INT64_MAX ->
  read (counters w) kc = i -> read (counters w) kg = i ->
  (i + 1 <= L -> i + 1 <= G) ->
  exists r w1 tr,
    serve settings (job_redis j) (job_clock j) (job_request j) (job_next j) w
    = (r, (w1, tr)) /\
    counters w1 = <[kg := bumped 90000 (counters w !! kg)]>
                    (<[kc := bumped 90000 (counters w !! kc)]> (counters w)) /\
    answer_at settings i j (r, tr).
Proof.
  intros (Hg & (redis & -> & Hup) & Hkc & Hkg & _ & Hnext) Hi Rc Rg HG.
  rewrite serve_gated, Hup, Hkc, Hkg by done.
  rewrite limit_lua_run by (done || lia). rewrite Rc, Rg.
  destruct (Z.ltb_spec L (i + 1)) as [Hl|Hl].
  { eexists _, _, _. split; [done|]. split; [done|]. split; [lia|done]. }
  destruct (Z.ltb_spec G (i + 1)); [lia|].
  destruct (Hnext (with_counters w
              (<[kg := bumped 90000 (counters w !! kg)]>
                 (<[kc := bumped 90000 (counters w !! kc)]> (counters w)))))
    as (r & w2 & -> & Hst & Hcs).
  destruct (Z.leb_spec 500 (status_code r)); [lia|].
  eexists _, _, _. split; [done|]. split; [done|]. split; [|lia].
  intros _. eexists. split; [done|]. split; [done|].
  unfold with_rate_limit_headers, set_header. simpl.
  rewrite !lookup_insert_ne, lookup_insert_eq by done.
  rewrite lookup_insert_ne, lookup_insert_eq by done.
  split; [done|]. do 2 f_equal. lia.
Qed.

Lemma serve_all_answers (jobs : list job) :
  Forall (plain_job kc kg) jobs ->
  forall (i : Z) (w : world),
    0 <= i ->
    in_step kc kg i (waits jobs) (counters w) ->
    waits jobs < 90000 ->
    i + Z.of_nat (length jobs) < INT64_MAX ->
    Z.min (i + Z.of_nat (length jobs)) L <= G ->
    forall (n : nat) j o,
      jobs !! n = Some j -> fst (serve_all settings jobs w) !! n = Some o ->
      answer_at settings (i + Z.of_nat n) j o.
Proof.
  induction 1 as [|j rest Hj Hrest IH]; intros i w Hi Hin Hw Hmax HG n j' o Ej Eo.
  { done. }
  pose proof (waits_nonneg kc kg rest Hrest) as Hr.
  assert (Hwj : 0 <= since_previous j) by (destruct Hj as (_ & _ & _ & _ & ? & _); done).
  pose proof (in_step_elapse kc kg j rest i (counters w) Hj Hrest Hin) as Hin0.
  simpl in Hw. cbn [length] in Hmax, HG. rewrite Nat2Z.inj_succ in Hmax, HG.
  set (w0 := {| counters := elapse (since_previous j) (counters w);
                _telemetry := _telemetry w |}) in *.
  destruct (in_step_read kc kg _ _ _ Hin0) as [Rc Rg].
  destruct (serve_plain_answer j w0 i Hj) as (r & w1 & tr & E & C & A);
    [lia | done | done | lia |].
  assert (Hin1 : in_step kc kg (i + 1) (waits rest) (counters w1)).
  { rewrite C. apply in_step_bumped; [done | done | lia | done]. }
  cbn [serve_all] in Eo. fold w0 in Eo. rewrite E in Eo.
  destruct (serve_all settings rest w1) as [rs w2] eqn:ER. cbn [fst] in Eo.
  destruct n as [|n].
  - simpl in Ej, Eo. injection Ej as <-. injection Eo as <-.
    by rewrite Z.add_0_r.
  - simpl in Ej, Eo.
    replace (i + Z.of_nat (S n)) with (i + 1 + Z.of_nat n) by lia.
    assert (HG' : Z.min (i + 1 + Z.of_nat (length rest)) (DAILY_RATE_LIMIT settings)
                  <= GLOBAL_RATE_LIMIT settings).
    { replace (i + 1 + Z.of_nat (length rest)) with (i + Z.succ (Z.of_nat (length rest)))
        by lia. done. }
    assert (Eo' : fst (serve_all settings rest w1) !! n = Some o) by by rewrite ER.
    apply (IH (i + 1) w1 ltac:(lia) Hin1 ltac:(lia) ltac:(lia) HG' n j' o Ej Eo').
Qed.
End Countdown.

(** X6: in a run of gated requests of one client in one bucket that
    starts with both keys absent (working connection, handlers that do
    not fail), the request at position n (counted from 0) is answered by
    its handler with the headers X-RateLimit-Limit = L and
    X-RateLimit-Remaining = L - (n + 1) as long as n + 1 <= L, so the
    reported budget counts down to 0; every later request gets the
    client-scope 429 reporting n + 1 requests made. *)
Theorem remaining_counts_down settings (jobs : list job) (w : world) (kc kg : string) :
  Forall (plain_job kc kg) jobs ->
  counters w !! kc = None -> counters w !! kg = None ->
  waits jobs < 90000 ->
  Z.of_nat (length jobs) < INT64_MAX ->
  Z.min (Z.of_nat (length jobs)) (DAILY_RATE_LIMIT settings) <= GLOBAL_RATE_LIMIT settings ->
  forall (n : nat) j o,
    jobs !! n = Some j -> fst (serve_all settings jobs w) !! n = Some o ->
    (Z.of_nat n + 1 <= DAILY_RATE_LIMIT settings ->
       exists r, fst o = Ok r /\ status_code r < 500 /\
         resp_headers r !! "X-RateLimit-Limit" = Some (HInt (DAILY_RATE_LIMIT settings)) /\
         resp_headers r !! "X-RateLimit-Remaining"
         = Some (HInt (DAILY_RATE_LIMIT settings - (Z.of_nat n + 1)))) /\
    (DAILY_RATE_LIMIT settings < Z.of_nat n + 1 ->
       fst o = Ok (rate_limit_exceeded settings (Z.of_nat n + 1)
                     (_next_reset (at_next_reset (job_clock j)))
                     (_next_reset (at_next_reset (job_clock j))
                      - at_retry_after (job_clock j)))).
Proof.
  intros Hjobs Ec Eg Hw Hmax HG n j o Ej Eo.
  assert (Hkeys : kc <> kg).
  { destruct jobs as [|j0 rest]; [done|].
    apply Forall_cons in Hjobs as [(_ & _ & <- & <- & _) _]. apply ip_key_ne_global_key. }
  pose proof (serve_all_answers settings kc kg Hkeys jobs Hjobs 0 w) as A.
  specialize (A ltac:(lia) ltac:(by left) Hw ltac:(lia)).
  rewrite Z.add_0_l in A. specialize (A HG n j o Ej Eo).
  unfold answer_at in A. by rewrite !Z.add_0_l in A.
Qed.

(** ** No handler without a count *)

(** X7: when rate limiting is configured, the handler of a gated request
    is called only after the limit script has been issued over a working
    connection and has returned counts within both limits; with the
    handle absent, a failing connection, a script error or a count over
    a limit the handler is not called. *)
Theorem handler_only_after_count settings st now request call_next w :
  rate_limiting_enabled settings = true ->
  gated request = true ->
  EvCallNext ∈ snd (snd (serve settings st now request call_next w)) ->
  exists redis s1 ic gc tr,
    st = Some redis /\ first_eval redis = Up /\
    _RATE_LIMIT_LUA (_ip_key (at_ip_key now) (get_client_ip request))
      (_global_key (at_global_key now)) 90000 (counters w) = (s1, Some (ic, gc)) /\
    ic <= DAILY_RATE_LIMIT settings /\ gc <= GLOBAL_RATE_LIMIT settings /\
    snd (snd (serve settings st now request call_next w))
    = EvLimit (_ip_key (at_ip_key now) (get_client_ip request))
        (_global_key (at_global_key now)) 90000 :: EvCallNext :: tr.
Proof.
  intros En Hg. rewrite serve_gated, En by done.
  destruct st as [redis|]; [|simpl; by rewrite elem_of_nil].
  destruct (first_eval redis) eqn:Hl;
    [| simpl; rewrite list_elem_of_singleton; discriminate
     | simpl; rewrite list_elem_of_singleton; discriminate].
  destruct (_RATE_LIMIT_LUA _ _ _ _) as [s1 [[ic gc]|]] eqn:Hs;
    [| simpl; rewrite list_elem_of_singleton; discriminate].
  destruct (Z.ltb_spec (DAILY_RATE_LIMIT settings) ic);
    [simpl; rewrite list_elem_of_singleton; discriminate|].
  destruct (Z.ltb_spec (GLOBAL_RATE_LIMIT settings) gc);
    [simpl; rewrite list_elem_of_singleton; discriminate|].
  intros _. exists redis, s1, ic, gc.
  destruct (call_next _) as [[response|exc] w2]; [|by eexists].
  destruct (500 <=? status_code response); [|by eexists].
  destruct (second_eval redis); [|by eexists..].
  destruct (_RATE_LIMIT_DECR_LUA _ _ _) as [s3 [rr|]]; by eexists.
Qed.

(** ** The status query *)

Lemma get_remaining_requests_run settings redis now ip st :
  get_remaining_requests settings redis now ip st
  = match redis with
    | None => (Ok {| user_remaining := 0; global_remaining := 0 |}, st)
    | Some redis =>
        match first_eval redis, second_eval redis with
        | Up, Up =>
            (Ok {| user_remaining :=
                     Z.max 0 (DAILY_RATE_LIMIT settings
                              - read (counters (fst st)) (_ip_key (at_ip_key now) ip));
                   global_remaining :=
                     Z.max 0 (GLOBAL_RATE_LIMIT settings
                              - read (counters (fst st)) (_global_key (at_global_key now))) |},
             st)
        | _, _ =>
            (Ok {| user_remaining := 0; global_remaining := 0 |},
             (with_telemetry (fst st) bump_redis_errors, snd st))
        end
    end.
Proof.
  unfold get_remaining_requests. destruct redis as [redis|]; [|done].
  unfold redis_get. destruct st as [w tr].
  destruct (first_eval redis), (second_eval redis); io_run; done.
Qed.

(** X8: the status query never raises and never writes the store; what
    it reports is never negative, and is at most the limit when the
    counter is not negative; without a handle, or when one of its two
    reads fails, it reports 0 on both axes (in the second case it counts
    a store error); with both reads answered it reports the limit minus
    the count, floored at 0. *)
Theorem remaining_is_bounded settings redis now ip (w : world) (tr : list event) :
  exists rem w',
    get_remaining_requests settings redis now ip (w, tr) = (Ok rem, (w', tr)) /\
    counters w' = counters w /\
    0 <= user_remaining rem /\ 0 <= global_remaining rem /\
    (0 <= read (counters w) (_ip_key (at_ip_key now) ip) ->
       user_remaining rem <= Z.max 0 (DAILY_RATE_LIMIT settings)) /\
    (0 <= read (counters w) (_global_key (at_global_key now)) ->
       global_remaining rem <= Z.max 0 (GLOBAL_RATE_LIMIT settings)) /\
    (redis = None -> user_remaining rem = 0 /\ global_remaining rem = 0 /\ w' = w) /\
    (forall c, redis = Some c -> first_eval c <> Up \/ second_eval c <> Up ->
       user_remaining rem = 0 /\ global_remaining rem = 0 /\
       redis_errors (_telemetry w') = redis_errors (_telemetry w) + 1) /\
    (forall c, redis = Some c -> first_eval c = Up -> second_eval c = Up ->
       w' = w /\
       user_remaining rem
       = Z.max 0 (DAILY_RATE_LIMIT settings - read (counters w) (_ip_key (at_ip_key now) ip)) /\
       global_remaining rem
       = Z.max 0 (GLOBAL_RATE_LIMIT settings
                  - read (counters w) (_global_key (at_global_key now)))).
Proof.
  rewrite get_remaining_requests_run. destruct redis as [c|].
  - destruct (first_eval c) eqn:E1, (second_eval c) eqn:E2; simpl;
      eexists _, _; (split; [reflexivity|]); simpl;
      (split_and!; [done | lia | lia | lia | lia | done | |]);
      intros c' [= <-]; rewrite ?E1, ?E2; intros; try done; try (intuition congruence).
  - eexists _, _. split; [reflexivity|]. simpl.
    split_and!; try done; lia.
Qed.

Lemma initialize_run settings redis now request st :
  first_eval redis = Up -> second_eval redis = Up ->
  initialize settings (Some redis) now request st
  = (Ok {| user_requests_remaining :=
             Z.max 0 (DAILY_RATE_LIMIT settings
                      - read (counters (fst st))
                          (_ip_key (at_ip_key now) (get_client_ip request)));
           user_requests_limit := DAILY_RATE_LIMIT settings;
           global_requests_remaining :=
             Z.max 0 (GLOBAL_RATE_LIMIT settings
                      - read (counters (fst st)) (_global_key (at_global_key now)));
           global_requests_limit := GLOBAL_RATE_LIMIT settings;
           reset_at := _next_reset (at_next_reset now) |}, st).
Proof.
  intros E1 E2. unfold initialize, io_bind.
  rewrite get_remaining_requests_run, E1, E2. done.
Qed.

(** X9: what [GET /initialize] reports over a working connection
    predicts what the rate limiter does to the next gated request of the
    same client in the same bucket: with budget left on both axes the
    request reaches its handler; with no client budget left it gets the
    client-scope 429; with client budget left and no global budget left
    it gets the global-scope 429. *)
Theorem status_predicts_decision settings reader redis asked now query request
    call_next (w : world) :
  first_eval reader = Up -> second_eval reader = Up ->
  gated request = true -> first_eval redis = Up ->
  _ip_key (at_ip_key asked) (get_client_ip query)
  = _ip_key (at_ip_key now) (get_client_ip request) ->
  _global_key (at_global_key asked) = _global_key (at_global_key now) ->
  read (counters w) (_ip_key (at_ip_key now) (get_client_ip request)) < INT64_MAX ->
  read (counters w) (_global_key (at_global_key now)) < INT64_MAX ->
  exists status,
    initialize settings (Some reader) asked query (w, []) = (Ok status, (w, [])) /\
    let out := serve settings (Some redis) now request call_next w in
    (0 < user_requests_remaining status -> 0 < global_requests_remaining status ->
       EvCallNext ∈ snd (snd out)) /\
    (user_requests_remaining status = 0 ->
       exists ic reset retry,
         fst out = Ok (rate_limit_exceeded settings ic reset retry)) /\
    (0 < user_requests_remaining status -> global_requests_remaining status = 0 ->
       exists reset retry, fst out = Ok (global_limit_exceeded settings reset retry)).
Proof.
  intros Q1 Q2 Hg Hup Ekc Ekg H1 H2.
  rewrite initialize_run by done. eexists. split; [reflexivity|].
  cbn [user_requests_remaining global_requests_remaining fst counters].
  rewrite Ekc, Ekg.
  rewrite serve_gated, Hup by done.
  rewrite limit_lua_run by (done || lia || apply ip_key_ne_global_key).
  set (c := read (counters w) (_ip_key (at_ip_key now) (get_client_ip request))) in *.
  set (g := read (counters w) (_global_key (at_global_key now))) in *.
  destruct (Z.ltb_spec (DAILY_RATE_LIMIT settings) (c + 1)).
  { split_and!; [lia | by eexists _, _, _ | lia]. }
  destruct (Z.ltb_spec (GLOBAL_RATE_LIMIT settings) (g + 1)).
  { split_and!; [lia | lia | by eexists _, _]. }
  split_and!; [| lia | lia]. intros _ _.
  destruct (call_next _) as [[response|exc] w2]; [|simpl; trace_mem].
  destruct (500 <=? status_code response); [|simpl; trace_mem].
  destruct (second_eval redis); [| simpl; trace_mem | simpl; trace_mem].
  destruct (_RATE_LIMIT_DECR_LUA _ _ _) as [s3 [rr|]]; simpl; trace_mem.
Qed.

(** ** The size check *)

(** X10: the size check looks only at the Content-Length header of
    POST, PUT and PATCH requests: a request of another method, or one
    without the header (or with an empty one), goes to the next handler
    whatever its body; a length above the maximum is answered 413
    without calling the next handler and without touching the world; a
    length up to the maximum (also a negative one) goes through; a
    header that [int] rejects makes the middleware raise. *)
Theorem size_check_reads_header_only int MAX request (call_next : handler) (w : world) :
  let checked :=
    String.eqb (method request) "POST" || String.eqb (method request) "PUT"
    || String.eqb (method request) "PATCH" in
  let content_length := headers request !! "content-length" in
  (checked = false ->
     request_size_middleware int MAX request call_next w = call_next w) /\
  (Py.truthy content_length = false ->
     request_size_middleware int MAX request call_next w = call_next w) /\
  (forall text n, checked = true -> content_length = Some text -> text <> "" ->
     int text = Ok n -> MAX < n ->
     request_size_middleware int MAX request call_next w
     = (Ok (request_too_large MAX), w)) /\
  (forall text n, checked = true -> content_length = Some text -> text <> "" ->
     int text = Ok n -> n <= MAX ->
     request_size_middleware int MAX request call_next w = call_next w) /\
  (forall text exc, checked = true -> content_length = Some text -> text <> "" ->
     int text = Raise exc ->
     request_size_middleware int MAX request call_next w = (Raise exc, w)).
Proof.
  intros checked content_length. unfold request_size_middleware.
  fold checked content_length. split_and!.
  - by intros ->.
  - intros ->. by destruct checked.
  - intros text n -> -> Hne Hi Hn. destruct text; [done|]. simpl. rewrite Hi.
    destruct (Z.ltb_spec MAX n); [done|lia].
  - intros text n -> -> Hne Hi Hn. destruct text; [done|]. simpl. rewrite Hi.
    destruct (Z.ltb_spec MAX n); [lia|done].
  - intros text exc -> -> Hne Hi. destruct text; [done|]. simpl. by rewrite Hi.
Qed.

(** ** The security headers *)

(** X11: on every response of the handler it wraps, the innermost
    middleware puts the six security headers with their fixed values,
    replacing what the handler may have set under these names, and
    leaves the status, the body, every other header and the world as
    the handler gave them; when the handler raises, it raises the same
    exception. *)
Theorem security_headers_fixed request (call_next : handler) (w : world) :
  (forall r w', call_next w = (Ok r, w') ->
     exists r',
       security_headers_middleware request call_next w = (Ok r', w') /\
       status_code r' = status_code r /\ body r' = body r /\
       resp_headers r' !! "X-Content-Type-Options" = Some (HStr "nosniff") /\
       resp_headers r' !! "X-Frame-Options" = Some (HStr "DENY") /\
       resp_headers r' !! "X-XSS-Protection" = Some (HStr "1; mode=block") /\
       resp_headers r' !! "Strict-Transport-Security"
       = Some (HStr "max-age=31536000; includeSubDomains") /\
       resp_headers r' !! "Referrer-Policy" = Some (HStr "strict-origin-when-cross-origin") /\
       resp_headers r' !! "Permissions-Policy"
       = Some (HStr "camera=(), microphone=(), geolocation=()") /\
       (forall name, name ∉ security_header_names ->
          resp_headers r' !! name = resp_headers r !! name)) /\
  (forall exc w', call_next w = (Raise exc, w') ->
     security_headers_middleware request call_next w = (Raise exc, w')).
Proof.
  unfold security_headers_middleware. split.
  - intros r w' ->. eexists. split; [reflexivity|]. unfold set_header. simpl.
    split_and!; try done;
      try (repeat (rewrite lookup_insert_eq || rewrite lookup_insert_ne by done); done).
    intros name Hn. unfold security_header_names in Hn.
    rewrite !not_elem_of_cons in Hn. destruct Hn as (N1 & N2 & N3 & N4 & N5 & N6 & _).
    by rewrite !lookup_insert_ne.
  - by intros exc w' ->.
Qed.

(** ** The chain of middlewares *)

Lemma http_middlewares_serve settings int MAX st now request routes w :
  http_middlewares settings int MAX st now request routes (w, [])
  = serve settings st now request
      (request_size_middleware int MAX request (security_headers_middleware request routes)) w.
Proof. reflexivity. Qed.

(** X12: the rate limiter wraps the size check, so a gated request
    whose declared length is above the maximum is counted before it is
    refused: over a working connection and within both limits it is
    answered 413 with the rate-limit headers, the routes are never
    reached (the outcome is the same for any two routes), both counters
    keep the increment, and no refund is issued. *)
Theorem oversized_request_is_charged settings int MAX redis now request routes
    (w : world) text n :
  gated request = true ->
  headers request !! "content-length" = Some text -> text <> "" ->
  int text = Ok n -> MAX < n ->
  first_eval redis = Up ->
  read (counters w) (_ip_key (at_ip_key now) (get_client_ip request)) < INT64_MAX ->
  read (counters w) (_global_key (at_global_key now)) < INT64_MAX ->
  read (counters w) (_ip_key (at_ip_key now) (get_client_ip request)) + 1
  <= DAILY_RATE_LIMIT settings ->
  read (counters w) (_global_key (at_global_key now)) + 1 <= GLOBAL_RATE_LIMIT settings ->
  let kc := _ip_key (at_ip_key now) (get_client_ip request) in
  let kg := _global_key (at_global_key now) in
  let out := http_middlewares settings int MAX (Some redis) now request routes (w, []) in
  (exists r, fst out = Ok r /\ status_code r = 413 /\
     resp_headers r !! "X-RateLimit-Remaining"
     = Some (HInt (DAILY_RATE_LIMIT settings - (read (counters w) kc + 1)))) /\
  snd (snd out) = [EvLimit kc kg 90000; EvCallNext] /\
  read (counters (fst (snd out))) kc = read (counters w) kc + 1 /\
  read (counters (fst (snd out))) kg = read (counters w) kg + 1 /\
  (forall routes',
     http_middlewares settings int MAX (Some redis) now request routes' (w, []) = out).
Proof.
  intros Hg Hcl Hne Hi Hn Hup H1 H2 HL HG kc kg out.
  fold kc in H1, HL. fold kg in H2, HG.
  assert (Hchecked : String.eqb (method request) "POST" = true).
  { unfold gated in Hg. by apply andb_true_iff in Hg as [-> _]. }
  assert (Hsize : forall routes0 w0,
             request_size_middleware int MAX request
               (security_headers_middleware request routes0) w0
             = (Ok (request_too_large MAX), w0)).
  { intros routes0 w0. unfold request_size_middleware. rewrite Hchecked, Hcl. simpl.
    destruct text; [done|]. simpl. rewrite Hi. destruct (Z.ltb_spec MAX n); [done|lia]. }
  assert (Hout : forall routes0,
             http_middlewares settings int MAX (Some redis) now request routes0 (w, [])
             = (Ok (with_rate_limit_headers settings (_next_reset (at_next_reset now))
                      (read (counters w) kc + 1) (request_too_large MAX)),
                (with_counters w
                   (<[kg := bumped 90000 (counters w !! kg)]>
                      (<[kc := bumped 90000 (counters w !! kc)]> (counters w))),
                 [EvLimit kc kg 90000; EvCallNext]))).
  { intros routes0. rewrite http_middlewares_serve, serve_gated, Hup by done.
    fold kc kg. rewrite limit_lua_run by (done || lia || apply ip_key_ne_global_key).
    destruct (Z.ltb_spec (DAILY_RATE_LIMIT settings) (read (counters w) kc + 1)); [lia|].
    destruct (Z.ltb_spec (GLOBAL_RATE_LIMIT settings) (read (counters w) kg + 1)); [lia|].
    rewrite Hsize. done. }
  subst out. rewrite !Hout. simpl.
  assert (Hkeys : kc <> kg) by apply ip_key_ne_global_key.
  clearbody kc kg. split_and!.
  - eexists. split; [done|]. split; [done|].
    unfold with_rate_limit_headers, set_header. simpl.
    rewrite lookup_insert_ne, lookup_insert_eq by done. do 2 f_equal. lia.
  - done.
  - rewrite read_insert_ne, read_insert by done. apply value_bumped.
  - rewrite read_insert. apply value_bumped.
  - intros routes'. by rewrite Hout.
Qed.

(** X13: an answer the rate limiter gives by itself to a gated request
    (the 503 of a missing or failing store, the 429 of either limit)
    carries none of the six security headers: the middleware that sets
    them sits inside the rate limiter and is not reached. *)
Theorem limiter_answers_lack_security_headers settings int MAX st now request routes
    (w : world) r :
  gated request = true ->
  let out := http_middlewares settings int MAX st now request routes (w, []) in
  fst out = Ok r -> EvCallNext ∉ snd (snd out) ->
  (status_code r = 503 \/ status_code r = 429) /\
  forall name, name ∈ security_header_names -> resp_headers r !! name = None.
Proof.
  intros Hg out. subst out. rewrite http_middlewares_serve, serve_gated by done.
  assert (Names : forall (P : string -> Prop),
            P "X-Content-Type-Options" -> P "X-Frame-Options" -> P "X-XSS-Protection" ->
            P "Strict-Transport-Security" -> P "Referrer-Policy" -> P "Permissions-Policy" ->
            forall name, name ∈ security_header_names -> P name).
  { intros P P1 P2 P3 P4 P5 P6 name Hin. unfold security_header_names in Hin.
    rewrite !elem_of_cons, elem_of_nil in Hin.
    destruct Hin as [->|[->|[->|[->|[->|[->|[]]]]]]]; done. }
  destruct st as [redis|].
  - destruct (first_eval redis).
    + destruct (_RATE_LIMIT_LUA _ _ _ _) as [s1 [[ic gc]|]].
      * destruct (_ <? ic).
        { simpl. intros [= <-] _. split; [by right|]. apply Names; reflexivity. }
        destruct (_ <? gc).
        { simpl. intros [= <-] _. split; [by right|]. apply Names; reflexivity. }
        intros _ Hno. exfalso. apply Hno. clear Hno.
        destruct (request_size_middleware _ _ _ _ _) as [[response|exc] w2];
          [|simpl; trace_mem].
        destruct (500 <=? status_code response); [|simpl; trace_mem].
        destruct (second_eval redis); [| simpl; trace_mem | simpl; trace_mem].
        destruct (_RATE_LIMIT_DECR_LUA _ _ _) as [s3 [rr|]]; simpl; trace_mem.
      * simpl. intros [= <-] _. split; [by left|]. apply Names; reflexivity.
    + simpl. intros [= <-] _. split; [by left|]. apply Names; reflexivity.
    + simpl. intros [= <-] _. split; [by left|]. apply Names; reflexivity.
  - destruct (rate_limiting_enabled settings).
    + simpl. intros [= <-] _. split; [by left|]. apply Names; reflexivity.
    + simpl. intros _ Hno. exfalso. apply Hno. trace_mem.
Qed.

(** ** Allowed origins *)

Lemma rstrip_cons c (r : string) :
  Py.rstrip (String c r)
  = match Py.rstrip r with
    | EmptyString => if Py.isspace c then EmptyString else String c EmptyString
    | String d r' => String c (String d r')
    end.
Proof. reflexivity. Qed.

Lemma rstrip_rstrip (s : string) : Py.rstrip (Py.rstrip s) = Py.rstrip s.
Proof.
  induction s as [|c r IH]; [done|]. rewrite rstrip_cons.
  destruct (Py.rstrip r) as [|d r'] eqn:E.
  - destruct (Py.isspace c) eqn:Hc; [done|]. rewrite rstrip_cons. simpl. by rewrite Hc.
  - by rewrite rstrip_cons, IH.
Qed.

Lemma lstrip_head (s : string) :
  Py.lstrip s = "" \/ exists c r, Py.lstrip s = String c r /\ Py.isspace c = false.
Proof.
  induction s as [|c r IH]; [by left|]. cbn [Py.lstrip].
  destruct (Py.isspace c) eqn:Hc; [done|]. right. by exists c, r.
Qed.

Lemma lstrip_rstrip_head c r :
  Py.isspace c = false -> Py.lstrip (Py.rstrip (String c r)) = Py.rstrip (String c r).
Proof.
  intros Hc. rewrite rstrip_cons. destruct (Py.rstrip r); rewrite ?Hc; cbn [Py.lstrip];
    by rewrite Hc.
Qed.

Lemma strip_strip (s : string) : Py.strip (Py.strip s) = Py.strip s.
Proof.
  unfold Py.strip. destruct (lstrip_head s) as [->|(c & r & -> & Hc)]; [done|].
  by rewrite lstrip_rstrip_head, rstrip_rstrip.
Qed.

Lemma existsb_star (l : list string) : existsb (String.eqb "*") l = true <-> In "*" l.
Proof.
  rewrite existsb_exists. split.
  - intros (x & Hin & E). apply String.eqb_eq in E. by subst.
  - intros Hin. exists "*". split; [done | apply String.eqb_refl].
Qed.

Lemma nonempty_true (s : string) : nonempty s = true <-> s <> "".
Proof. by destruct s. Qed.

Lemma stripped_entries (A : string) (o : string) :
  In o (map Py.strip (List.filter (fun e => nonempty (Py.strip e)) (split_comma A)))
  <-> exists e, In e (split_comma A) /\ Py.strip e = o /\ o <> "".
Proof.
  rewrite in_map_iff. split.
  - intros (e & <- & Hin). apply filter_In in Hin as [Hin Hn].
    exists e. split_and!; try done. by apply nonempty_true.
  - intros (e & Hin & <- & Hn). exists e. split; [done|].
    apply filter_In. split; [done|]. by apply nonempty_true.
Qed.

(** X14: credentials are never allowed together with the wildcard: if
    one of the comma-separated entries of ALLOWED_ORIGINS is "*" once
    stripped, the origins are exactly ["*"] and credentials are refused;
    otherwise credentials are allowed and the origins are the stripped
    non-blank entries in their order, none of them "*". *)
Theorem wildcard_excludes_credentials (ALLOWED_ORIGINS : string) :
  ((exists e, In e (split_comma ALLOWED_ORIGINS) /\ Py.strip e = "*") ->
     cors_origins ALLOWED_ORIGINS = ["*"] /\ allow_credentials ALLOWED_ORIGINS = false) /\
  (~ (exists e, In e (split_comma ALLOWED_ORIGINS) /\ Py.strip e = "*") ->
     cors_origins ALLOWED_ORIGINS
     = map Py.strip (List.filter (fun e => nonempty (Py.strip e)) (split_comma ALLOWED_ORIGINS))
     /\ ~ In "*" (cors_origins ALLOWED_ORIGINS)
     /\ allow_credentials ALLOWED_ORIGINS = true) /\
  (allow_credentials ALLOWED_ORIGINS = true <-> ~ In "*" (cors_origins ALLOWED_ORIGINS)).
Proof.
  unfold allow_credentials, cors_origins.
  destruct (existsb (String.eqb "*") (map Py.strip _)) eqn:E.
  - apply existsb_star, stripped_entries in E as (e & Hin & He & _).
    split_and!.
    + done.
    + intros Hno. exfalso. apply Hno. by exists e.
    + simpl. split; [done|]. intros Hno. exfalso. apply Hno. by left.
  - assert (Hno : ~ In "*" (map Py.strip
                     (List.filter (fun e => nonempty (Py.strip e))
                        (split_comma ALLOWED_ORIGINS)))).
    { intros Hin. apply existsb_star in Hin. congruence. }
    split_and!.
    + intros (e & Hin & He). exfalso. apply Hno. apply stripped_entries.
      exists e. by split_and!.
    + intros _. rewrite E. by split_and!.
    + rewrite E. split; done.
Qed.

(** X15: every origin the application allows is a non-empty text
    without leading or trailing white space, however ALLOWED_ORIGINS is
    written (blank entries, spaces around commas). *)
Theorem origins_are_stripped (ALLOWED_ORIGINS : string) (o : string) :
  In o (cors_origins ALLOWED_ORIGINS) -> o <> "" /\ Py.strip o = o.
Proof.
  unfold cors_origins.
  destruct (existsb (String.eqb "*") (map Py.strip _)).
  - intros [<-|[]]. split; [done | reflexivity].
  - intros Hin. apply stripped_entries in Hin as (e & _ & <- & Hn).
    split; [done | apply strip_strip].
Qed.

(** ** Snippets *)

(** X16: [validate_issue_snippets] accepts a list of issues exactly
    when every snippet that is present has at most 4096 characters; an
    issue without a snippet, or with an empty one, never makes it
    fail. *)
Theorem snippets_within_length (issues : list (option string)) :
  validate_issue_snippets issues = true
  <-> forall snippet, In (Some snippet) issues ->
        (String.length snippet <= MAX_CODE_SNIPPET_LENGTH)%nat.
Proof.
  induction issues as [|issue rest IH]; simpl.
  - split; [intros _ ? [] | done].
  - destruct issue as [[|c r]|]; simpl.
    + rewrite IH. split.
      * intros H snippet [[= <-]|Hin]; [simpl; unfold MAX_CODE_SNIPPET_LENGTH; lia | by apply H].
      * intros H snippet Hin. apply H. by right.
    + destruct (Nat.ltb_spec MAX_CODE_SNIPPET_LENGTH (S (String.length r))) as [Hl|Hl].
      * split; [done|]. intros H. specialize (H (String c r) ltac:(by left)).
        simpl in H. lia.
      * rewrite IH. split.
        -- intros H snippet [[= <-]|Hin]; [simpl; lia | by apply H].
        -- intros H snippet Hin. apply H. by right.
    + rewrite IH. split.
      * intros H snippet [[=]|Hin]. by apply H.
      * intros H snippet Hin. apply H. by right.
Qed.

(** ** Refunds that follow their own limit run *)

Lemma replay_present (k1 k2 : string) (ops : list store_op) :
  k1 <> k2 ->
  forall (b1 b2 : Z) (s : store),
    0 <= b1 -> 0 <= b2 ->
    s !! k1 = Some (Entry b1 (Some 90000)) -> s !! k2 = Some (Entry b2 (Some 90000)) ->
    covered b1 ops = true -> covered b2 ops = true ->
    b1 + Z.of_nat (length ops) < INT64_MAX -> b2 + Z.of_nat (length ops) < INT64_MAX ->
    replay k1 k2 ops s !! k1 = Some (Entry (b1 + net ops) (Some 90000)) /\
    replay k1 k2 ops s !! k2 = Some (Entry (b2 + net ops) (Some 90000)) /\
    0 <= b1 + net ops /\ 0 <= b2 + net ops.
Proof.
  intros Hne. induction ops as [|[|] rest IH]; intros b1 b2 s P1 P2 E1 E2 C1 C2 M1 M2;
    cbn [replay covered net length] in *; rewrite ?Nat2Z.inj_succ in *.
  - rewrite !Z.add_0_r. by split_and!.
  - rewrite limit_lua_run by (rewrite ?(read_lookup _ _ _ E1), ?(read_lookup _ _ _ E2);
                              simpl; done || lia).
    cbn [fst]. rewrite E1, E2.
    destruct (IH (b1 + 1) (b2 + 1)
                (<[k2 := bumped 90000 (Some (Entry b2 (Some 90000)))]>
                   (<[k1 := bumped 90000 (Some (Entry b1 (Some 90000)))]> s)))
      as (R1 & R2 & N1 & N2); try lia; try done.
    + rewrite lookup_insert_ne, lookup_insert_eq by done. unfold bumped. simpl.
      by destruct (b1 =? 0).
    + rewrite lookup_insert_eq. unfold bumped. simpl. by destruct (b2 =? 0).
    + rewrite R1, R2. split_and!; try lia; do 2 f_equal; lia.
  - apply andb_true_iff in C1 as [B1 C1]. apply andb_true_iff in C2 as [B2 C2].
    apply Z.leb_le in B1, B2.
    rewrite decr_lua_run by (rewrite ?(read_lookup _ _ _ E1), ?(read_lookup _ _ _ E2);
                             unfold INT64_MIN; simpl; done || lia).
    cbn [fst].
    destruct (IH (b1 - 1) (b2 - 1) (refunded (refunded s k1) k2))
      as (R1 & R2 & N1 & N2); try lia; try done.
    + rewrite refunded_lookup_ne, refunded_lookup, E1 by done. simpl.
      unfold floored. simpl. destruct (Z.ltb_spec b1 1); [lia|done].
    + rewrite refunded_lookup, refunded_lookup_ne, E2 by done. simpl.
      unfold floored. simpl. destruct (Z.ltb_spec b2 1); [lia|done].
    + rewrite R1, R2. split_and!; try lia; do 2 f_equal; lia.
Qed.

(** X17: from two absent keys, any sequence of limit runs and refunds
    in which every refund follows a limit run of its own (as the
    middleware issues them, in any interleaving of requests) leaves both
    counters at the number of limit runs minus the number of refunds,
    never negative, and, once the first limit run has created them,
    both keys keep the expiry of 90000 seconds: the clamp of the refund
    script is never taken. *)
Theorem paired_refunds_keep_expiry (k1 k2 : string) (ops : list store_op) (s : store) :
  k1 <> k2 -> s !! k1 = None -> s !! k2 = None ->
  covered 0 ops = true ->
  Z.of_nat (length ops) < INT64_MAX ->
  read (replay k1 k2 ops s) k1 = net ops /\
  read (replay k1 k2 ops s) k2 = net ops /\
  0 <= net ops /\
  (ops <> [] ->
     expiry (replay k1 k2 ops s) k1 = Some (Some 90000) /\
     expiry (replay k1 k2 ops s) k2 = Some (Some 90000)).
Proof.
  intros Hne E1 E2 C M. destruct ops as [|[|] rest]; cbn [replay covered net length] in *.
  - unfold read. rewrite E1, E2. by split_and!.
  - rewrite Nat2Z.inj_succ in M.
    rewrite limit_lua_run by (rewrite ?(read_absent _ _ E1), ?(read_absent _ _ E2);
                              unfold INT64_MAX; done || lia).
    cbn [fst]. rewrite E1, E2.
    destruct (replay_present k1 k2 rest Hne 1 1
                (<[k2 := bumped 90000 None]> (<[k1 := bumped 90000 None]> s)))
      as (R1 & R2 & N1 & N2); try lia; try done.
    + by rewrite lookup_insert_ne, lookup_insert_eq.
    + by rewrite lookup_insert_eq.
    + unfold read, expiry. rewrite R1, R2. simpl. by split_and!.
  - done.
Qed.

(** ** Several clients under the global limit *)

Lemma key_fresh_elapse dt rest (s : store) k :
  0 <= dt -> 0 <= rest -> key_fresh (dt + rest) s k ->
  key_fresh rest (elapse dt s) k /\ read (elapse dt s) k = read s k.
Proof.
  intros Hdt Hrest [E|(v & t & E & Hv & Ht)]; unfold key_fresh, read;
    rewrite !elapse_lookup, E; simpl.
  - split; [by left | done].
  - destruct (Z.leb_spec t dt); [lia|]. split; [|done].
    right. exists v, (t - dt). split_and!; (done || lia).
Qed.

Lemma key_fresh_read rest (s : store) k : key_fresh rest s k -> 0 <= read s k.
Proof. unfold read. intros [->|(v & t & -> & Hv & _)]; simpl; lia. Qed.

Lemma key_fresh_bumped rest (s : store) k :
  rest < 90000 -> key_fresh rest s k ->
  exists t, bumped 90000 (s !! k) = Entry (read s k + 1) (Some t) /\ rest < t.
Proof.
  unfold read, bumped. intros Hr [->|(v & t & -> & Hv & Ht)]; simpl.
  - by exists 90000.
  - destruct (Z.eqb_spec v 0); [lia|]. by exists t.
Qed.

Lemma global_step_elapse kg dt i rest (s : store) :
  0 <= dt -> 0 <= rest -> global_step kg i (dt + rest) s ->
  global_step kg i rest (elapse dt s) /\ read (elapse dt s) kg = i.
Proof.
  intros Hdt Hrest [(-> & E)|(Hi & t & E & Ht)]; unfold global_step, read;
    rewrite !elapse_lookup, E; simpl.
  - split; [by left | done].
  - destruct (Z.leb_spec t dt); [lia|]. split; [|done].
    right. split; [done|]. exists (t - dt). split; (done || lia).
Qed.

Lemma global_step_bumped kg i rest (s : store) :
  0 <= i -> rest < 90000 -> global_step kg i rest s ->
  global_step kg (i + 1) rest (<[kg := bumped 90000 (s !! kg)]> s).
Proof.
  intros Hi Hr Hs. right. split; [lia|]. rewrite lookup_insert_eq.
  destruct Hs as [(-> & ->)|(H1 & t & -> & Ht)]; unfold bumped; simpl.
  - by exists 90000.
  - destruct (Z.eqb_spec i 0); [lia|]. by exists t.
Qed.

Lemma requests_of_cons k j rest :
  requests_of k (j :: rest)
  = (if String.eqb (client_key_of j) k then 1 else 0) + requests_of k rest.
Proof. reflexivity. Qed.

Lemma requests_of_nonneg k jobs : 0 <= requests_of k jobs.
Proof.
  induction jobs as [|j rest IH]; [done|]. rewrite requests_of_cons.
  destruct (String.eqb _ _); lia.
Qed.

Section Bucket.
Variables (settings : Settings) (kg : string).

Local Abbreviation L := (DAILY_RATE_LIMIT settings).
Local Abbreviation G := (GLOBAL_RATE_LIMIT settings).

(** One request of a client within its own limit. *)
Lemma serve_bucket_step (j : job) (w : world) (i : Z) :
  plain_job (client_key_of j) kg j ->
  0 <= read (counters w) (client_key_of j) ->
  read (counters w) (client_key_of j) + 1 <= L ->
  L <= INT64_MAX ->
  0 <= i < INT64_MAX ->
  read (counters w) kg = i ->
  exists r w1 tr,
    serve settings (job_redis j) (job_clock j) (job_request j) (job_next j) w
    = (r, (w1, tr)) /\
    counters w1 = <[kg := bumped 90000 (counters w !! kg)]>
                    (<[client_key_of j := bumped 90000 (counters w !! client_key_of j)]>
                       (counters w)) /\
    passed (r, tr) = (i + 1 <=? G) /\
    turned_away (r, tr) = negb (i + 1 <=? G) /\
    passed_or_global settings (r, tr).
Proof.
  intros (Hg & (redis & -> & Hup) & Hkc & Hkg & _ & Hnext) Hc HL HM Hi Rg.
  assert (Hne : client_key_of j <> kg).
  { rewrite <- Hkg. apply ip_key_ne_global_key. }
  rewrite serve_gated, Hup by done. fold (client_key_of j). rewrite Hkg.
  rewrite limit_lua_run by (done || lia). rewrite Rg.
  destruct (Z.ltb_spec L (read (counters w) (client_key_of j) + 1)); [lia|].
  destruct (Z.ltb_spec G (i + 1)) as [Hl|Hl].
  { destruct (Z.leb_spec (i + 1) G); [lia|]. eexists _, _, _.
    split_and!; try done. right. by eexists _, _. }
  destruct (Z.leb_spec (i + 1) G); [|lia].
  destruct (Hnext (with_counters w
              (<[kg := bumped 90000 (counters w !! kg)]>
                 (<[client_key_of j := bumped 90000 (counters w !! client_key_of j)]>
                    (counters w)))))
    as (r & w2 & -> & Hst & Hcs).
  destruct (Z.leb_spec 500 (status_code r)); [lia|].
  eexists _, _, _. split; [done|]. split; [done|]. split; [done|]. split.
  - unfold turned_away, passed. simpl. by rewrite andb_false_r.
  - by left.
Qed.

(** The counts of a run that starts with the global key at [i]; the
    client keys of interest are the [tracked] ones. *)
Lemma serve_bucket_counts (tracked : string -> Prop) (jobs : list job) :
  Forall (fun j => plain_job (client_key_of j) kg j /\ tracked (client_key_of j)) jobs ->
  L <= INT64_MAX ->
  forall (i : Z) (w : world),
    0 <= i ->
    global_step kg i (waits jobs) (counters w) ->
    (forall k, tracked k ->
       k <> kg /\ key_fresh (waits jobs) (counters w) k /\
       read (counters w) k + requests_of k jobs <= L) ->
    waits jobs < 90000 ->
    i + Z.of_nat (length jobs) < INT64_MAX ->
    count_where passed (fst (serve_all settings jobs w))
    = Z.max 0 (Z.min (i + Z.of_nat (length jobs)) G - i) /\
    count_where turned_away (fst (serve_all settings jobs w))
    = Z.of_nat (length jobs) - Z.max 0 (Z.min (i + Z.of_nat (length jobs)) G - i) /\
    read (counters (snd (serve_all settings jobs w))) kg = i + Z.of_nat (length jobs) /\
    (forall k, tracked k ->
       read (counters (snd (serve_all settings jobs w))) k
       = read (counters w) k + requests_of k jobs) /\
    Forall (passed_or_global settings) (fst (serve_all settings jobs w)).
Proof.
  intros Hjobs HM. induction Hjobs as [|j rest [Hj Htj] Hrest IH];
    intros i w Hi Hg Htr Hw Hmax.
  { simpl. destruct Hg as [(-> & E)|(H1 & t & E & _)]; unfold read; rewrite E; simpl;
      (split_and!; [lia | lia | lia | | constructor]);
      intros k _; unfold requests_of; simpl; lia. }
  assert (Hplain : Forall (plain_job (client_key_of j) kg) [j]) by by constructor.
  assert (Hwj : 0 <= since_previous j) by (destruct Hj as (_ & _ & _ & _ & ? & _); done).
  assert (Hr : 0 <= waits rest).
  { clear -Hrest. induction Hrest as [|j' r' [Hp _] _ IH']; simpl; [done|].
    destruct Hp as (_ & _ & _ & _ & ? & _). lia. }
  simpl in Hw, Hg. cbn [length] in Hmax |- *. rewrite Nat2Z.inj_succ in Hmax |- *.
  set (w0 := {| counters := elapse (since_previous j) (counters w);
                _telemetry := _telemetry w |}).
  destruct (global_step_elapse kg _ i _ _ Hwj Hr Hg) as [Hg0 Rg0].
  assert (Htr0 : forall k, tracked k ->
             k <> kg /\ key_fresh (waits rest) (counters w0) k /\
             read (counters w0) k = read (counters w) k).
  { intros k Hk. destruct (Htr k Hk) as (N & F & _). simpl in F.
    destruct (key_fresh_elapse _ _ _ _ Hwj Hr F) as [F0 R0]. by split_and!. }
  destruct (Htr0 _ Htj) as (Nj & Fj & Rj).
  destruct (Htr _ Htj) as (_ & _ & Lj). rewrite requests_of_cons, String.eqb_refl in Lj.
  pose proof (requests_of_nonneg (client_key_of j) rest) as Hnn.
  pose proof (key_fresh_read _ _ _ Fj) as Hc0.
  destruct (serve_bucket_step j w0 i Hj) as (r & w1 & tr & E & C & P & T & PG);
    [done | lia | done | lia | done |].
  assert (Hg1 : global_step kg (i + 1) (waits rest) (counters w1)).
  { rewrite C. right. split; [lia|]. rewrite lookup_insert_eq.
    unfold w0. cbn [counters].
    destruct Hg0 as [(-> & E0)|(H1 & t & E0 & Ht)]; rewrite E0; unfold bumped; simpl.
    - exists 90000. split; [done|lia].
    - destruct (Z.eqb_spec i 0); [lia|]. by exists t. }
  assert (Htr1 : forall k, tracked k ->
             k <> kg /\ key_fresh (waits rest) (counters w1) k /\
             read (counters w1) k
             = read (counters w) k + (if String.eqb (client_key_of j) k then 1 else 0)).
  { intros k Hk. destruct (Htr0 k Hk) as (N & F & R). split; [done|].
    rewrite C. destruct (String.eqb_spec (client_key_of j) k) as [<-|Hd].
    - assert (Hw' : waits rest < 90000) by lia.
      destruct (key_fresh_bumped (waits rest) _ _ Hw' Fj) as (t & Eb & Ht).
      split.
      + right. exists (read (counters w0) (client_key_of j) + 1), t.
        rewrite lookup_insert_ne, lookup_insert_eq, Eb by done.
        split_and!; [done | lia | done].
      + rewrite read_insert_ne, read_insert by done. rewrite value_bumped. lia.
    - split.
      + destruct F as [E0|(v & t & E0 & Hv & Ht)].
        * left. by rewrite !lookup_insert_ne.
        * right. exists v, t. by rewrite !lookup_insert_ne.
      + rewrite !read_insert_ne by done. lia. }
  destruct (IH (i + 1) w1) as (IP & IT & IR & IK & IF); [lia | done | | lia | lia |].
  { intros k Hk. destruct (Htr1 k Hk) as (N & F & R). split_and!; [done | done |].
    destruct (Htr k Hk) as (_ & _ & Lk). rewrite requests_of_cons in Lk. lia. }
  cbn [serve_all]. fold w0. rewrite E.
  destruct (serve_all settings rest w1) as [rs w2] eqn:ER.
  cbn [fst snd count_where] in *. rewrite P, T, IP, IT, IR.
  split_and!.
  - destruct (Z.leb_spec (i + 1) G); simpl; lia.
  - destruct (Z.leb_spec (i + 1) G); simpl; lia.
  - lia.
  - intros k Hk. rewrite (IK k Hk), requests_of_cons.
    destruct (Htr1 k Hk) as (_ & _ & ->). lia.
  - by constructor.
Qed.
End Bucket.

(** X18: a run of gated requests of any number of clients in one
    bucket, starting with the global key and the clients' keys absent
    (working connection, handlers that do not fail), in which no client
    sends more than its own limit L: min(N, G) requests reach their
    handler, the other N - min(N, G) are turned away, each of them on
    the global axis, the global counter ends at N, and every client's
    counter ends at the number of requests that client sent, whether
    they passed or not. *)
Theorem clients_share_global_limit settings (jobs : list job) (w : world) (kg : string) :
  Forall (fun j => plain_job (client_key_of j) kg j) jobs ->
  counters w !! kg = None ->
  (forall j, In j jobs -> counters w !! client_key_of j = None) ->
  (forall j, In j jobs -> requests_of (client_key_of j) jobs <= DAILY_RATE_LIMIT settings) ->
  DAILY_RATE_LIMIT settings <= INT64_MAX ->
  0 <= GLOBAL_RATE_LIMIT settings ->
  waits jobs < 90000 ->
  Z.of_nat (length jobs) < INT64_MAX ->
  let N := Z.of_nat (length jobs) in
  let G := GLOBAL_RATE_LIMIT settings in
  let run := serve_all settings jobs w in
  count_where passed (fst run) = Z.min N G /\
  count_where turned_away (fst run) = N - Z.min N G /\
  read (counters (snd run)) kg = N /\
  (forall j, In j jobs ->
     read (counters (snd run)) (client_key_of j) = requests_of (client_key_of j) jobs) /\
  Forall (passed_or_global settings) (fst run).
Proof.
  intros Hjobs Eg Ec HL HM HG Hw Hmax N G run. subst N G run.
  set (tracked := fun k => exists j, In j jobs /\ k = client_key_of j).
  assert (Hjobs' : Forall (fun j => plain_job (client_key_of j) kg j /\ tracked (client_key_of j))
                     jobs).
  { rewrite Forall_forall in Hjobs |- *. intros j Hin%list_elem_of_In.
    split; [apply Hjobs; by apply list_elem_of_In | by exists j]. }
  destruct (serve_bucket_counts settings kg tracked jobs Hjobs' HM 0 w)
    as (P & T & R & K & F); [lia | by left | | done | lia |].
  { intros k (j & Hin & ->). split_and!.
    - rewrite Forall_forall in Hjobs.
      destruct (Hjobs j ltac:(by apply list_elem_of_In)) as (_ & _ & _ & <- & _).
      apply ip_key_ne_global_key.
    - left. by apply Ec.
    - rewrite (read_absent _ _ (Ec j Hin)). specialize (HL j Hin). lia. }
  rewrite Z.add_0_l, Z.sub_0_r in P, T. rewrite Z.add_0_l in R.
  split_and!; [lia | lia | done | | done].
  intros j Hin. rewrite (K (client_key_of j)) by by exists j.
  by rewrite (read_absent _ _ (Ec j Hin)).
Qed.

(** ** Stored shares and the rate limiter *)

Lemma share_key_ne_ip_key share_id bucket ip : share_key share_id <> ip_key_of bucket ip.
Proof.
  unfold share_key, ip_key_of. intros H.
  cbv beta iota delta [String.append] in H. discriminate H.
Qed.

Lemma share_key_ne_global_key share_id bucket : share_key share_id <> global_key_of bucket.
Proof.
  unfold share_key, global_key_of. intros H.
  cbv beta iota delta [String.append] in H. discriminate H.
Qed.

(** X19: the key of a stored share is never a key of the rate limiter,
    whatever share id the caller chooses and whatever the client
    identity and the day are; so no request, whatever its outcome at the
    rate limiter, changes a stored share that its handler leaves
    alone. *)
Theorem shares_out_of_reach (share_id : string) :
  (forall t ip, share_key share_id <> _ip_key t ip) /\
  (forall t, share_key share_id <> _global_key t) /\
  (forall settings redis now request call_next w,
     keeps_key (share_key share_id) call_next ->
     counters (fst (snd (serve settings redis now request call_next w))) !! share_key share_id
     = counters w !! share_key share_id).
Proof.
  split_and!.
  - intros t ip. apply share_key_ne_ip_key.
  - intros t. apply share_key_ne_global_key.
  - intros. apply serve_keeps_other_keys;
      [done | apply share_key_ne_ip_key | apply share_key_ne_global_key].
Qed.

(** ** Start-up *)

(** X20: an application that starts in production (DEBUG off) has a
    provider service that is available, and, when rate limiting is
    configured, a store handle, the one the connection gave; without
    rate limiting configured the handle is absent.  With DEBUG on the
    start never raises. *)
Theorem production_start_is_complete settings connect test_call gemini_service :
  (DEBUG settings = false ->
   forall app_state_redis service,
     lifespan_startup settings connect test_call gemini_service
     = Ok (app_state_redis, service) ->
     available service = true /\
     (rate_limiting_enabled settings = true ->
        exists redis_client, connect = Ok redis_client /\ app_state_redis = Some redis_client) /\
     (rate_limiting_enabled settings = false -> app_state_redis = None)) /\
  (DEBUG settings = true ->
   exists app_state_redis service,
     lifespan_startup settings connect test_call gemini_service
     = Ok (app_state_redis, service)).
Proof.
  unfold lifespan_startup, lifespan, validate_api_key, available. split.
  - intros -> st service H.
    destruct (rate_limiting_enabled settings), connect as [c|e],
      gemini_service as [[cl|] [|]], test_call as [u|e'];
      simpl in H; try discriminate H; injection H as <- <-; simpl;
      (split_and!; [done | intros; try done; by eexists | intros; done]).
  - intros ->.
    destruct (rate_limiting_enabled settings), connect as [c|e],
      gemini_service as [[cl|] [|]], test_call as [u|e']; simpl; by eexists _, _.
Qed.

(** ** Validators of an analysis request *)

Lemma existsb_eqb_In (v : string) (l : list string) :
  existsb (String.eqb v) l = true <-> In v l.
Proof.
  rewrite existsb_exists. split.
  - intros (x & Hin & E). apply String.eqb_eq in E. by subst.
  - intros Hin. exists v. split; [done | apply String.eqb_refl].
Qed.

Lemma validate_language_known (v : string) : In v languages -> validate_language v = v.
Proof.
  unfold languages. simpl.
  intros [<-|[<-|[<-|[<-|[<-|[<-|[<-|[<-|[<-|[<-|[<-|[]]]]]]]]]]]]; reflexivity.
Qed.

(** X21: the language of a request is always one of the eleven known
    names after validation: the stripped, lower-cased text when that is
    a known name, and "auto" for everything else; validating twice
    changes nothing more, and surrounding blanks do not matter. *)
Theorem language_is_normalised (v : string) :
  In (validate_language v) languages /\
  (In (str_lower (Py.strip v)) languages ->
     validate_language v = str_lower (Py.strip v)) /\
  (~ In (str_lower (Py.strip v)) languages -> validate_language v = "auto") /\
  validate_language (validate_language v) = validate_language v /\
  validate_language (Py.strip v) = validate_language v.
Proof.
  assert (A : In (validate_language v) languages).
  { unfold validate_language.
    destruct (existsb _ languages) eqn:E; simpl.
    - by apply existsb_eqb_In in E.
    - by left. }
  split_and!.
  - exact A.
  - intros Hin. unfold validate_language.
    apply existsb_eqb_In in Hin. by rewrite Hin.
  - intros Hin. unfold validate_language.
    destruct (existsb _ languages) eqn:E; [|done].
    by apply existsb_eqb_In in E.
  - by apply validate_language_known.
  - unfold validate_language. by rewrite strip_strip.
Qed.

Lemma all_chars_remove (p q : ascii -> bool) (s : string) :
  all_chars q s = true -> all_chars q (remove_chars p s) = true.
Proof.
  induction s as [|c r IH]; simpl; [done|].
  intros [Hc Hr]%andb_true_iff. destruct (p c); simpl; [by apply IH|].
  by rewrite Hc, IH.
Qed.

Lemma all_chars_removed (p : ascii -> bool) (s : string) :
  all_chars (fun c => negb (p c)) (remove_chars p s) = true.
Proof.
  induction s as [|c r IH]; simpl; [done|].
  destruct (p c) eqn:E; simpl; [done|]. by rewrite E, IH.
Qed.

Lemma all_chars_and (p q : ascii -> bool) (s : string) :
  all_chars p s = true -> all_chars q s = true ->
  all_chars (fun c => p c && q c) s = true.
Proof.
  induction s as [|c r IH]; simpl; [done|].
  intros [-> Hr]%andb_true_iff [-> Hr']%andb_true_iff. simpl. by apply IH.
Qed.

Lemma all_chars_ext (p q : ascii -> bool) (s : string) :
  (forall c, p c = q c) -> all_chars p s = all_chars q s.
Proof. intros E. induction s as [|c r IH]; simpl; [done|]. by rewrite E, IH. Qed.

Lemma rsplit_dot_before (p : ascii -> bool) (v before after : string) :
  rsplit_dot v = Some (before, after) ->
  all_chars p v = true -> all_chars p before = true.
Proof.
  revert before after. induction v as [|c r IH]; simpl; [done|].
  intros before after H [Hc Hr]%andb_true_iff.
  destruct (rsplit_dot r) as [[b a]|].
  - injection H as <- <-. simpl. rewrite Hc. by apply (IH b a).
  - destruct (Ascii.eqb c dot); [|done]. by injection H as <- <-.
Qed.

Lemma rsplit_dot_length (v before after : string) :
  rsplit_dot v = Some (before, after) ->
  (String.length before + 1 + String.length after = String.length v)%nat.
Proof.
  revert before after. induction v as [|c r IH]; simpl; [done|].
  intros before after H.
  destruct (rsplit_dot r) as [[b a]|].
  - injection H as <- <-. simpl. specialize (IH b a eq_refl). lia.
  - destruct (Ascii.eqb c dot); [|done]. injection H as <- <-. simpl. lia.
Qed.

Lemma rsplit_dot_join (v before after : string) :
  rsplit_dot v = Some (before, after) ->
  v = before +:+ String dot after /\ all_chars (fun c => negb (Ascii.eqb c dot)) after = true.
Proof.
  revert before after. induction v as [|c r IH]; simpl; [done|].
  intros before after H.
  destruct (rsplit_dot r) as [[b a]|] eqn:E.
  - injection H as <- <-. destruct (IH b a eq_refl) as [-> Ha]. done.
  - destruct (Ascii.eqb_spec c dot) as [->|]; [|done]. injection H as <- <-.
    split; [done|]. clear IH. induction r as [|c' r' IH']; simpl in *; [done|].
    destruct (rsplit_dot r') as [[b a]|]; [done|].
    destruct (Ascii.eqb c' dot); [done|]. simpl. by apply IH'.
Qed.

Lemma remove_chars_length (p : ascii -> bool) (s : string) :
  (String.length (remove_chars p s) <= String.length s)%nat.
Proof. induction s as [|c r IH]; simpl; [lia|]. destruct (p c); simpl; lia. Qed.

Lemma lstrip_length (s : string) : (String.length (Py.lstrip s) <= String.length s)%nat.
Proof. induction s as [|c r IH]; simpl; [lia|]. destruct (Py.isspace c); simpl; lia. Qed.

Lemma rstrip_length (s : string) : (String.length (Py.rstrip s) <= String.length s)%nat.
Proof.
  induction s as [|c r IH]; simpl; [lia|].
  destruct (Py.rstrip r); [destruct (Py.isspace c)|]; simpl in *; lia.
Qed.

Lemma strip_length (s : string) : (String.length (Py.strip s) <= String.length s)%nat.
Proof.
  unfold Py.strip. pose proof (rstrip_length (Py.lstrip s)). pose proof (lstrip_length s). lia.
Qed.

Lemma nonempty_false (s : string) : nonempty s = false -> s = "".
Proof. by destruct s. Qed.

Lemma validate_filename_cases (ALLOWED_EXTENSIONS v : string) :
  let cleaned :=
    remove_chars (fun c => Ascii.eqb c nul)
      (remove_chars (fun c => Ascii.eqb c slash || Ascii.eqb c backslash) (Py.strip v)) in
  validate_filename ALLOWED_EXTENSIONS v = "untitled" \/
  (validate_filename ALLOWED_EXTENSIONS v = cleaned /\ cleaned <> "") \/
  exists before after,
    validate_filename ALLOWED_EXTENSIONS v = before /\ before <> "" /\
    rsplit_dot cleaned = Some (before, after) /\
    ~ In (String dot (str_lower after)) (allowed_extensions ALLOWED_EXTENSIONS).
Proof.
  intros cleaned. unfold validate_filename. fold cleaned.
  destruct (nonempty (Py.strip v)); [|left; reflexivity].
  destruct (rsplit_dot cleaned) as [[before after]|] eqn:Er.
  - destruct (existsb (String.eqb (String dot (str_lower after)))
                (allowed_extensions ALLOWED_EXTENSIONS)) eqn:Ex.
    + destruct (allowed_extensions ALLOWED_EXTENSIONS), cleaned;
        (by left) || (right; left; by split).
    + assert (Hnot : ~ In (String dot (str_lower after))
                       (allowed_extensions ALLOWED_EXTENSIONS)).
      { intros Hin. apply existsb_eqb_In in Hin. congruence. }
      destruct (allowed_extensions ALLOWED_EXTENSIONS) as [|e l].
      * destruct cleaned; (by left) || (right; left; by split).
      * destruct before as [|c b]; [by left|].
        right. right. exists (String c b), after. by split_and!.
  - destruct cleaned; (by left) || (right; left; by split).
Qed.

(** X22: the file name of a request after validation is never empty,
    holds no path separator (slash or backslash) and no null byte, and
    is not longer than the longer of the name given and "untitled"; it
    is "untitled", or the name given once stripped and cleaned of these
    characters, or that name without its last extension, which is then
    not an allowed one. *)
Theorem filename_is_sanitised (ALLOWED_EXTENSIONS v : string) :
  let cleaned :=
    remove_chars (fun c => Ascii.eqb c nul)
      (remove_chars (fun c => Ascii.eqb c slash || Ascii.eqb c backslash) (Py.strip v)) in
  validate_filename ALLOWED_EXTENSIONS v <> "" /\
  all_chars plain_char (validate_filename ALLOWED_EXTENSIONS v) = true /\
  (String.length (validate_filename ALLOWED_EXTENSIONS v)
   <= Nat.max (String.length v) 8)%nat /\
  (validate_filename ALLOWED_EXTENSIONS v = "untitled" \/
   validate_filename ALLOWED_EXTENSIONS v = cleaned \/
   exists after,
     cleaned = validate_filename ALLOWED_EXTENSIONS v +:+ String dot after /\
     ~ In (String dot (str_lower after)) (allowed_extensions ALLOWED_EXTENSIONS)).
Proof.
  intros cleaned.
  assert (Hplain : all_chars plain_char cleaned = true).
  { subst cleaned.
    rewrite (all_chars_ext plain_char
               (fun c => negb (Ascii.eqb c slash || Ascii.eqb c backslash)
                         && negb (Ascii.eqb c nul))).
    2:{ intros c. unfold plain_char. by rewrite negb_orb. }
    apply all_chars_and; [apply all_chars_remove, all_chars_removed | apply all_chars_removed]. }
  assert (Hlen : (String.length cleaned <= String.length v)%nat).
  { subst cleaned.
    pose proof (remove_chars_length (fun c => Ascii.eqb c nul)
                  (remove_chars (fun c => Ascii.eqb c slash || Ascii.eqb c backslash)
                     (Py.strip v))).
    pose proof (remove_chars_length (fun c => Ascii.eqb c slash || Ascii.eqb c backslash)
                  (Py.strip v)).
    pose proof (strip_length v). lia. }
  pose proof (validate_filename_cases ALLOWED_EXTENSIONS v) as Hcases.
  cbv zeta in Hcases. fold cleaned in Hcases.
  destruct Hcases as [->|[[-> Hne]|(before & after & -> & Hne & Er & Hnot)]].
  - split_and!; [discriminate | vm_compute; reflexivity | simpl String.length; lia | by left].
  - split_and!; [exact Hne | exact Hplain | lia | by right; left].
  - pose proof (rsplit_dot_before plain_char _ _ _ Er Hplain) as Hb.
    pose proof (rsplit_dot_length _ _ _ Er) as Hl.
    destruct (rsplit_dot_join _ _ _ Er) as [Hj _].
    split_and!; [exact Hne | exact Hb | lia |].
    right. right. by exists after.
Qed.

(** ** The analysis route *)

Lemma analyze_code_except_run (exc : raised) (w : world) :
  exists status detail,
    analyze_code_except exc w
    = (Raised (HTTPException status detail), with_telemetry w bump_requests_failed) /\
    (status = 500 \/ status = 503 \/ status = 504) /\
    (status = 500 -> detail = "Failed to parse analysis result" \/ detail = "Analysis failed").
Proof.
  destruct exc; simpl; eexists _, _; (split; [reflexivity|]); split;
    try (intros; discriminate); auto.
Qed.

Lemma analysis_outcome (analyze : world -> (raised + analysis_data) * world) (w : world) :
  analyze_code true true analyze w
  = (Returned, snd (analyze (with_telemetry w bump_requests_total))) \/
  exists status detail,
    analyze_code true true analyze w
    = (Raised (HTTPException status detail),
       with_telemetry (snd (analyze (with_telemetry w bump_requests_total)))
         bump_requests_failed) /\
    (status = 500 \/ status = 503 \/ status = 504).
Proof.
  unfold analyze_code. simpl negb. cbv iota.
  destruct (analyze (with_telemetry w bump_requests_total)) as [[exc|data] w1]; simpl.
  - destruct (analyze_code_except_run exc w1) as (status & detail & E & Hs & _).
    right. by exists status, detail.
  - destruct (validate_issue_snippets (raw_issues data)); simpl negb; cbv iota.
    + destruct (building data) as [exc|]; [|by left].
      destruct (analyze_code_except_run exc w1) as (status & detail & E & Hs & _).
      right. by exists status, detail.
    + right. eexists _, _. split; [reflexivity|]. auto.
Qed.

(** X23: the analysis route raises nothing but an [HTTPException].
    With the provider unavailable it is a 503, with invalid content a
    400, and in both cases the telemetry is left alone.  Past these two
    checks the request is counted in requests_total, and the route
    either returns the analysis or, for every failure (whatever the
    provider raises, an oversized snippet, a response that cannot be
    built), raises a 500, 503 or 504 and counts one failed request.
    The 500 raised for an oversized snippet is itself taken by the last
    [except] clause: the caller gets the detail "Analysis failed". *)
Theorem analysis_failures_are_server_errors (is_available valid_content : bool)
    (analyze : world -> (raised + analysis_data) * world) (w : world) :
  let out := analyze_code is_available valid_content analyze w in
  let w1 := snd (analyze (with_telemetry w bump_requests_total)) in
  (forall exc, fst out = Raised exc -> exists status detail, exc = HTTPException status detail) /\
  (is_available = false ->
     out = (Raised (HTTPException 503 "Gemini provider unavailable — check API key"), w)) /\
  (is_available = true -> valid_content = false ->
     out = (Raised (HTTPException 400 "Invalid code content"), w)) /\
  (is_available = true -> valid_content = true ->
     out = (Returned, w1) \/
     exists status detail,
       out = (Raised (HTTPException status detail), with_telemetry w1 bump_requests_failed) /\
       (status = 500 \/ status = 503 \/ status = 504) /\
       (status = 500 ->
          detail = "Failed to parse analysis result" \/ detail = "Analysis failed")) /\
  (is_available = true -> valid_content = true ->
   forall data,
     fst (analyze (with_telemetry w bump_requests_total)) = inr data ->
     validate_issue_snippets (raw_issues data) = false ->
     out = (Raised (HTTPException 500 "Analysis failed"),
            with_telemetry w1 bump_requests_failed)).
Proof.
  intros out w1. subst out w1. unfold analyze_code.
  destruct is_available, valid_content; simpl negb; cbv iota.
  - destruct (analyze (with_telemetry w bump_requests_total)) as [[exc|data] w1] eqn:Ea; simpl.
    + destruct (analyze_code_except_run exc w1) as (status & detail & E & Hs & Hd).
      rewrite E. split_and!; try done.
      * intros exc' [= <-]. by eexists _, _.
      * intros _ _. right. by exists status, detail.
    + destruct (validate_issue_snippets (raw_issues data)) eqn:Ev; simpl negb; cbv iota.
      * destruct (building data) as [exc|].
        -- destruct (analyze_code_except_run exc w1) as (status & detail & E & Hs & Hd).
           rewrite E. split_and!; try done.
           ++ intros exc' [= <-]. by eexists _, _.
           ++ intros _ _. right. by exists status, detail.
           ++ intros _ _ data' [= <-]. congruence.
        -- split_and!; try done.
           ++ intros _ _. by left.
           ++ intros _ _ data' [= <-]. congruence.
      * simpl. split_and!; try done.
        -- intros exc' [= <-]. by eexists _, _.
        -- intros _ _. right. eexists _, _. split; [reflexivity|]. split; auto.
  - split_and!; try done. intros exc [= <-]. by eexists _, _.
  - split_and!; try done. intros exc [= <-]. by eexists _, _.
  - split_and!; try done. intros exc [= <-]. by eexists _, _.
Qed.

(** X24: a gated request that passed both limits and whose analysis
    failed past the two checks of the route, over a working connection:
    the caller gets the route's 500, 503 or 504, the quota is refunded
    on both axes, and in the telemetry the request is counted as failed
    twice, once by the route and once by the rate limiter, while the
    rate limiter takes it out of requests_total again. *)
Theorem failed_analysis_counted_twice settings redis now request
    (analyze : world -> (raised + analysis_data) * world) (returned : Response) (w : world) :
  let kc := _ip_key (at_ip_key now) (get_client_ip request) in
  let kg := _global_key (at_global_key now) in
  let w0 := with_counters w
              (<[kg := bumped 90000 (counters w !! kg)]>
                 (<[kc := bumped 90000 (counters w !! kc)]> (counters w))) in
  let w1 := snd (analyze (with_telemetry w0 bump_requests_total)) in
  let out := serve settings (Some redis) now request
               (route_handler (analyze_code true true analyze) returned) w in
  gated request = true ->
  first_eval redis = Up -> second_eval redis = Up ->
  0 <= read (counters w) kc < INT64_MAX -> 0 <= read (counters w) kg < INT64_MAX ->
  read (counters w) kc + 1 <= DAILY_RATE_LIMIT settings ->
  read (counters w) kg + 1 <= GLOBAL_RATE_LIMIT settings ->
  (forall w', counters (snd (analyze w')) = counters w') ->
  fst (analyze_code true true analyze w0) <> Returned ->
  (exists r, fst out = Ok r /\
     (status_code r = 500 \/ status_code r = 503 \/ status_code r = 504)) /\
  snd (snd out) = [EvLimit kc kg 90000; EvCallNext; EvRefund kc kg] /\
  read (counters (fst (snd out))) kc = read (counters w) kc /\
  read (counters (fst (snd out))) kg = read (counters w) kg /\
  requests_total (_telemetry (fst (snd out))) = requests_total (_telemetry w1) - 1 /\
  requests_failed (_telemetry (fst (snd out))) = requests_failed (_telemetry w1) + 2.
Proof.
  intros kc kg w0 w1 out Hg Hup Hup2 [L1 U1] [L2 U2] HL HG Hkeep Hfail.
  pose proof (analysis_outcome analyze w0) as [E|(status & detail & E & Hs)];
    [by rewrite E in Hfail|].
  fold w1 in E.
  destruct (read_after_limit now request w) as [R1 R2]. fold kc kg in R1, R2.
  pose proof (own_keys_differ now request) as Hne. fold kc kg in Hne.
  subst out. rewrite serve_gated, Hup by done.
  rewrite (sample_limit_script now request w) by done. fold kc kg. fold w0.
  destruct (Z.ltb_spec (DAILY_RATE_LIMIT settings) (read (counters w) kc + 1)); [lia|].
  destruct (Z.ltb_spec (GLOBAL_RATE_LIMIT settings) (read (counters w) kg + 1)); [lia|].
  unfold route_handler. rewrite E.
  assert (Hc : counters w1 = counters w0) by (subst w1; by rewrite Hkeep).
  assert (H5 : (500 <=? status) = true) by (apply Z.leb_le; lia).
  cbn [status_code JSONResponse]. rewrite H5, Hup2.
  cbn [counters with_telemetry]. rewrite Hc.
  assert (Q1 : read (counters w0) kc = read (counters w) kc + 1) by exact R1.
  assert (Q2 : read (counters w0) kg = read (counters w) kg + 1) by exact R2.
  rewrite decr_lua_run by (unfold INT64_MIN; done || lia).
  cbn [fst snd counters with_counters with_telemetry _telemetry count_refund
       bump_requests_failed requests_total requests_failed].
  split_and!.
  - eexists. split; [reflexivity|]. exact Hs.
  - done.
  - rewrite read_refunded_ne, read_refunded, Q1 by done. lia.
  - rewrite read_refunded, read_refunded_ne, Q2 by done. lia.
  - done.
  - lia.
Qed.

(** ** The properties above on sample inputs *)

Lemma answers_keeps_key status k : keeps_key k (answers status).
Proof. intros w0. reflexivity. Qed.

Lemma raises_keeps_key k : keeps_key k raises.
Proof. intros w0. reflexivity. Qed.

Lemma request_writes_own_keys_witness :
  counters (fst (snd (serve default_settings (Some healthy) (clock_at noon)
                        (analyze_from ∅ (Some "10.0.0.1")) (answers 200)
                        (world_of {[ "codalyzer:share:abc" := Entry 7 None ]}))))
    !! "codalyzer:share:abc"
  = counters (world_of {[ "codalyzer:share:abc" := Entry 7 None ]}) !! "codalyzer:share:abc".
Proof.
  pose proof (request_writes_own_keys default_settings (Some healthy) (clock_at noon)
                (analyze_from ∅ (Some "10.0.0.1")) (answers 200)
                (world_of {[ "codalyzer:share:abc" := Entry 7 None ]})) as [P _].
  refine (P "codalyzer:share:abc" (answers_keeps_key _ _) _ _).
  - vm_compute. discriminate.
  - vm_compute. discriminate.
Defined.

Lemma rejection_is_charged_witness :
  read (counters (fst (snd (serve tight_settings (Some healthy) (clock_at noon)
                              (analyze_from ∅ (Some "10.0.0.1")) (answers 200)
                              (world_of after_two)))))
    (_ip_key (at_ip_key (clock_at noon)) (get_client_ip (analyze_from ∅ (Some "10.0.0.1"))))
  = read (counters (world_of after_two))
      (_ip_key (at_ip_key (clock_at noon)) (get_client_ip (analyze_from ∅ (Some "10.0.0.1"))))
    + 1.
Proof.
  assert (H1 : read (counters (world_of after_two))
                 (_ip_key (at_ip_key (clock_at noon))
                    (get_client_ip (analyze_from ∅ (Some "10.0.0.1")))) < INT64_MAX)
    by (vm_compute; reflexivity).
  assert (H2 : read (counters (world_of after_two))
                 (_global_key (at_global_key (clock_at noon))) < INT64_MAX)
    by (vm_compute; reflexivity).
  assert (H3 : DAILY_RATE_LIMIT tight_settings
               < read (counters (world_of after_two))
                   (_ip_key (at_ip_key (clock_at noon))
                      (get_client_ip (analyze_from ∅ (Some "10.0.0.1")))) + 1)
    by (vm_compute; reflexivity).
  pose proof (rejection_is_charged tight_settings healthy (clock_at noon)
                (analyze_from ∅ (Some "10.0.0.1")) (answers 200) (world_of after_two)
                eq_refl eq_refl H1 H2 (or_introl H3)) as (_ & _ & P & _).
  exact P.
Defined.

Lemma raising_handler_is_charged_witness :
  fst (serve default_settings (Some healthy) (clock_at noon)
         (analyze_from ∅ (Some "10.0.0.1")) raises fresh_world)
  = Ok (service_unavailable "Rate limiting service error").
Proof.
  assert (H1 : read (counters fresh_world)
                 (_ip_key (at_ip_key (clock_at noon))
                    (get_client_ip (analyze_from ∅ (Some "10.0.0.1")))) < INT64_MAX)
    by (vm_compute; reflexivity).
  assert (H2 : read (counters fresh_world)
                 (_global_key (at_global_key (clock_at noon))) < INT64_MAX)
    by (vm_compute; reflexivity).
  assert (H3 : read (counters fresh_world)
                 (_ip_key (at_ip_key (clock_at noon))
                    (get_client_ip (analyze_from ∅ (Some "10.0.0.1")))) + 1
               <= DAILY_RATE_LIMIT default_settings)
    by (vm_compute; discriminate).
  assert (H4 : read (counters fresh_world)
                 (_global_key (at_global_key (clock_at noon))) + 1
               <= GLOBAL_RATE_LIMIT default_settings)
    by (vm_compute; discriminate).
  pose proof (raising_handler_is_charged default_settings healthy (clock_at noon)
                (analyze_from ∅ (Some "10.0.0.1")) raises fresh_world eq_refl
                (AppError "boom") (world_of after_first)
                eq_refl H1 H2 H3 H4 (raises_keeps_key _) (raises_keeps_key _) eq_refl)
    as (P & _).
  exact P.
Defined.

Lemma lost_reply_is_charged_witness :
  read (counters (fst (snd (serve default_settings (Some losing_replies) (clock_at noon)
                              (analyze_from ∅ (Some "10.0.0.1")) (answers 200)
                              fresh_world))))
    (_ip_key (at_ip_key (clock_at noon)) (get_client_ip (analyze_from ∅ (Some "10.0.0.1"))))
  = read (counters fresh_world)
      (_ip_key (at_ip_key (clock_at noon)) (get_client_ip (analyze_from ∅ (Some "10.0.0.1"))))
    + 1.
Proof.
  assert (H1 : read (counters fresh_world)
                 (_ip_key (at_ip_key (clock_at noon))
                    (get_client_ip (analyze_from ∅ (Some "10.0.0.1")))) < INT64_MAX)
    by (vm_compute; reflexivity).
  assert (H2 : read (counters fresh_world)
                 (_global_key (at_global_key (clock_at noon))) < INT64_MAX)
    by (vm_compute; reflexivity).
  pose proof (lost_reply_is_charged default_settings losing_replies (clock_at noon)
                (analyze_from ∅ (Some "10.0.0.1")) (answers 200) fresh_world eq_refl
                eq_refl H1 H2) as (_ & _ & P & _).
  exact P.
Defined.

Lemma failed_request_costs_nothing_witness :
  read (counters (fst (snd (serve default_settings (Some healthy) (clock_at noon)
                              (analyze_from ∅ (Some "10.0.0.1")) (answers 503)
                              (world_of after_two)))))
    (_ip_key (at_ip_key (clock_at noon)) (get_client_ip (analyze_from ∅ (Some "10.0.0.1"))))
  = read (counters (world_of after_two))
      (_ip_key (at_ip_key (clock_at noon)) (get_client_ip (analyze_from ∅ (Some "10.0.0.1")))).
Proof.
  assert (H1 : 0 <= read (counters (world_of after_two))
                 (_ip_key (at_ip_key (clock_at noon))
                    (get_client_ip (analyze_from ∅ (Some "10.0.0.1")))) < INT64_MAX)
    by (vm_compute; split; [discriminate | reflexivity]).
  assert (H2 : 0 <= read (counters (world_of after_two))
                 (_global_key (at_global_key (clock_at noon))) < INT64_MAX)
    by (vm_compute; split; [discriminate | reflexivity]).
  assert (H3 : read (counters (world_of after_two))
                 (_ip_key (at_ip_key (clock_at noon))
                    (get_client_ip (analyze_from ∅ (Some "10.0.0.1")))) + 1
               <= DAILY_RATE_LIMIT default_settings)
    by (vm_compute; discriminate).
  assert (H4 : read (counters (world_of after_two))
                 (_global_key (at_global_key (clock_at noon))) + 1
               <= GLOBAL_RATE_LIMIT default_settings)
    by (vm_compute; discriminate).
  assert (H5 : 500 <= status_code {| status_code := 503; body := Raw "{}"; resp_headers := ∅ |})
    by (vm_compute; discriminate).
  pose proof (failed_request_costs_nothing default_settings healthy (clock_at noon)
                (analyze_from ∅ (Some "10.0.0.1")) (answers 503) (world_of after_two) eq_refl
                {| status_code := 503; body := Raw "{}"; resp_headers := ∅ |}
                (world_of
                   (<[_global_key (at_global_key (clock_at noon)) :=
                        bumped 90000 (counters (world_of after_two)
                                        !! _global_key (at_global_key (clock_at noon)))]>
                      (<[_ip_key (at_ip_key (clock_at noon))
                           (get_client_ip (analyze_from ∅ (Some "10.0.0.1"))) :=
                           bumped 90000
                             (counters (world_of after_two)
                                !! _ip_key (at_ip_key (clock_at noon))
                                     (get_client_ip (analyze_from ∅ (Some "10.0.0.1"))))]>
                         (counters (world_of after_two)))))
                eq_refl eq_refl H1 H2 H3 H4 (answers_keeps_key _ _) (answers_keeps_key _ _)
                eq_refl H5) as (P & _).
  exact P.
Defined.

Lemma remaining_counts_down_witness :
  exists r, fst second_answer = Ok r /\ status_code r < 500 /\
    resp_headers r !! "X-RateLimit-Limit" = Some (HInt (DAILY_RATE_LIMIT tight_settings)) /\
    resp_headers r !! "X-RateLimit-Remaining"
    = Some (HInt (DAILY_RATE_LIMIT tight_settings - (Z.of_nat 1 + 1))).
Proof.
  assert (Hjobs : Forall (plain_job sample_ip_key sample_global_key) three_requests)
    by (repeat constructor; apply sample_job_plain; lia).
  assert (Hw : waits three_requests < 90000) by (vm_compute; reflexivity).
  assert (Hmax : Z.of_nat (length three_requests) < INT64_MAX) by (vm_compute; reflexivity).
  assert (HG : Z.min (Z.of_nat (length three_requests)) (DAILY_RATE_LIMIT tight_settings)
               <= GLOBAL_RATE_LIMIT tight_settings) by (vm_compute; discriminate).
  assert (Eo : fst (serve_all tight_settings three_requests fresh_world) !! 1%nat
               = Some second_answer) by (vm_compute; reflexivity).
  pose proof (remaining_counts_down tight_settings three_requests fresh_world
                sample_ip_key sample_global_key Hjobs eq_refl eq_refl Hw Hmax HG
                1%nat (sample_job 5) second_answer eq_refl Eo) as [P _].
  apply P. vm_compute. discriminate.
Defined.

Lemma handler_only_after_count_witness :
  exists redis, Some healthy = Some redis /\ first_eval redis = Up.
Proof.
  assert (Hin : EvCallNext ∈ snd (snd (serve default_settings (Some healthy) (clock_at noon)
                                         (analyze_from ∅ (Some "10.0.0.1")) (answers 200)
                                         fresh_world))).
  { vm_compute. apply list_elem_of_In. right. left. reflexivity. }
  pose proof (handler_only_after_count default_settings (Some healthy) (clock_at noon)
                (analyze_from ∅ (Some "10.0.0.1")) (answers 200) fresh_world
                eq_refl eq_refl Hin) as (redis & s1 & ic & gc & tr & E1 & E2 & _).
  exists redis. split; [exact E1 | exact E2].
Defined.

Lemma remaining_is_bounded_witness :
  exists rem w',
    get_remaining_requests default_settings (Some healthy) (clock_at noon) "10.0.0.1"
      (world_of after_two, []) = (Ok rem, (w', [])) /\
    counters w' = counters (world_of after_two) /\
    0 <= user_remaining rem /\ 0 <= global_remaining rem.
Proof.
  destruct (remaining_is_bounded default_settings (Some healthy) (clock_at noon) "10.0.0.1"
              (world_of after_two) []) as (rem & w' & E & C & U & G & _).
  exists rem, w'. split; [exact E|]. split; [exact C|]. split; [exact U | exact G].
Defined.

Lemma status_predicts_decision_witness :
  exists status,
    initialize default_settings (Some healthy) (clock_at noon)
      (analyze_from ∅ (Some "10.0.0.1")) (world_of after_two, [])
    = (Ok status, (world_of after_two, [])).
Proof.
  assert (H1 : read (counters (world_of after_two))
                 (_ip_key (at_ip_key (clock_at noon))
                    (get_client_ip (analyze_from ∅ (Some "10.0.0.1")))) < INT64_MAX)
    by (vm_compute; reflexivity).
  assert (H2 : read (counters (world_of after_two))
                 (_global_key (at_global_key (clock_at noon))) < INT64_MAX)
    by (vm_compute; reflexivity).
  destruct (status_predicts_decision default_settings healthy healthy (clock_at noon)
              (clock_at noon) (analyze_from ∅ (Some "10.0.0.1"))
              (analyze_from ∅ (Some "10.0.0.1")) (answers 200) (world_of after_two)
              eq_refl eq_refl eq_refl eq_refl eq_refl eq_refl H1 H2) as (status & E & _).
  exists status. exact E.
Defined.

Lemma size_check_reads_header_only_witness :
  request_size_middleware decimal 1048576 big_upload (answers 200) fresh_world
  = (Ok (request_too_large 1048576), fresh_world).
Proof.
  pose proof (size_check_reads_header_only decimal 1048576 big_upload (answers 200)
                fresh_world) as (_ & _ & P & _).
  refine (P "2000000" 2000000 eq_refl eq_refl _ eq_refl _).
  - discriminate.
  - vm_compute. reflexivity.
Defined.

Lemma security_headers_fixed_witness :
  exists r',
    security_headers_middleware health_check (answers 200) fresh_world = (Ok r', fresh_world) /\
    status_code r' = 200 /\
    resp_headers r' !! "X-Frame-Options" = Some (HStr "DENY").
Proof.
  pose proof (security_headers_fixed health_check (answers 200) fresh_world) as [P _].
  destruct (P {| status_code := 200; body := Raw "{}"; resp_headers := ∅ |} fresh_world eq_refl)
    as (r' & E & S & _ & _ & F & _).
  exists r'. split; [exact E|]. split; [exact S | exact F].
Defined.

Lemma oversized_request_is_charged_witness :
  snd (snd (http_middlewares default_settings decimal 1048576 (Some healthy) (clock_at noon)
              big_upload (answers 200) (fresh_world, [])))
  = [EvLimit (_ip_key (at_ip_key (clock_at noon)) (get_client_ip big_upload))
       (_global_key (at_global_key (clock_at noon))) 90000; EvCallNext].
Proof.
  assert (Hne : "2000000" <> "") by discriminate.
  assert (Hn : 1048576 < 2000000) by (vm_compute; reflexivity).
  assert (H1 : read (counters fresh_world)
                 (_ip_key (at_ip_key (clock_at noon)) (get_client_ip big_upload)) < INT64_MAX)
    by (vm_compute; reflexivity).
  assert (H2 : read (counters fresh_world)
                 (_global_key (at_global_key (clock_at noon))) < INT64_MAX)
    by (vm_compute; reflexivity).
  assert (H3 : read (counters fresh_world)
                 (_ip_key (at_ip_key (clock_at noon)) (get_client_ip big_upload)) + 1
               <= DAILY_RATE_LIMIT default_settings)
    by (vm_compute; discriminate).
  assert (H4 : read (counters fresh_world)
                 (_global_key (at_global_key (clock_at noon))) + 1
               <= GLOBAL_RATE_LIMIT default_settings)
    by (vm_compute; discriminate).
  pose proof (oversized_request_is_charged default_settings decimal 1048576 healthy
                (clock_at noon) big_upload (answers 200) fresh_world "2000000" 2000000
                eq_refl eq_refl Hne eq_refl Hn eq_refl H1 H2 H3 H4) as (_ & P & _).
  exact P.
Defined.

Lemma limiter_answers_lack_security_headers_witness :
  resp_headers (service_unavailable "Rate limiting service temporarily unavailable")
    !! "X-Frame-Options" = None.
Proof.
  assert (Hno : EvCallNext ∉ snd (snd (http_middlewares default_settings decimal 1048576 None
                                         (clock_at noon) (analyze_from ∅ (Some "10.0.0.1"))
                                         (answers 200) (fresh_world, [])))).
  { vm_compute. intros Hin. inversion Hin. }
  pose proof (limiter_answers_lack_security_headers default_settings decimal 1048576 None
                (clock_at noon) (analyze_from ∅ (Some "10.0.0.1")) (answers 200) fresh_world
                (service_unavailable "Rate limiting service temporarily unavailable")
                eq_refl eq_refl Hno) as [_ P].
  apply P. unfold security_header_names. apply list_elem_of_In. right. left. reflexivity.
Defined.

Lemma wildcard_excludes_credentials_witness :
  cors_origins "https://a.example, * ,https://b.example" = ["*"] /\
  allow_credentials "https://a.example, * ,https://b.example" = false.
Proof.
  pose proof (wildcard_excludes_credentials "https://a.example, * ,https://b.example")
    as [P _].
  apply P. exists " * ". split; [|reflexivity]. right. left. reflexivity.
Defined.

Lemma origins_are_stripped_witness :
  "https://b.example" <> "" /\ Py.strip "https://b.example" = "https://b.example".
Proof.
  refine (origins_are_stripped " https://a.example ,, https://b.example" "https://b.example" _).
  right. left. reflexivity.
Defined.

Lemma snippets_within_length_witness :
  validate_issue_snippets [Some "for i in range(n): pass"; None; Some ""] = true.
Proof.
  apply (proj2 (snippets_within_length [Some "for i in range(n): pass"; None; Some ""])).
  intros snippet [E|[E|[E|[]]]]; try discriminate E; injection E as <-;
    unfold MAX_CODE_SNIPPET_LENGTH; simpl String.length; lia.
Defined.

Lemma paired_refunds_keep_expiry_witness :
  read (replay "a" "b" [Limit; Limit; Refund; Limit; Refund] ∅) "a"
  = net [Limit; Limit; Refund; Limit; Refund].
Proof.
  assert (Hne : "a" <> "b") by discriminate.
  assert (Hm : Z.of_nat (length [Limit; Limit; Refund; Limit; Refund]) < INT64_MAX)
    by (vm_compute; reflexivity).
  pose proof (paired_refunds_keep_expiry "a" "b" [Limit; Limit; Refund; Limit; Refund] ∅
                Hne eq_refl eq_refl eq_refl Hm) as (P & _).
  exact P.
Defined.

Lemma job_from_plain ip dt :
  0 <= dt -> plain_job (client_key_of (job_from ip dt)) sample_global_key (job_from ip dt).
Proof.
  intros Hdt. split_and!; try reflexivity; try done.
  - by exists healthy.
  - intros w. eexists _, _. split; [reflexivity|]. simpl. split; [lia|done].
Qed.

Lemma clients_share_global_limit_witness :
  count_where passed (fst (serve_all shared_settings two_clients fresh_world))
  = Z.min (Z.of_nat (length two_clients)) (GLOBAL_RATE_LIMIT shared_settings).
Proof.
  assert (Hjobs : Forall (fun j => plain_job (client_key_of j) sample_global_key j) two_clients)
    by (repeat constructor; apply job_from_plain; lia).
  assert (Ec : forall j, In j two_clients ->
                 counters fresh_world !! client_key_of j = None)
    by (intros j _; apply lookup_empty).
  assert (HL : forall j, In j two_clients ->
                 requests_of (client_key_of j) two_clients <= DAILY_RATE_LIMIT shared_settings).
  { intros j Hin. simpl in Hin.
    destruct Hin as [<-|[<-|[<-|[<-|[<-|[<-|[]]]]]]]; vm_compute; discriminate. }
  assert (HM : DAILY_RATE_LIMIT shared_settings <= INT64_MAX) by (vm_compute; discriminate).
  assert (HG : 0 <= GLOBAL_RATE_LIMIT shared_settings) by (vm_compute; discriminate).
  assert (Hw : waits two_clients < 90000) by (vm_compute; reflexivity).
  assert (Hmax : Z.of_nat (length two_clients) < INT64_MAX) by (vm_compute; reflexivity).
  pose proof (clients_share_global_limit shared_settings two_clients fresh_world
                sample_global_key Hjobs eq_refl Ec HL HM HG Hw Hmax) as (P & _).
  exact P.
Defined.

(** The run of the two clients, computed: five requests answered 200,
    the sixth answered 429 on the global axis. *)
Example two_clients_limit_five :
  map status_of (fst (serve_all shared_settings two_clients fresh_world))
  = [200; 200; 200; 200; 200; 429].
Proof. vm_compute. reflexivity. Qed.

(** The allowed origins of the default configuration and of one with
    blanks. *)
Example cors_origins_examples :
  cors_origins "http://localhost:3000,http://localhost:3001,http://localhost:5173"
  = ["http://localhost:3000"; "http://localhost:3001"; "http://localhost:5173"] /\
  cors_origins " https://a.example ,, https://b.example"
  = ["https://a.example"; "https://b.example"] /\
  cors_origins "" = [].
Proof. repeat split; reflexivity. Qed.

Lemma shares_out_of_reach_witness :
  counters (fst (snd (serve default_settings (Some healthy) (clock_at noon)
                        (analyze_from ∅ (Some "10.0.0.1")) (answers 200) fresh_world)))
    !! share_key "abc"
  = counters fresh_world !! share_key "abc".
Proof.
  pose proof (shares_out_of_reach "abc") as (_ & _ & P).
  exact (P default_settings (Some healthy) (clock_at noon)
           (analyze_from ∅ (Some "10.0.0.1")) (answers 200) fresh_world
           (answers_keeps_key 200 (share_key "abc"))).
Defined.

Lemma production_start_is_complete_witness :
  available {| _client := Some GenaiClient; _validated := true |} = true.
Proof.
  pose proof (production_start_is_complete default_settings (Ok healthy) (Ok tt)
                {| _client := Some GenaiClient; _validated := false |}) as [P _].
  destruct (P eq_refl (Some healthy) {| _client := Some GenaiClient; _validated := true |}
              eq_refl) as [A _].
  exact A.
Defined.

Lemma language_is_normalised_witness :
  validate_language " PyThOn " = str_lower (Py.strip " PyThOn ").
Proof.
  pose proof (language_is_normalised " PyThOn ") as (_ & P & _).
  apply P. vm_compute. right. right. right. left. reflexivity.
Defined.

Lemma filename_is_sanitised_witness :
  validate_filename default_extensions "../../etc/passwd" <> "" /\
  all_chars plain_char (validate_filename default_extensions "../../etc/passwd") = true.
Proof.
  pose proof (filename_is_sanitised default_extensions "../../etc/passwd") as (P & Q & _).
  split; [exact P | exact Q].
Defined.

Lemma analysis_failures_are_server_errors_witness :
  analyze_code true true provider_long_snippet fresh_world
  = (Raised (HTTPException 500 "Analysis failed"),
     with_telemetry (snd (provider_long_snippet (with_telemetry fresh_world bump_requests_total)))
       bump_requests_failed).
Proof.
  assert (Hv : validate_issue_snippets
                 [Some (string_of_list_ascii (repeat "x"%char 5000))] = false)
    by (vm_compute; reflexivity).
  pose proof (analysis_failures_are_server_errors true true provider_long_snippet fresh_world)
    as (_ & _ & _ & _ & P).
  exact (P eq_refl eq_refl
           {| raw_issues := [Some (string_of_list_ascii (repeat "x"%char 5000))];
              building := None |} eq_refl Hv).
Defined.

Lemma failed_analysis_counted_twice_witness :
  requests_failed
    (_telemetry (fst (snd (serve default_settings (Some healthy) (clock_at noon)
                             (analyze_from ∅ (Some "10.0.0.1"))
                             (route_handler (analyze_code true true provider_times_out)
                                (JSONResponse 200 [] []))
                             fresh_world)))) = 2.
Proof.
  assert (H1 : 0 <= read (counters fresh_world)
                      (_ip_key (at_ip_key (clock_at noon))
                         (get_client_ip (analyze_from ∅ (Some "10.0.0.1")))) < INT64_MAX)
    by (split; vm_compute; [discriminate | reflexivity]).
  assert (H2 : 0 <= read (counters fresh_world)
                      (_global_key (at_global_key (clock_at noon))) < INT64_MAX)
    by (split; vm_compute; [discriminate | reflexivity]).
  assert (H3 : read (counters fresh_world)
                 (_ip_key (at_ip_key (clock_at noon))
                    (get_client_ip (analyze_from ∅ (Some "10.0.0.1")))) + 1
               <= DAILY_RATE_LIMIT default_settings)
    by (vm_compute; discriminate).
  assert (H4 : read (counters fresh_world)
                 (_global_key (at_global_key (clock_at noon))) + 1
               <= GLOBAL_RATE_LIMIT default_settings)
    by (vm_compute; discriminate).
  assert (Hk : forall w', counters (snd (provider_times_out w')) = counters w')
    by (intros w'; reflexivity).
  assert (Hf : fst (analyze_code true true provider_times_out
                      (with_counters fresh_world
                         (<[_global_key (at_global_key (clock_at noon))
                            := bumped 90000
                                 (counters fresh_world
                                    !! _global_key (at_global_key (clock_at noon)))]>
                            (<[_ip_key (at_ip_key (clock_at noon))
                                 (get_client_ip (analyze_from ∅ (Some "10.0.0.1")))
                               := bumped 90000
                                    (counters fresh_world
                                       !! _ip_key (at_ip_key (clock_at noon))
                                            (get_client_ip
                                               (analyze_from ∅ (Some "10.0.0.1"))))]>
                               (counters fresh_world)))))
               <> Returned)
    by (unfold analyze_code, provider_times_out; simpl; discriminate).
  pose proof (failed_analysis_counted_twice default_settings healthy (clock_at noon)
                (analyze_from ∅ (Some "10.0.0.1")) provider_times_out
                (JSONResponse 200 [] []) fresh_world
                eq_refl eq_refl eq_refl H1 H2 H3 H4 Hk Hf) as (_ & _ & _ & _ & _ & P).
  rewrite P. reflexivity.
Defined.

(** What the validators make of some names. *)
Example validate_filename_examples :
  validate_filename default_extensions " main.PY " = "main.PY" /\
  validate_filename default_extensions "../../etc/passwd" = "..." /\
  validate_filename default_extensions "a.exe.bad" = "a.exe" /\
  validate_filename default_extensions "..x" = "." /\
  validate_filename default_extensions ".bashrc" = "untitled" /\
  validate_filename default_extensions "/ notes.txt" = " notes" /\
  validate_filename default_extensions "   " = "untitled" /\
  validate_filename "" "a.exe" = "a.exe".
Proof. repeat split; vm_compute; reflexivity. Qed.

Example validate_language_examples :
  validate_language " PyThOn " = "python" /\
  validate_language "c++" = "auto" /\
  validate_language "" = "auto".
Proof. repeat split; vm_compute; reflexivity. Qed.
